(** * jest-github-action: report rendering, budget truncation, annotations

    A shallow embedding of the pure core of [src/action.ts] and the
    properties of it that the specification states.

    Conventions of the embedding.
    - A JavaScript string is a [string]: one [ascii] stands for one UTF-16
      code unit, so [String.length] is the [.length] of the source.
    - A JavaScript number that holds a length, a count or a character budget
      is a [Z]; the budget can also be [Infinity].
    - An array is a [list]; [Array.prototype.map] with a callback that reads
      and writes captured variables is a map that threads those variables
      as explicit state.
    - A plain object used as a dictionary is an association list of its own
      properties in creation order, enumerated as ECMAScript prescribes.
    - A function that logs or throws returns the events it logged, in
      order, and how it ended; a thrown value is an [Error] object, with the
      name of its class and its message, or a value of another kind. *)

From Stdlib Require Import ZArith List String Ascii Bool Lia.
From Stdlib Require Import Numbers.DecimalString.
From Stdlib Require Import Sorting.Sorted Sorting.Permutation.
Import ListNotations.

Open Scope string_scope.
Open Scope Z_scope.

(* ================================================================== *)
(** ** JavaScript primitives used by the source *)

Module JS.

(** The one-character string that holds a double quote. *)
Definition dquote : string := String (ascii_of_nat 34) EmptyString.

(** [s.length] *)
Definition strlen (s : string) : Z := Z.of_nat (String.length s).

(** [arr.join(sep)] on an array of strings. *)
Definition join (sep : string) (l : list string) : string :=
  String.concat sep l.

(** [arr.map((x, i) => f(x, i))]: the callback also receives the index. *)
Fixpoint mapi_from {A B : Type} (f : A -> nat -> B) (i : nat) (l : list A)
  : list B :=
  match l with
  | [] => []
  | x :: l' => f x i :: mapi_from f (S i) l'
  end.

Definition mapi {A B : Type} (f : A -> nat -> B) (l : list A) : list B :=
  mapi_from f 0%nat l.

(** A character budget: a finite number or [Infinity]. *)
Inductive limit : Type :=
| Finite (n : Z)
| Infinity.

(** [n <= l] for a finite count [n]. *)
Definition leb_limit (n : Z) (l : limit) : bool :=
  match l with
  | Finite m => n <=? m
  | Infinity => true
  end.

(** [l === Infinity ? Infinity : l - k] *)
Definition limit_sub (l : limit) (k : Z) : limit :=
  match l with
  | Finite m => Finite (m - k)
  | Infinity => Infinity
  end.

(** [str.substring(a, b)]: both ends are clamped to [0 .. str.length] and
    swapped when out of order. *)
Definition substring (a b : Z) (s : string) : string :=
  let clamp := fun i => Z.min (Z.max i 0) (strlen s) in
  let lo := Z.min (clamp a) (clamp b) in
  let hi := Z.max (clamp a) (clamp b) in
  String.substring (Z.to_nat lo) (Z.to_nat (hi - lo)) s.

(** [str.substring(a)] *)
Definition substring_from (a : Z) (s : string) : string :=
  substring a (strlen s) s.

(** The line feed the source writes as a backslash followed by n. *)
Definition nl : string := String (ascii_of_nat 10) EmptyString.

(** Number::toString of a non-negative integer count (below 10^21 the
    result is the plain decimal numeral). *)
Definition Number_toString (n : N) : string :=
  NilZero.string_of_uint (N.to_uint n).

(** Truthiness of a string: every string but the empty one. *)
Definition truthy (s : string) : bool :=
  negb (s =? "")%string.

Fixpoint drop (n : nat) (s : string) : string :=
  match n, s with
  | O, _ => s
  | S n', String _ s' => drop n' s'
  | S _, EmptyString => EmptyString
  end.

(** [s.replace(pattern, replacement)] with a string pattern: the first
    occurrence of [pattern], searched from the left, is replaced; without
    an occurrence the string is returned as it is. [replacement] holds no
    dollar sign (the source always passes the empty string). *)
Fixpoint String_replace (pattern replacement s : string) : string :=
  if prefix pattern s then
    replacement ++ drop (String.length pattern) s
  else
    match s with
    | EmptyString => EmptyString
    | String c s' => String c (String_replace pattern replacement s')
    end.

(** [Array(n).fill(x)] *)
Definition array_fill {A : Type} (n : Z) (x : A) : list A :=
  repeat x (Z.to_nat n).

(** A thrown value: an [Error] object, given by the name of its class and
    its message, or a value of another kind, given by its conversion to a
    string. *)
Inductive thrown : Type :=
| ErrorObject (name message : string)
| NotAnError (text : string).

(** [String(error)], which is also what a template literal writes for
    [error]: for an [Error] object, Error.prototype.toString. *)
Definition String_of_thrown (error : thrown) : string :=
  match error with
  | ErrorObject name message =>
      if (name =? "")%string then message
      else if (message =? "")%string then name
      else name ++ ": " ++ message
  | NotAnError text => text
  end.

(** [error instanceof Error ? error.message : String(error)] *)
Definition message_of_thrown (error : thrown) : string :=
  match error with
  | ErrorObject _ message => message
  | NotAnError text => text
  end.

End JS.

(* ================================================================== *)
(** ** [toHTMLTableRow] and [toHTMLTable] (action.ts, lines 174-224) *)

Module Table.
Import JS.

Definition Row : Type := list string.
Definition CellFormatter : Type := string -> nat -> string.

(** The two variables the [map] callback of [toHTMLTableRow] captures and
    updates. *)
Record RowState : Type := mkRowState {
  charCount : Z;
  truncated : bool
}.

(** [`<tr>${row.map(formatCellCB).join("")}</tr>`] *)
Definition rowTag (formatCellCB : CellFormatter) (row : Row) : string :=
  "<tr>" ++ join "" (mapi formatCellCB row) ++ "</tr>".

(** [["truncated..."].concat(Array(Math.max((rows[0] ?? []).length - 1, 0)).fill(""))] *)
Definition dummyRow (rows : list Row) : Row :=
  (["truncated..."]
    ++ array_fill (Z.max (Z.of_nat (List.length (hd [] rows)) - 1) 0) "")%list.

(** One call of the callback of [rows.map]: the string it returns and the
    state it leaves. *)
Definition rowCallback (rows : list Row) (formatCellCB : CellFormatter)
    (charLimit : limit) (st : RowState) (row : Row) : string * RowState :=
  let tag := rowTag formatCellCB row in
  let count := charCount st + strlen tag in
  if leb_limit count charLimit then
    (tag, mkRowState count (truncated st))
  else if truncated st then
    ("", mkRowState count true)
  else
    (rowTag formatCellCB (dummyRow rows), mkRowState count true).

(** [rows.map(callback)], state threaded from left to right. [rows] is the
    whole array (the callback reads [rows[0]]), [todo] what is left of it. *)
Fixpoint mapRows (rows : list Row) (formatCellCB : CellFormatter)
    (charLimit : limit) (st : RowState) (todo : list Row) : list string :=
  match todo with
  | [] => []
  | row :: todo' =>
      let (out, st') := rowCallback rows formatCellCB charLimit st row in
      out :: mapRows rows formatCellCB charLimit st' todo'
  end.

Definition openingTagOf (wrapperElement : string) : string :=
  "<" ++ wrapperElement ++ ">".

Definition closingTagOf (wrapperElement : string) : string :=
  "</" ++ wrapperElement ++ ">".

(** The count the accounting starts from: both wrapper tags. *)
Definition wrapperCost (wrapperElement : string) : Z :=
  strlen (openingTagOf wrapperElement) + strlen (closingTagOf wrapperElement).

Definition toHTMLTableRow (rows : list Row) (formatCellCB : CellFormatter)
    (wrapperElement : string) (charLimit : limit) : string :=
  let openingTag := openingTagOf wrapperElement in
  let closingTag := closingTagOf wrapperElement in
  let st0 := mkRowState (strlen openingTag + strlen closingTag) false in
  openingTag
    ++ join "" (mapRows rows formatCellCB charLimit st0 rows)
    ++ closingTag.

(** [(cell) => `<th>${cell}</th>`] *)
Definition thCell : CellFormatter :=
  fun cell _ => "<th>" ++ cell ++ "</th>".

(** The cell callback of the table body: a [td] element, which carries the
    attributes [nowrap] and [align] (right) when [i > 0]. *)
Definition tdCell : CellFormatter :=
  fun cell i =>
    "<td" ++ (if (0 <? i)%nat
              then " nowrap=" ++ dquote ++ "nowrap" ++ dquote
                     ++ " align=" ++ dquote ++ "right" ++ dquote
              else "")
          ++ ">" ++ cell ++ "</td>".

Definition tableOpeningTag : string :=
  "<table width=" ++ dquote ++ "100%" ++ dquote ++ ">".

Definition tableClosingTag : string := "</table>".

(** [toHTMLTable(headers, rows, charLimit = Infinity)] *)
Definition toHTMLTable (headers : Row) (rows : list Row) (charLimit : limit)
  : string :=
  let headerHtml := toHTMLTableRow [headers] thCell "thead" Infinity in
  let remainingChars :=
    limit_sub charLimit
      (strlen tableOpeningTag + strlen tableClosingTag + strlen headerHtml) in
  let bodyHtml := toHTMLTableRow rows tdCell "tbody" remainingChars in
  join "" [tableOpeningTag; headerHtml; bodyHtml; tableClosingTag].

End Table.

(* ================================================================== *)
(** ** Effects: logging through [core] and [console], exceptions *)

Module Eff.

(** What the code tells the runner through [@actions/core] ([core.info],
    [core.warning], [core.error], [core.setFailed]), and what it writes
    with [console.error]. *)
Inductive Event : Type :=
| Info (msg : string)
| Warning (msg : string)
| Error (msg : string)
| SetFailed (msg : string)
| ConsoleError (error : JS.thrown).

(** A call either returns or throws; a promise either resolves or is
    rejected. *)
Inductive outcome (A : Type) : Type :=
| Ok (a : A)
| Throw (error : JS.thrown).
Arguments Ok {A} a.
Arguments Throw {A} error.

(** A computation: the events it logged, in order, and how it ended. *)
Definition t (A : Type) : Type := (list Event * outcome A)%type.

Definition ret {A : Type} (a : A) : t A := ([], Ok a).

Definition bind {A B : Type} (c : t A) (k : A -> t B) : t B :=
  match c with
  | (log, Ok a) => let (log', r) := k a in ((log ++ log')%list, r)
  | (log, Throw e) => (log, Throw e)
  end.

Definition emit (e : Event) : t unit := ([e], Ok tt).

Definition lift {A : Type} (o : outcome A) : t A := ([], o).

(** [try { c } catch (error) { handler(error) }] *)
Definition try_catch {A : Type} (c : t A) (handler : JS.thrown -> t A)
  : t A :=
  match c with
  | (log, Ok a) => (log, Ok a)
  | (log, Throw e) => let (log', r) := handler e in ((log ++ log')%list, r)
  end.

Definition events {A : Type} (c : t A) : list Event := fst c.
Definition result {A : Type} (c : t A) : outcome A := snd c.

End Eff.

Notation "x <- c ;; k" := (Eff.bind c (fun x => k))
  (at level 61, c at next level, right associativity).
Notation "c ;;; k" := (Eff.bind c (fun _ => k))
  (at level 61, right associativity).

(* ================================================================== *)
(** ** Plain objects used as dictionaries *)

Module JSObject.
Import JS.

(** The own, string-keyed properties of an object literal, in the order
    they were created. *)
Definition t (V : Type) : Type := list (string * V).

Definition empty {V : Type} : t V := [].

(** The properties every object literal inherits from [Object.prototype]. *)
Definition objectPrototypeKeys : list string :=
  [ "constructor"; "__defineGetter__"; "__defineSetter__"; "hasOwnProperty";
    "__lookupGetter__"; "__lookupSetter__"; "isPrototypeOf";
    "propertyIsEnumerable"; "toString"; "valueOf"; "__proto__";
    "toLocaleString" ].

Definition inherited (k : string) : bool :=
  existsb (String.eqb k) objectPrototypeKeys.

Fixpoint getOwn {V : Type} (k : string) (o : t V) : option V :=
  match o with
  | [] => None
  | (k', v) :: o' => if (k' =? k)%string then Some v else getOwn k o'
  end.

Definition hasOwn {V : Type} (k : string) (o : t V) : bool :=
  match getOwn k o with Some _ => true | None => false end.

(** [k in o]: an own property or an inherited one. *)
Definition has {V : Type} (k : string) (o : t V) : bool :=
  hasOwn k o || inherited k.

(** Writing an own property: an existing one keeps its place, a new one
    goes last. *)
Fixpoint set {V : Type} (k : string) (v : V) (o : t V) : t V :=
  match o with
  | [] => [(k, v)]
  | (k', v') :: o' =>
      if (k' =? k)%string then (k', v) :: o' else (k', v') :: set k v o'
  end.

(** An array index: the canonical decimal numeral of an integer in
    [0 .. 2^32 - 2]. *)
Definition arrayIndex (k : string) : option N :=
  match NilEmpty.uint_of_string k with
  | Some d =>
      let n := N.of_uint d in
      if (Number_toString n =? k)%string && (n <? 4294967295)%N
      then Some n else None
  | None => None
  end.

Definition isArrayIndex (k : string) : bool :=
  match arrayIndex k with Some _ => true | None => false end.

Definition indexOf (k : string) : N :=
  match arrayIndex k with Some n => n | None => 0%N end.

Fixpoint insertByIndex {V : Type} (e : string * V) (l : list (string * V))
  : list (string * V) :=
  match l with
  | [] => [e]
  | e' :: l' =>
      if (indexOf (fst e) <=? indexOf (fst e'))%N then e :: e' :: l'
      else e' :: insertByIndex e l'
  end.

Definition sortByIndex {V : Type} (l : list (string * V))
  : list (string * V) :=
  fold_right insertByIndex [] l.

(** [Object.entries(o)]: the properties whose key is an array index come
    first, in ascending numeric order; the others follow in creation
    order (OrdinaryOwnPropertyKeys). *)
Definition entries {V : Type} (o : t V) : list (string * V) :=
  (sortByIndex (filter (fun e => isArrayIndex (fst e)) o)
    ++ filter (fun e => negb (isArrayIndex (fst e))) o)%list.

End JSObject.

(* ================================================================== *)
(** ** [truncateLeft], [truncateRight] (action.ts, lines 239-257) *)

Module Truncate.
Import JS.

Definition truncateLeft (str : string) (len : Z) : string :=
  if strlen str <? len then str
  else
    let subStr := substring_from (strlen str - len) str in
    "..." ++ subStr.

Definition truncateRight (str : string) (len : Z) : string :=
  if strlen str <? len then str
  else
    let subStr := substring 0 len str in
    subStr ++ "...".

End Truncate.

(* ================================================================== *)
(** ** Data model: coverage data, test results, what the action produces *)

Module Model.

(** A percentage as the formatter can receive it: a number, or [undefined]
    when the metric was not measured (the source silences the type checker
    with a non-null assertion, which does nothing at run time). *)
Inductive pctValue (number : Type) : Type :=
| Undefined
| Number (x : number).
Arguments Undefined {number}.
Arguments Number {number} x.

(** istanbul's [Totals]; the source reads [pct] only. *)
Record Totals (number : Type) : Type := mkTotals {
  pct : pctValue number
}.
Arguments mkTotals {number} pct.
Arguments pct {number} t.

Record CoverageSummary (number : Type) : Type := mkCoverageSummary {
  statements : Totals number;
  branches : Totals number;
  functions : Totals number;
  lines : Totals number
}.
Arguments mkCoverageSummary {number}.
Arguments statements {number} c.
Arguments branches {number} c.
Arguments functions {number} c.
Arguments lines {number} c.

(** The coverage map as [createCoverageMap] presents it. *)
Record CoverageMap (number : Type) : Type := mkCoverageMap {
  (** [files()], which is [Object.keys(data)] *)
  files : list string;
  getCoverageSummary : CoverageSummary number;
  (** [fileCoverageFor(absolute).toSummary()] *)
  fileSummary : string -> CoverageSummary number
}.
Arguments mkCoverageMap {number}.
Arguments files {number} c.
Arguments getCoverageSummary {number} c.
Arguments fileSummary {number} c.

Record File (number : Type) : Type := mkFile {
  relative : string;
  fileName : string;
  path : string;
  coverage : CoverageSummary number
}.
Arguments mkFile {number}.
Arguments relative {number} f.
Arguments fileName {number} f.
Arguments path {number} f.
Arguments coverage {number} f.

(** Jest's [Callsite]. *)
Record Callsite : Type := mkCallsite {
  column : Z;
  line : Z
}.

(** Jest's [FormattedAssertionResult], the fields the source reads. *)
Record AssertionResult : Type := mkAssertionResult {
  status : string;
  ancestorTitles : list string;
  title : string;
  (** [location?: Callsite | null] *)
  location : option Callsite;
  (** [failureMessages: string[] | null] *)
  failureMessages : option (list string)
}.

Record TestResult : Type := mkTestResult {
  name : string;
  assertionResults : list AssertionResult
}.

Record FormattedTestResults (number : Type) : Type :=
  mkFormattedTestResults {
  success : bool;
  numPassedTests : N;
  numFailedTests : N;
  numTotalTests : N;
  numPassedTestSuites : N;
  numTotalTestSuites : N;
  testResults : list TestResult;
  (** absent when jest ran without coverage *)
  coverageMap : option (CoverageMap number)
}.
Arguments mkFormattedTestResults {number}.
Arguments success {number} f.
Arguments numPassedTests {number} f.
Arguments numFailedTests {number} f.
Arguments numTotalTests {number} f.
Arguments numPassedTestSuites {number} f.
Arguments numTotalTestSuites {number} f.
Arguments testResults {number} f.
Arguments coverageMap {number} f.

Inductive AnnotationLevel : Type := failure | notice | warning.

Record Annotation : Type := mkAnnotation {
  ann_path : string;
  start_line : Z;
  end_line : Z;
  annotation_level : AnnotationLevel;
  ann_title : string;
  message : string
}.

Record CheckOutput : Type := mkCheckOutput {
  out_title : string;
  text : string;
  summary : string;
  annotations : list Annotation
}.

(** The parameters of [checks.create]. *)
Record CheckPayload : Type := mkCheckPayload {
  check_owner : string;
  check_repo : string;
  head_sha : string;
  check_name : string;
  check_status : string;
  conclusion : string;
  output : CheckOutput
}.

(** The parameters of [issues.createComment]. *)
Record CommentPayload : Type := mkCommentPayload {
  comment_owner : string;
  comment_repo : string;
  body : string;
  issue_number : N
}.

End Model.

(* ================================================================== *)
(** ** Coverage bands and the coverage table (action.ts, lines 154-172,
       226-237, 259-308) *)

Module Coverage.
Import JS Table Truncate Model.

Definition COVERAGE_HEADER : string := "# :open_umbrella: Code Coverage".
Definition CHAR_LIMIT : Z := 60000.

Section Bands.
(** JavaScript numbers are doubles; the formatter needs the comparison
    with an integer constant and the conversion to a string. *)
Variable number : Type.
Variable number_gtb : number -> Z -> bool.
Variable number_toString : number -> string.

(** [v > k]: [undefined] converts to NaN, which compares false. *)
Definition gtb (v : pctValue number) (k : Z) : bool :=
  match v with
  | Undefined => false
  | Number x => number_gtb x k
  end.

(** [`${v}`] *)
Definition toString (v : pctValue number) : string :=
  match v with
  | Undefined => "undefined"
  | Number x => number_toString x
  end.

Definition formatIfPoor (number_ : pctValue number) : string :=
  if gtb number_ 80 then toString number_ ++ " :green_circle:"
  else if gtb number_ 65 then toString number_ ++ " :yellow_circle:"
  else if gtb number_ 50 then toString number_ ++ " :orange_circle:"
  else toString number_ ++ " :red_circle:".

Definition summaryToRow (f : CoverageSummary number) : list string :=
  [ formatIfPoor (pct (statements f));
    formatIfPoor (pct (branches f));
    formatIfPoor (pct (functions f));
    formatIfPoor (pct (lines f)) ].

(** The reducer of [getCoverageTable]. [dirs[file.path].push(file)]
    throws a TypeError when [file.path] names a property inherited from
    [Object.prototype]: [in] finds it there, no own array is created, and
    what is read back has no [push]. *)
Definition groupByPath (dirs : JSObject.t (list (File number)))
    (file : File number) : Eff.outcome (JSObject.t (list (File number))) :=
  let dirs1 :=
    if negb (JSObject.has (path file) dirs)
    then JSObject.set (path file) [] dirs
    else dirs in
  match JSObject.getOwn (path file) dirs1 with
  | Some arr => Eff.Ok (JSObject.set (path file) (arr ++ [file])%list dirs1)
  | None =>
      Eff.Throw (ErrorObject "TypeError"
                   "dirs[file.path].push is not a function")
  end.

(** [arr.reduce(groupByPath, init)] *)
Fixpoint reduce_groupByPath (arr : list (File number))
    (init : JSObject.t (list (File number)))
  : Eff.outcome (JSObject.t (list (File number))) :=
  match arr with
  | [] => Eff.Ok init
  | file :: arr' =>
      match groupByPath init file with
      | Eff.Ok dirs => reduce_groupByPath arr' dirs
      | Eff.Throw e => Eff.Throw e
      end
  end.

(** Node's [path.relative], [path.basename] and [path.dirname], and the
    process's working directory. *)
Variable path_relative : string -> string -> string.
Variable path_basename : string -> string.
Variable path_dirname : string -> string.
Variable rootPath : string.

Definition parseFile (coverageMap : CoverageMap number) (absolute : string)
  : File number :=
  let relative := path_relative rootPath absolute in
  let fileName := path_basename relative in
  let p := path_dirname relative in
  let coverage := fileSummary coverageMap absolute in
  mkFile relative fileName p coverage.

(** The rows of one directory: its header row, then a row per file. *)
Definition directoryRows (entry : string * list (File number))
  : list Row :=
  let (dir, files) := entry in
  ["<b>" ++ truncateLeft dir 50 ++ "</b>"; ""; ""; ""; ""]
    :: map (fun file =>
              ("<code>" ++ fileName file ++ "</code>")
                :: summaryToRow (coverage file))
           files.

Definition headers : Row := ["% Stmts"; "% Branch"; "% Funcs"; "% Lines"].

Definition getCoverageTable (results : FormattedTestResults number)
    (cwd : string) : Eff.t string :=
  match coverageMap results with
  | None =>
      Eff.emit (Eff.Warning "No coverage map found") ;;;
      Eff.ret ""
  | Some coverageMap =>
      if (List.length (files coverageMap) =? 0)%nat then
        Eff.emit (Eff.Warning "No entries found in coverage data") ;;;
        Eff.ret ""
      else
        let summary := summaryToRow (getCoverageSummary coverageMap) in
        let summaryTable := toHTMLTable headers [summary] Infinity in
        let fullHeaders := "File" :: headers in
        files <- Eff.lift
                   (reduce_groupByPath
                      (map (parseFile coverageMap) (files coverageMap))
                      JSObject.empty) ;;
        let rows := List.concat (map directoryRows (JSObject.entries files)) in
        let fullTable := toHTMLTable fullHeaders rows (Finite CHAR_LIMIT) in
        let lines :=
          [ COVERAGE_HEADER; summaryTable; ""; "<details>";
            "<summary>Click to expand</summary>" ++ nl; fullTable;
            "</details>" ] in
        Eff.ret (join nl lines)
  end.

End Bands.

End Coverage.

(* ================================================================== *)
(** ** [getAnnotations] and [getCheckPayload] (action.ts, lines 321-345,
       405-432) *)

Module Check.
Import JS Truncate Model.

Definition ACTION_NAME : string := "jest-github-action".

Section Collaborators.
(** [strip-ansi], [JSON.stringify] on the annotations, and the identity of
    the commit and repository that [@actions/github] supplies:
    [context.sha], and [context.payload.pull_request?.head.sha], which is
    absent when the event has no pull request. *)
Variable strip : string -> string.
Variable JSON_stringify : list Annotation -> string.
Variable context_owner context_repo : string.
Variable context_sha : string.
Variable pull_request_head_sha : option string.

(** [assertion.location?.line ?? 0] *)
Definition lineOf (assertion : AssertionResult) : Z :=
  match location assertion with
  | Some loc => line loc
  | None => 0
  end.

(** [assertion.failureMessages?.join(sep) ?? ""], [sep] being two line feeds *)
Definition joinedFailureMessages (assertion : AssertionResult) : string :=
  match failureMessages assertion with
  | Some msgs => join (nl ++ nl) msgs
  | None => ""
  end.

(** The annotation built for one failed assertion of the suite [result]. *)
Definition annotationOf (cwd : string) (result : TestResult)
    (assertion : AssertionResult) : Annotation :=
  {| ann_path := String_replace cwd "" (name result);
     start_line := lineOf assertion;
     end_line := lineOf assertion;
     annotation_level := failure;
     ann_title :=
       join " > " (ancestorTitles assertion ++ [title assertion])%list;
     message := strip (joinedFailureMessages assertion) |}.

(** lodash's [filter(assertionResults, ["status", "failed"])] *)
Definition failedAssertions (result : TestResult) : list AssertionResult :=
  filter (fun a => (status a =? "failed")%string) (assertionResults result).

Definition getAnnotations {number : Type}
    (results : FormattedTestResults number) (cwd : string)
  : Eff.t (list Annotation) :=
  if success results then Eff.ret []
  else
    let annotations :=
      flat_map (fun result =>
                  map (annotationOf cwd result) (failedAssertions result))
               (testResults results) in
    Eff.emit (Eff.Info ("Annotations: " ++ JSON_stringify annotations)) ;;;
    Eff.ret annotations.

(** [context.payload.pull_request?.head.sha ?? context.sha] *)
Definition getSha : Eff.t string :=
  let sha :=
    match pull_request_head_sha with
    | Some head_sha => head_sha
    | None => context_sha
    end in
  Eff.emit (Eff.Info ("SHA: " ++ sha)) ;;;
  Eff.ret sha.

(** [`${out ? out : ""}${err ? sep + err : ""}`], [sep] being two line feeds *)
Definition outputText (out err : option string) : string :=
  (match out with
   | Some o => if truthy o then o else ""
   | None => ""
   end)
  ++ (match err with
      | Some e => if truthy e then nl ++ nl ++ e else ""
      | None => ""
      end).

Definition summaryText {number : Type}
    (results : FormattedTestResults number) : string :=
  if success results then
    Number_toString (numPassedTests results) ++ " tests passing in "
      ++ Number_toString (numPassedTestSuites results) ++ " suite"
      ++ (if (1 <? numPassedTestSuites results)%N then "s" else "") ++ "."
  else
    "Failed tests: " ++ Number_toString (numFailedTests results) ++ "/"
      ++ Number_toString (numTotalTests results) ++ ". Failed suites: "
      ++ Number_toString (numFailedTests results) ++ "/"
      ++ Number_toString (numTotalTestSuites results) ++ ".".

Definition getCheckPayload {number : Type}
    (results : FormattedTestResults number) (cwd : string)
    (out err : option string) : Eff.t CheckPayload :=
  sha <- getSha ;;
  annotations <- getAnnotations results cwd ;;
  Eff.ret
    {| check_owner := context_owner;
       check_repo := context_repo;
       head_sha := sha;
       check_name := ACTION_NAME;
       check_status := "completed";
       conclusion := if success results then "success" else "failure";
       output :=
         {| out_title :=
              if success results then "Jest tests passed"
              else "Jest tests failed";
            text := truncateRight (outputText out err) Coverage.CHAR_LIMIT;
            summary := summaryText results;
            annotations := annotations |} |}.

End Collaborators.
End Check.

(* ================================================================== *)
(** ** The end of [run]: the coverage comment and the exit signal
       (action.ts, lines 78-102, 310-319, 399-403) *)

Module Run.
Import JS Model.

Section Collaborators.
Variable number : Type.
Variable number_gtb : number -> Z -> bool.
Variable number_toString : number -> string.
Variable path_relative : string -> string -> string.
Variable path_basename : string -> string.
Variable path_dirname : string -> string.
Variable rootPath : string.

(** What the environment supplies: the pull request number (0 without a
    pull request), the [coverage-comment] input, the repository, and the two
    calls that reach the network: [deletePreviousComments], which logs and
    can throw, and the request [octokit.rest.issues.createComment], whose
    promise resolves or is rejected. *)
Variable context_owner context_repo : string.
Variable pull_request_number : N.
Variable shouldCommentCoverage : bool.
Variable deletePreviousComments : Eff.t unit.
Variable issues_createComment : CommentPayload -> Eff.outcome unit.

Definition getPullId : Eff.t N :=
  Eff.emit (Eff.Info ("Pull ID: " ++ Number_toString pull_request_number)) ;;;
  Eff.ret pull_request_number.

Definition getCommentPayload (body : string) : Eff.t CommentPayload :=
  pullId <- getPullId ;;
  Eff.ret {| comment_owner := context_owner;
             comment_repo := context_repo;
             body := body;
             issue_number := pullId |}.

(** Lines 78-98 of [run]: the coverage comment, then the exit signal. The
    request that creates the comment carries its own [then] and [catch]:
    a rejection is logged and goes no further. *)
Definition reportCoverage (results : FormattedTestResults number)
    (CWD : string) : Eff.t unit :=
  pullId <- getPullId ;;
  (if negb (pullId =? 0)%N && shouldCommentCoverage then
     comment <- Coverage.getCoverageTable number number_gtb number_toString
                  path_relative path_basename path_dirname rootPath
                  results CWD ;;
     if truthy comment then
       deletePreviousComments ;;;
       commentPayload <- getCommentPayload comment ;;
       match issues_createComment commentPayload with
       | Eff.Ok _ => Eff.emit (Eff.Info "Comment created")
       | Eff.Throw error =>
           Eff.emit (Eff.Error ("Error creating comment: "
                                  ++ String_of_thrown error)) ;;;
           Eff.emit (Eff.SetFailed ("Error creating comment: "
                                      ++ String_of_thrown error))
       end
     else Eff.ret tt
   else Eff.ret tt) ;;;
  if negb (success results) then
    Eff.emit (Eff.SetFailed "Some jest tests failed.")
  else Eff.ret tt.

(** The [catch] of [run] (lines 99-102):
    [console.error(error); core.setFailed(error instanceof Error ? error.message : String(error))] *)
Definition catchOfRun (error : thrown) : Eff.t unit :=
  Eff.emit (Eff.ConsoleError error) ;;;
  Eff.emit (Eff.SetFailed (message_of_thrown error)).

(** The same lines inside the [try] of [run], whose [catch] turns an
    exception into a failed run. *)
Definition runCoverage (results : FormattedTestResults number)
    (CWD : string) : Eff.t unit :=
  Eff.try_catch (reportCoverage results CWD) catchOfRun.

End Collaborators.
End Run.

(* ================================================================== *)
(** ** Vocabulary of the statements *)

Module TableSpec.
Import JS Table.

(** The rendered size of one row and of a sequence of rows. *)
Definition rowSize (f : CellFormatter) (row : Row) : Z :=
  strlen (rowTag f row).

Definition rowsSize (f : CellFormatter) (rows : list Row) : Z :=
  fold_right (fun row acc => rowSize f row + acc) 0 rows.

(** The given rows, each rendered as it is, inside the wrapper. *)
Definition verbatim (f : CellFormatter) (wrapperElement : string)
    (rows : list Row) : string :=
  openingTagOf wrapperElement
    ++ join "" (map (rowTag f) rows)
    ++ closingTagOf wrapperElement.

(** The longest prefix of [todo] that the accounting accepts, the count
    standing at [count]. *)
Fixpoint keptRows (f : CellFormatter) (charLimit : limit) (count : Z)
    (todo : list Row) : list Row :=
  match todo with
  | [] => []
  | row :: todo' =>
      let count' := count + rowSize f row in
      if leb_limit count' charLimit
      then row :: keptRows f charLimit count' todo'
      else []
  end.

(** The rows the renderer emits: the kept rows, and the placeholder row
    after them when a row was refused. *)
Definition emittedRows (rows : list Row) (f : CellFormatter)
    (wrapperElement : string) (charLimit : limit) : list Row :=
  let kept := keptRows f charLimit (wrapperCost wrapperElement) rows in
  if (List.length kept =? List.length rows)%nat then kept
  else (kept ++ [dummyRow rows])%list.

(** The bound the specification states: the output is within the limit,
    or it is the wrapper and the placeholder row alone. *)
Definition withinBudget (rows : list Row) (f : CellFormatter)
    (wrapperElement : string) (n : Z) : Prop :=
  let out := toHTMLTableRow rows f wrapperElement (Finite n) in
  strlen out <= n
  \/ strlen out = wrapperCost wrapperElement + rowSize f (dummyRow rows).

(** A placeholder row as the specification words it: the label, then empty
    cells, as many cells in all as the first input row has. *)
Definition placeholderFor (rows : list Row) (p : Row) : Prop :=
  hd_error p = Some "truncated..."
  /\ Forall (fun cell => cell = "") (tl p)
  /\ List.length p = List.length (hd [] rows).

(** The same with the cell count the source computes. *)
Definition placeholderOf (rows : list Row) (p : Row) : Prop :=
  hd_error p = Some "truncated..."
  /\ Forall (fun cell => cell = "") (tl p)
  /\ List.length p = Nat.max (List.length (hd [] rows)) 1.

End TableSpec.

Module AnnotationSpec.
Import JS Model Check.





End AnnotationSpec.

Module CheckSpec.
Import JS Model.

(** The body text stays within the character limit. *)
Definition bodyWithinLimit (p : CheckPayload) : Prop :=
  strlen (text (output p)) <= Coverage.CHAR_LIMIT.

(** A string of [n] copies of the character [c]. *)
Fixpoint replicate (n : nat) (c : ascii) : string :=
  match n with
  | O => EmptyString
  | S n' => String c (replicate n' c)
  end.

End CheckSpec.

Module GroupingSpec.
Import JS Model.

(** The distinct elements of a list in the order of their first
    occurrence. *)
Fixpoint firstSeen (l : list string) : list string :=
  match l with
  | [] => []
  | x :: l' => x :: filter (fun y => negb (y =? x)%string) (firstSeen l')
  end.

(** The files of one directory, in the order of the file list. *)
Definition filesOf {number : Type} (files : list (File number)) (dir : string)
  : list (File number) :=
  filter (fun file => (path file =? dir)%string) files.

(** The groups in first-seen directory order, each with its files in the
    order of the file list. *)
Definition groupsFirstSeen {number : Type} (files : list (File number))
  : list (string * list (File number)) :=
  map (fun dir => (dir, filesOf files dir)) (firstSeen (map path files)).

(** Grouping, as the specification words it: the reduction returns, and
    enumerating its result gives the groups in first-seen order. *)
Definition groupingKeepsFirstSeenOrder {number : Type}
    (files : list (File number)) : Prop :=
  exists dirs,
    Coverage.reduce_groupByPath number files JSObject.empty = Eff.Ok dirs
    /\ JSObject.entries dirs = groupsFirstSeen files.

Definition keyIsIndex {V : Type} (e : string * V) : bool :=
  JSObject.isArrayIndex (fst e).

(** Ascending numeric order of the keys that are array indices. *)
Definition indexLe (V : Type) (a b : string * V) : Prop :=
  (JSObject.indexOf (fst a) <= JSObject.indexOf (fst b))%N.

End GroupingSpec.

(* ================================================================== *)
(** ** Inputs the statements are evaluated at *)

Module Examples.
Import JS Table Model.

(** The row of a fully covered file and the header row of its directory, as
    [getCoverageTable] builds them. *)
Definition fileRow : Row :=
  [ "<code>index.ts</code>"; "100 :green_circle:"; "100 :green_circle:";
    "100 :green_circle:"; "100 :green_circle:" ].

Definition dirRow : Row := ["<b>src</b>"; ""; ""; ""; ""].

(** The detail rows of a coverage map with 300 files in one directory. *)
Definition manyFileRows : list Row := dirRow :: repeat fileRow 300.

(** Percentages that are whole numbers, for the evaluations. *)
Definition Z_gtb (x k : Z) : bool := k <? x.

Definition Z_toString (x : Z) : string :=
  NilZero.string_of_int (Z.to_int x).

Definition fullCoverage : CoverageSummary Z :=
  let t := mkTotals (Number 100) in mkCoverageSummary t t t t.

Definition fileIn (dir fileName : string) : File Z :=
  mkFile (dir ++ "/" ++ fileName) fileName dir fullCoverage.

(** Two files, the second in a directory whose name is a number. *)
Definition filesWithNumericDirectory : list (File Z) :=
  [fileIn "src" "a.ts"; fileIn "10" "b.ts"].

Definition filesInTwoDirectories : list (File Z) :=
  [fileIn "src" "a.ts"; fileIn "lib" "b.ts"; fileIn "src" "c.ts"].

(** A run that passed, without coverage data, whose output is over the
    character limit by one character. *)
Definition passedRun : FormattedTestResults Z :=
  mkFormattedTestResults true 3 0 3 1 1 [] None.

Definition longOutput : string :=
  CheckSpec.replicate (Z.to_nat 60001) "a"%char.

(** The failing run of the specification's scenario. *)
Definition failedAssertion : AssertionResult :=
  mkAssertionResult "failed" ["Suite"] "does X" (Some (mkCallsite 3 12))
    (Some ["expected 1"; "received 2"]).

Definition passedAssertion : AssertionResult :=
  mkAssertionResult "passed" ["Suite"] "does Y" None None.

Definition failedRun : FormattedTestResults Z :=
  mkFormattedTestResults false 1 1 2 0 1
    [mkTestResult "/repo/foo.test" [passedAssertion; failedAssertion]] None.


End Examples.

(* ================================================================== *)
(** ** Further functions of action.ts *)

(** [getJestCommand] (action.ts, lines 146-152, 347-363) *)

Module Command.
Import JS.

(** [s.startsWith(p)] *)
Definition startsWith (s p : string) : bool := prefix p s.

Section Inputs.
(** [core.getInput("test-command")]; the two flags as
    [Boolean(JSON.parse(core.getInput(...)))] gives them, which throws when
    the input is not JSON; the base branch of the pull request, if any. *)
Variable test_command : string.
Variable shouldCommentCoverage : Eff.outcome bool.
Variable shouldRunOnlyChangedFiles : Eff.outcome bool.
Variable base_ref : option string.

(** The text the template puts between [--json] and [--outputFile]. *)
Definition coverageFlag (coverage : bool) : string :=
  if coverage then "--coverage" else "".

Definition changedSinceFlag (changesOnly : bool) : string :=
  match base_ref with
  | Some ref => if changesOnly && truthy ref then "--changedSince=" ++ ref
                else ""
  | None => ""
  end.

Definition getJestCommand (resultsFile : string) : Eff.outcome string :=
  let cmd := test_command in
  match shouldCommentCoverage with
  | Eff.Throw e => Eff.Throw e
  | Eff.Ok coverage =>
      match shouldRunOnlyChangedFiles with
      | Eff.Throw e => Eff.Throw e
      | Eff.Ok changesOnly =>
          let jestOptions :=
            "--testLocationInResults --json " ++ coverageFlag coverage
              ++ " " ++ changedSinceFlag changesOnly
              ++ " --outputFile=" ++ resultsFile in
          let shouldAddHyphen :=
            startsWith cmd "npm" || startsWith cmd "npx"
            || startsWith cmd "pnpm" || startsWith cmd "pnpx" in
          Eff.Ok (cmd ++ (if shouldAddHyphen then " -- " else " ")
                      ++ jestOptions)
      end
  end.

End Inputs.
End Command.

(** The comments [deletePreviousComments] selects (action.ts, lines
    126-131) *)

Module Comments.
Import JS.

Record User : Type := mkUser {
  login : string
}.

(** A comment as [issues.listComments] returns it, the fields the source
    reads: [user] can be null, [body] can be missing. *)
Record Comment : Type := mkComment {
  id : N;
  user : option User;
  comment_body : option string
}.

(** The callback of [data.filter]:
    [c.user?.login === "github-actions[bot]" && c.body?.startsWith(COVERAGE_HEADER)] *)
Definition isPreviousCoverageComment (c : Comment) : bool :=
  match user c with
  | Some u => (login u =? "github-actions[bot]")%string
  | None => false
  end
  && match comment_body c with
     | Some b => Command.startsWith b Coverage.COVERAGE_HEADER
     | None => false
     end.

(** The comments that are deleted, in the order of the listing. *)
Definition commentsToDelete (data : list Comment) : list Comment :=
  filter isPreviousCoverageComment data.

End Comments.

(** [asMarkdownCode] (action.ts, lines 434-436) *)

Module Markdown.
Import JS.

Section WhiteSpace.
(** The code units that [trimEnd] removes: ECMAScript's WhiteSpace and
    LineTerminator. *)
Variable isWhiteSpace : ascii -> bool.

(** [str.trimEnd()] *)
Fixpoint trimEnd (str : string) : string :=
  match str with
  | EmptyString => EmptyString
  | String c rest =>
      match trimEnd rest with
      | EmptyString => if isWhiteSpace c then EmptyString
                       else String c EmptyString
      | trimmed => String c trimmed
      end
  end.

Definition fence : string := "```".

Definition asMarkdownCode (str : string) : string :=
  fence ++ nl ++ trimEnd str ++ nl ++ fence.

(** Every code unit of the string is white space. *)
Fixpoint allWhiteSpace (s : string) : bool :=
  match s with
  | EmptyString => true
  | String c rest => isWhiteSpace c && allWhiteSpace rest
  end.

End WhiteSpace.
End Markdown.

(** [execJest] (action.ts, lines 369-397) *)

Module Exec.
Import JS.

Definition Buffer : Type := list Byte.byte.

(** What [exec] hands to the listeners while the command runs. *)
Inductive Chunk : Type :=
| Stdout (data : Buffer)
| Stderr (data : Buffer).

Section Collaborators.
(** [exec] of @actions/exec with the two listeners: the chunks in the order
    they arrive, then the promise resolves or rejects (as it does for an
    exit code other than 0). [Buffer.prototype.toString] and
    [JSON.stringify] of the rejection are parameters. *)
Variable exec : string -> string -> list Chunk * Eff.outcome unit.
Variable Buffer_toString : Buffer -> string.
Variable JSON_stringify_error : thrown -> string.

(** One call of a listener: [Buffer.concat([out, data], out.length + data.length)]
    on the buffer of its stream. *)
Definition listen (buffers : Buffer * Buffer) (chunk : Chunk)
  : Buffer * Buffer :=
  let (out, err) := buffers in
  match chunk with
  | Stdout data => ((out ++ data)%list, err)
  | Stderr data => (out, (err ++ data)%list)
  end.

Definition execJest (cmd cwd : string) : Eff.t (string * string) :=
  let (chunks, settled) := exec cmd cwd in
  let (out, err) := fold_left listen chunks ([], []) in
  (match settled with
   | Eff.Ok _ => Eff.emit (Eff.Info "Jest command executed")
   | Eff.Throw e =>
       Eff.emit
         (Eff.Error ("Jest execution failed. Tests have likely failed." ++ nl
                       ++ JSON_stringify_error e))
   end) ;;;
  Eff.ret (Buffer_toString out, Buffer_toString err).

End Collaborators.
End Exec.

(** [run] (action.ts, lines 29-103) *)

Module Action.
Import JS Model.

Section Collaborators.
Variable number : Type.
Variable number_gtb : number -> Z -> bool.
Variable number_toString : number -> string.

(** Node's [path] and [process] (the module keeps [process.cwd()] as its
    [rootPath]), the file system, the environment. *)
Variable path_relative : string -> string -> string.
Variable path_basename path_dirname : string -> string.
Variable path_resolve : string -> string.
Variable path_join : string -> string -> string.
Variable path_sep : string.
Variable process_cwd : string.
Variable existsSync : string -> bool.
Variable GITHUB_TOKEN : option string.

(** The inputs of the action and the context of the event; of
    [context.payload.pull_request] the three fields the source reads:
    [base.ref], [head.sha] and [number] (0 stands for its absence, as
    [getPullId] has it). *)
Variable working_directory : string.
Variable test_command : string.
Variable shouldCommentCoverage : Eff.outcome bool.
Variable shouldRunOnlyChangedFiles : Eff.outcome bool.
Variable base_ref : option string.
Variable context_owner context_repo context_sha : string.
Variable pull_request_head_sha : option string.
Variable pull_request_number : N.

(** The calls that leave the process: [exec], [getOctokit], reading and
    parsing the results file, and the three requests; and the conversions
    to text that the log messages use. *)
Variable exec : string -> string -> list Exec.Chunk * Eff.outcome unit.
Variable Buffer_toString : Exec.Buffer -> string.
Variable getOctokit : string -> Eff.outcome unit.
Variable parseResults : string -> Eff.outcome (FormattedTestResults number).
Variable checks_create : CheckPayload -> Eff.outcome unit.
Variable deletePreviousComments : Eff.t unit.
Variable issues_createComment : CommentPayload -> Eff.outcome unit.
Variable strip : string -> string.
Variable JSON_stringify_error : thrown -> string.
Variable JSON_stringify_std : string * string -> string.
Variable JSON_stringify_results : FormattedTestResults number -> string.
Variable JSON_stringify_payload : CheckPayload -> string.
Variable JSON_stringify_annotations : list Annotation -> string.

Definition workingCwd : string :=
  if truthy working_directory then path_resolve working_directory
  else process_cwd.

Definition RESULTS_FILE : string :=
  path_join (workingCwd ++ path_sep) "jest.results.json".

(** The flag as the coverage step reads it: by then [getJestCommand] has
    parsed the same input without an exception. *)
Definition coverageFlag : bool :=
  match shouldCommentCoverage with
  | Eff.Ok flag => flag
  | Eff.Throw _ => false
  end.

(** The body of the [try] once the token is known. *)
Definition runWithToken (token : string) : Eff.t unit :=
  let CWD := workingCwd ++ path_sep in
  cmd <- Eff.lift (Command.getJestCommand test_command shouldCommentCoverage
                     shouldRunOnlyChangedFiles base_ref RESULTS_FILE) ;;
  Eff.emit (Eff.Info ("Running jest with command: " ++ cmd)) ;;;
  std <- Exec.execJest exec Buffer_toString JSON_stringify_error cmd CWD ;;
  Eff.emit (Eff.Info ("jest command executed:" ++ nl
                        ++ JSON_stringify_std std)) ;;;
  Eff.lift (getOctokit token) ;;;
  results <- Eff.lift (parseResults RESULTS_FILE) ;;
  Eff.emit (Eff.Info ("Parsed results:" ++ nl
                        ++ JSON_stringify_results results)) ;;;
  checkPayload <- Check.getCheckPayload strip JSON_stringify_annotations
                    context_owner context_repo context_sha
                    pull_request_head_sha results CWD
                    (Some (fst std)) (Some (snd std)) ;;
  Eff.emit (Eff.Info ("Check payload:" ++ nl
                        ++ JSON_stringify_payload checkPayload)) ;;;
  (match checks_create checkPayload with
   | Eff.Ok _ => Eff.emit (Eff.Info "Check created")
   | Eff.Throw error =>
       Eff.emit (Eff.Error ("Error creating check: "
                              ++ String_of_thrown error)) ;;;
       Eff.emit (Eff.SetFailed ("Error creating check: "
                                  ++ String_of_thrown error))
   end) ;;;
  Run.reportCoverage number number_gtb number_toString path_relative
    path_basename path_dirname process_cwd context_owner context_repo
    pull_request_number coverageFlag deletePreviousComments
    issues_createComment results CWD.

Definition run : Eff.t unit :=
  Eff.emit (Eff.Info ("Running tests in " ++ workingCwd)) ;;;
  Eff.emit (Eff.Info ("Results file: " ++ RESULTS_FILE)) ;;;
  if negb (existsSync RESULTS_FILE) then
    Eff.emit (Eff.Info ("Results file not found: " ++ RESULTS_FILE)) ;;;
    Eff.emit (Eff.Error ("Results file not found: " ++ RESULTS_FILE)) ;;;
    Eff.emit (Eff.SetFailed ("Results file not found: " ++ RESULTS_FILE))
  else
    Eff.try_catch
      (match GITHUB_TOKEN with
       | None =>
           Eff.emit (Eff.Error "GITHUB_TOKEN not set.") ;;;
           Eff.emit (Eff.SetFailed "GITHUB_TOKEN not set.")
       | Some token => runWithToken token
       end)
      Run.catchOfRun.

End Collaborators.
End Action.

(** A run to evaluate the statements at: the results file exists or not,
    the token is set or not, the results parse or not; jest writes one
    chunk to each stream and exits with code 1. *)

Module RunExamples.
Import JS Model.

(** What @actions/exec rejects with when the command exits with a code
    other than 0; [JSON.stringify] of an [Error] object is a pair of
    braces. *)
Definition exitCode1 : thrown :=
  ErrorObject "Error" "The process '/usr/bin/npx' failed with exit code 1".

Definition exec (cmd cwd : string) : list Exec.Chunk * Eff.outcome unit :=
  ([Exec.Stdout [Byte.x50; Byte.x41]; Exec.Stderr [Byte.x21];
    Exec.Stdout [Byte.x53; Byte.x53]],
   Eff.Throw exitCode1).

(** The event is a pull request, number 7, whose head commit is not the
    commit of the context. *)
Definition run (existsSync : string -> bool) (token : option string)
    (parseResults : string -> Eff.outcome (FormattedTestResults Z))
    (checks_create : CheckPayload -> Eff.outcome unit)
    (deletePreviousComments : Eff.t unit)
    (issues_createComment : CommentPayload -> Eff.outcome unit)
  : Eff.t unit :=
  Action.run Z (fun x k => k <? x)
    (fun x => NilZero.string_of_int (Z.to_int x))
    (fun _ p => p) (fun p => p) (fun _ => "src") (fun p => "/repo/" ++ p)
    (fun a b => a ++ b) "/" "/repo" existsSync token
    "" "npx jest" (Eff.Ok true) (Eff.Ok false) None "owner" "repo"
    "merge-sha" (Some "head-sha") 7%N
    exec string_of_list_byte (fun _ => Eff.Ok tt) parseResults checks_create
    deletePreviousComments issues_createComment
    (fun s => s) (fun _ => "{}") (fun _ => "std") (fun _ => "results")
    (fun _ => "payload") (fun _ => "annotations").

(** What a rejected request of octokit carries. *)
Definition forbidden : thrown :=
  ErrorObject "HttpError" "Resource not accessible by integration".

(** What [JSON.parse] throws on an empty results file. *)
Definition unexpectedEnd : thrown :=
  ErrorObject "SyntaxError" "Unexpected end of JSON input".

End RunExamples.

(** Vocabulary of the statements about these functions and the ones above *)

Module BandSpec.

Inductive Band : Type := Red | Orange | Yellow | Green.

(** What [formatIfPoor] writes after the number. *)
Definition bandLabel (b : Band) : string :=
  match b with
  | Green => " :green_circle:"
  | Yellow => " :yellow_circle:"
  | Orange => " :orange_circle:"
  | Red => " :red_circle:"
  end.

Definition bandRank (b : Band) : nat :=
  match b with
  | Red => 0
  | Orange => 1
  | Yellow => 2
  | Green => 3
  end.

End BandSpec.

(* ================================================================== *)
(** * Properties *)

(** ** Strings and lists *)

Import JS.

Lemma strlen_nonneg (s : string) : 0 <= strlen s.
Proof. unfold strlen; lia. Qed.

Lemma length_append (s1 s2 : string) :
  String.length (s1 ++ s2) = (String.length s1 + String.length s2)%nat.
Proof. induction s1 as [|c s1 IH]; simpl; [reflexivity | now rewrite IH]. Qed.

Lemma strlen_append (s1 s2 : string) :
  strlen (s1 ++ s2) = strlen s1 + strlen s2.
Proof. unfold strlen; rewrite length_append; lia. Qed.

Lemma append_empty_r (s : string) : s ++ "" = s.
Proof. induction s as [|c s IH]; simpl; [reflexivity | now rewrite IH]. Qed.

Lemma append_assoc (s1 s2 s3 : string) : (s1 ++ s2) ++ s3 = s1 ++ (s2 ++ s3).
Proof. induction s1 as [|c s1 IH]; simpl; [reflexivity | now rewrite IH]. Qed.

Lemma join_empty_cons (x : string) (l : list string) :
  join "" (x :: l) = x ++ join "" l.
Proof.
  unfold join; destruct l as [|y l]; simpl.
  - now rewrite append_empty_r.
  - reflexivity.
Qed.

Lemma join_empty_app (l1 l2 : list string) :
  join "" (l1 ++ l2)%list = join "" l1 ++ join "" l2.
Proof.
  induction l1 as [|x l1 IH].
  - reflexivity.
  - rewrite <- app_comm_cons, !join_empty_cons, IH, append_assoc; reflexivity.
Qed.

Lemma join_empty_blank (A : Type) (l : list A) :
  join "" (map (fun _ => "") l) = "".
Proof.
  induction l as [|x l IH]; [reflexivity|].
  cbn [map]; rewrite join_empty_cons, IH; reflexivity.
Qed.

Lemma strlen_join_empty (l : list string) :
  strlen (join "" l) = fold_right (fun s acc => strlen s + acc) 0 l.
Proof.
  induction l as [|x l IH]; [reflexivity|].
  rewrite join_empty_cons, strlen_append, IH; reflexivity.
Qed.

(** ** The budget-limited row renderer *)

Import Table TableSpec.

Section Renderer.
Variable rows : list Row.
Variable f : CellFormatter.

Lemma rowSize_nonneg (row : Row) : 0 <= rowSize f row.
Proof. apply strlen_nonneg. Qed.

Lemma rowsSize_cons (r : Row) (l : list Row) :
  rowsSize f (r :: l) = rowSize f r + rowsSize f l.
Proof. reflexivity. Qed.

Lemma rowsSize_nonneg (l : list Row) : 0 <= rowsSize f l.
Proof.
  induction l as [|r l IH]; [cbn; lia|].
  rewrite rowsSize_cons. pose proof (rowSize_nonneg r). lia.
Qed.

Lemma rowsSize_app (l1 l2 : list Row) :
  rowsSize f (l1 ++ l2) = rowsSize f l1 + rowsSize f l2.
Proof.
  induction l1 as [|r l1 IH]; [reflexivity|].
  rewrite <- app_comm_cons, !rowsSize_cons, IH. lia.
Qed.

Lemma leb_limit_mono (a b : Z) (L : limit) :
  a <= b -> leb_limit b L = true -> leb_limit a L = true.
Proof. destruct L as [n|]; simpl; [rewrite !Z.leb_le; lia | reflexivity]. Qed.

(** While the count stays within the limit every row is returned as it is. *)
Lemma mapRows_fit (L : limit) (todo : list Row) :
  forall st,
    leb_limit (charCount st + rowsSize f todo) L = true ->
    mapRows rows f L st todo = map (rowTag f) todo.
Proof.
  induction todo as [|r todo IH]; intros st Hfit; [reflexivity|].
  cbn [mapRows map]. unfold rowCallback.
  rewrite rowsSize_cons in Hfit. fold (rowSize f r).
  assert (Hr : leb_limit (charCount st + rowSize f r) L = true).
  { apply leb_limit_mono with (2 := Hfit).
    pose proof (rowsSize_nonneg todo). lia. }
  rewrite Hr. f_equal. apply IH. cbn [charCount].
  now rewrite <- Z.add_assoc.
Qed.

(** Once the placeholder is out and the count is above the limit, every
    later row yields the empty string. *)
Lemma mapRows_after_truncation (n : Z) (todo : list Row) :
  forall count,
    n < count ->
    mapRows rows f (Finite n) (mkRowState count true) todo
    = map (fun _ => "") todo.
Proof.
  induction todo as [|r todo IH]; intros count Hcount; [reflexivity|].
  cbn [mapRows map]. unfold rowCallback. cbn [charCount truncated leb_limit].
  pose proof (rowSize_nonneg r) as Hr. fold (rowSize f r).
  destruct (Z.leb_spec (count + rowSize f r) n) as [Hle|Hgt]; [lia|].
  f_equal. apply IH. lia.
Qed.

(** The callback at the first row that does not fit. *)
Lemma mapRows_overflow (n : Z) (pre : list Row) (r : Row) (post : list Row) :
  forall count,
    pre = [] \/ count + rowsSize f pre <= n ->
    n < count + rowsSize f pre + rowSize f r ->
    mapRows rows f (Finite n) (mkRowState count false) (pre ++ r :: post)
    = (map (rowTag f) pre ++ rowTag f (dummyRow rows)
         :: map (fun _ => "") post)%list.
Proof.
  induction pre as [|r0 pre IH]; intros count Hfit Hover.
  - cbn [app mapRows map]. unfold rowCallback.
    cbn [charCount truncated leb_limit].
    change (rowsSize f []) with 0 in Hover.
    fold (rowSize f r).
    destruct (Z.leb_spec (count + rowSize f r) n) as [Hle|Hgt]; [lia|].
    f_equal. apply mapRows_after_truncation. lia.
  - destruct Hfit as [Hnil | Hfit]; [discriminate|].
    rewrite <- app_comm_cons. cbn [mapRows map app]. unfold rowCallback.
    cbn [charCount truncated leb_limit]. rewrite rowsSize_cons in Hfit, Hover.
    pose proof (rowsSize_nonneg pre) as Hpre.
    pose proof (rowSize_nonneg r) as Hr.
    fold (rowSize f r0).
    destruct (Z.leb_spec (count + rowSize f r0) n) as [Hle|Hgt]; [|lia].
    f_equal. apply IH; [right|]; lia.
Qed.

End Renderer.

Section RendererOutput.
Variable f : CellFormatter.

(** The accounting either keeps every row or stops at a first row that
    does not fit. *)
Lemma keptRows_cases (L : limit) (todo : list Row) :
  forall count,
    keptRows f L count todo = todo
    \/ (exists n r post,
          L = Finite n
          /\ todo = (keptRows f L count todo ++ r :: post)%list
          /\ (keptRows f L count todo = []
              \/ count + rowsSize f (keptRows f L count todo) <= n)
          /\ n < count + rowsSize f (keptRows f L count todo) + rowSize f r).
Proof.
  induction todo as [|r todo IH]; intros count; [left; reflexivity|].
  cbn [keptRows].
  destruct (leb_limit (count + rowSize f r) L) eqn:Hfit.
  - destruct (IH (count + rowSize f r))
      as [Hall | (n & r' & post & HL & Hsplit & Hle & Hgt)].
    + left. now rewrite Hall.
    + right. exists n, r', post. rewrite rowsSize_cons.
      split; [exact HL|]. split; [|split; [right|lia]].
      * rewrite <- app_comm_cons. now rewrite <- Hsplit.
      * destruct Hle as [Hnil | Hle]; [|lia].
        rewrite Hnil. change (rowsSize f []) with 0.
        subst L. cbn [leb_limit] in Hfit. apply Z.leb_le in Hfit. lia.
  - right. destruct L as [n|]; [|discriminate].
    cbn [leb_limit] in Hfit. apply Z.leb_gt in Hfit.
    exists n, r, todo. change (rowsSize f []) with 0.
    split; [reflexivity|]. split; [reflexivity|]. split; [now left | lia].
Qed.

Lemma keptRows_all_fit (L : limit) (todo : list Row) :
  forall count,
    keptRows f L count todo = todo ->
    todo = [] \/ leb_limit (count + rowsSize f todo) L = true.
Proof.
  induction todo as [|r todo IH]; intros count Hall; [now left|right].
  cbn [keptRows] in Hall. rewrite rowsSize_cons.
  destruct (leb_limit (count + rowSize f r) L) eqn:Hfit; [|discriminate].
  injection Hall as Hall. destruct (IH _ Hall) as [-> | Hrest].
  - change (rowsSize f []) with 0. now rewrite Z.add_0_r.
  - now rewrite Z.add_assoc.
Qed.

(** The output at a first row that does not fit. *)
Lemma toHTMLTableRow_overflow (rows : list Row) (w : string) (n : Z)
    (pre : list Row) (r : Row) (post : list Row) :
  rows = (pre ++ r :: post)%list ->
  pre = [] \/ wrapperCost w + rowsSize f pre <= n ->
  n < wrapperCost w + rowsSize f pre + rowSize f r ->
  toHTMLTableRow rows f w (Finite n)
  = verbatim f w (pre ++ [dummyRow rows])%list.
Proof.
  intros Hsplit Hfit Hover.
  unfold toHTMLTableRow, verbatim. fold (wrapperCost w).
  replace (mapRows rows f (Finite n) _ rows)
    with (mapRows rows f (Finite n) (mkRowState (wrapperCost w) false)
            (pre ++ r :: post)%list)
    by (now rewrite <- Hsplit).
  rewrite mapRows_overflow by assumption.
  rewrite map_app. cbn [map].
  rewrite !join_empty_app, !join_empty_cons, join_empty_blank.
  reflexivity.
Qed.

(** What [toHTMLTableRow] returns, for every input: the emitted rows, each
    rendered as it is, inside the wrapper. *)
Lemma toHTMLTableRow_emitted (rows : list Row) (w : string) (L : limit) :
  toHTMLTableRow rows f w L = verbatim f w (emittedRows rows f w L).
Proof.
  unfold emittedRows.
  destruct (keptRows_cases L rows (wrapperCost w))
    as [Hall | (n & r & post & -> & Hsplit & Hle & Hgt)].
  - rewrite Hall, Nat.eqb_refl.
    unfold toHTMLTableRow, verbatim. fold (wrapperCost w).
    destruct (keptRows_all_fit _ _ _ Hall) as [-> | Hfit]; [reflexivity|].
    now rewrite mapRows_fit.
  - set (kept := keptRows f (Finite n) (wrapperCost w) rows) in *.
    assert (Hlen : (List.length kept =? List.length rows)%nat = false).
    { apply Nat.eqb_neq.
      pose proof (f_equal (@List.length Row) Hsplit) as Hl.
      rewrite length_app in Hl. simpl in Hl. lia. }
    rewrite Hlen. now apply toHTMLTableRow_overflow with (r := r) (post := post).
Qed.

Lemma keptRows_app (L : limit) (todo tail : list Row) :
  forall count,
    keptRows f L count (keptRows f L count todo ++ tail)
    = (keptRows f L count todo
         ++ keptRows f L (count + rowsSize f (keptRows f L count todo)) tail)%list.
Proof.
  induction todo as [|r todo IH]; intros count.
  - cbn [keptRows app]. change (rowsSize f []) with 0.
    now rewrite Z.add_0_r.
  - cbn [keptRows].
    destruct (leb_limit (count + rowSize f r) L) eqn:Hfit.
    + rewrite <- app_comm_cons. cbn [keptRows]. rewrite Hfit, IH.
      rewrite rowsSize_cons, Z.add_assoc. reflexivity.
    + cbn [app]. change (rowsSize f []) with 0. now rewrite Z.add_0_r.
Qed.

End RendererOutput.

(** The placeholder row has the label first, empty cells after it, and one
    cell more than [max(c - 1, 0)], where [c] is the cell count of the first
    input row. *)
Lemma dummyRow_placeholderOf (rows : list Row) :
  placeholderOf rows (dummyRow rows).
Proof.
  unfold placeholderOf, dummyRow, array_fill. cbn [app hd_error tl].
  split; [reflexivity|]. split.
  - apply Forall_forall. intros cell Hin. now apply repeat_spec in Hin.
  - cbn [List.length]. rewrite repeat_length. lia.
Qed.

(** The placeholder computed from the emitted rows is the placeholder
    computed from the input rows. *)
Lemma dummyRow_emitted (rows kept : list Row) (r : Row) (post : list Row) :
  rows = (kept ++ r :: post)%list ->
  dummyRow (kept ++ [dummyRow rows])%list = dummyRow rows.
Proof.
  intros ->. destruct kept as [|k kept]; [|reflexivity].
  cbn [app]. unfold dummyRow at 1. cbn [hd].
  unfold dummyRow, array_fill. cbn [app hd List.length].
  rewrite repeat_length. do 2 f_equal. lia.
Qed.

Lemma keptRows_fit (f : CellFormatter) (L : limit) (todo : list Row) :
  forall count,
    leb_limit (count + rowsSize f todo) L = true ->
    keptRows f L count todo = todo.
Proof.
  induction todo as [|r todo IH]; intros count Hfit; [reflexivity|].
  cbn [keptRows]. rewrite rowsSize_cons in Hfit.
  assert (Hr : leb_limit (count + rowSize f r) L = true).
  { apply leb_limit_mono with (2 := Hfit).
    pose proof (rowsSize_nonneg f todo). lia. }
  rewrite Hr. f_equal. apply IH. now rewrite <- Z.add_assoc.
Qed.

(** C3. Whenever the cumulative rendered size of all rows, counted from the
    wrapper cost, stays within the limit, and so whenever the limit is
    unbounded, [toHTMLTableRow] returns every row as it is and in order;
    the rows it emits are the input rows, with no placeholder row. *)
Theorem all_rows_within_limit_rendered_verbatim
    (rows : list Row) (f : CellFormatter) (w : string) (L : limit) :
  L = Infinity
  \/ (exists n, L = Finite n /\ wrapperCost w + rowsSize f rows <= n) ->
  toHTMLTableRow rows f w L = verbatim f w rows
  /\ emittedRows rows f w L = rows.
Proof.
  intros Hfit.
  assert (Hleb : leb_limit (wrapperCost w + rowsSize f rows) L = true).
  { destruct Hfit as [-> | (n & -> & Hle)]; [reflexivity|].
    now apply Z.leb_le. }
  assert (Hem : emittedRows rows f w L = rows).
  { unfold emittedRows. rewrite keptRows_fit by exact Hleb.
    now rewrite Nat.eqb_refl. }
  split; [|exact Hem].
  now rewrite toHTMLTableRow_emitted, Hem.
Qed.

Lemma all_rows_within_limit_rendered_verbatim_witness :
  (Finite 60 = Infinity
   \/ (exists n, Finite 60 = Finite n
         /\ wrapperCost "tbody" + rowsSize tdCell [["a"]; ["b"]] <= n))
  /\ toHTMLTableRow [["a"]; ["b"]] tdCell "tbody" (Finite 60)
     = "<tbody><tr><td>a</td></tr><tr><td>b</td></tr></tbody>".
Proof.
  assert (H : Finite 60 = Infinity
              \/ (exists n, Finite 60 = Finite n
                    /\ wrapperCost "tbody" + rowsSize tdCell [["a"]; ["b"]]
                       <= n)).
  { right. exists 60. split; [reflexivity | vm_compute; discriminate]. }
  split; [exact H|].
  exact (proj1 (all_rows_within_limit_rendered_verbatim
                  [["a"]; ["b"]] tdCell "tbody" (Finite 60) H)).
Defined.

(** With a cell in the first input row, the placeholder row has as many
    cells as that row. *)
Lemma dummyRow_placeholderFor (rows : list Row) :
  hd [] rows <> [] -> placeholderFor rows (dummyRow rows).
Proof.
  intros Hcells.
  destruct (dummyRow_placeholderOf rows) as (Hlabel & Hempty & Hlen).
  split; [exact Hlabel|]. split; [exact Hempty|].
  rewrite Hlen. destruct (hd [] rows); [contradiction|].
  cbn [List.length]. lia.
Qed.

(** C2. Under a finite limit, at the first row whose addition pushes the
    running count (started at the wrapper cost) above the limit, the output
    holds the rows before it, then exactly one placeholder row, and nothing
    after it: no later input row, no second placeholder. The placeholder
    row has the label "truncated..." first, empty cells after it, and as
    many cells in all as the first input row, a row of the table having at
    least one cell. When the first row already does not fit, the output
    holds the placeholder row only. *)
Theorem truncation_emits_one_placeholder
    (rows : list Row) (f : CellFormatter) (w : string) (n : Z)
    (pre : list Row) (row : Row) (post : list Row) :
  hd [] rows <> [] ->
  rows = (pre ++ row :: post)%list ->
  pre = [] \/ wrapperCost w + rowsSize f pre <= n ->
  n < wrapperCost w + rowsSize f pre + rowSize f row ->
  toHTMLTableRow rows f w (Finite n)
  = verbatim f w (pre ++ [dummyRow rows])%list
  /\ placeholderFor rows (dummyRow rows)
  /\ (pre = [] ->
      toHTMLTableRow rows f w (Finite n) = verbatim f w [dummyRow rows]).
Proof.
  intros Hcells Hsplit Hfit Hover.
  assert (Hout : toHTMLTableRow rows f w (Finite n)
                 = verbatim f w (pre ++ [dummyRow rows])%list)
    by (now apply toHTMLTableRow_overflow with (r := row) (post := post)).
  split; [exact Hout|]. split; [now apply dummyRow_placeholderFor|].
  intros ->. exact Hout.
Qed.

Lemma truncation_emits_one_placeholder_witness :
  toHTMLTableRow [["a"; "1"]; ["b"; "2"]; ["c"; "3"]] thCell "tbody" (Finite 50)
  = "<tbody><tr><th>a</th><th>1</th></tr>"
      ++ "<tr><th>truncated...</th><th></th></tr></tbody>"
  /\ placeholderFor [["a"; "1"]; ["b"; "2"]; ["c"; "3"]] ["truncated..."; ""].
Proof.
  assert (Hcells : hd [] [["a"; "1"]; ["b"; "2"]; ["c"; "3"]] <> [])
    by discriminate.
  assert (Hfit : [["a"; "1"]] = []
                 \/ wrapperCost "tbody" + rowsSize thCell [["a"; "1"]] <= 50)
    by (right; vm_compute; discriminate).
  assert (Hover : 50 < wrapperCost "tbody" + rowsSize thCell [["a"; "1"]]
                       + rowSize thCell ["b"; "2"])
    by (vm_compute; reflexivity).
  destruct (truncation_emits_one_placeholder
              [["a"; "1"]; ["b"; "2"]; ["c"; "3"]] thCell "tbody" 50
              [["a"; "1"]] ["b"; "2"] [["c"; "3"]] Hcells eq_refl Hfit Hover)
    as (Hout & Hplaceholder & _).
  split; [exact Hout | exact Hplaceholder].
Defined.

(** The rows of the tables that [toHTMLTable] is called with have cells.
    For a first row without cells, the placeholder row would have one cell
    all the same. *)
Remark placeholder_of_a_row_without_cells :
  toHTMLTableRow [[]] tdCell "tbody" (Finite 15)
  = "<tbody><tr><td>truncated...</td></tr></tbody>"
  /\ dummyRow [[]] = ["truncated..."].
Proof. split; reflexivity. Qed.

(** The emitted rows are the input rows, or a proper prefix of them
    followed by the placeholder row. *)
Lemma emittedRows_cases (rows : list Row) (f : CellFormatter) (w : string)
    (L : limit) :
  emittedRows rows f w L = rows
  \/ (exists kept r post,
        kept = keptRows f L (wrapperCost w) rows
        /\ rows = (kept ++ r :: post)%list
        /\ emittedRows rows f w L = (kept ++ [dummyRow rows])%list).
Proof.
  unfold emittedRows.
  destruct (keptRows_cases f L rows (wrapperCost w))
    as [Hall | (n & r & post & _ & Hsplit & _ & _)].
  - left. now rewrite Hall, Nat.eqb_refl.
  - right. exists (keptRows f L (wrapperCost w) rows), r, post.
    split; [reflexivity|]. split; [exact Hsplit|].
    pose proof (f_equal (@List.length Row) Hsplit) as Hl.
    rewrite length_app in Hl. simpl in Hl.
    destruct (Nat.eqb_spec
                (List.length (keptRows f L (wrapperCost w) rows))
                (List.length rows)) as [Heq|_]; [lia | reflexivity].
Qed.

(** C4. Rendering the rows that a render under a finite limit emitted (the
    kept rows, followed by the placeholder row when a row was refused),
    with the same limit and cell renderer, gives the same string: the
    emitted rows again, with no second placeholder. *)
Theorem rerender_of_emitted_rows_is_identical
    (rows : list Row) (f : CellFormatter) (w : string) (n : Z) :
  toHTMLTableRow rows f w (Finite n)
  = verbatim f w (emittedRows rows f w (Finite n))
  /\ toHTMLTableRow (emittedRows rows f w (Finite n)) f w (Finite n)
     = toHTMLTableRow rows f w (Finite n)
  /\ emittedRows (emittedRows rows f w (Finite n)) f w (Finite n)
     = emittedRows rows f w (Finite n).
Proof.
  assert (Hidem : emittedRows (emittedRows rows f w (Finite n)) f w (Finite n)
                  = emittedRows rows f w (Finite n)).
  { destruct (emittedRows_cases rows f w (Finite n))
      as [Hall | (kept & r & post & Hkept & Hsplit & Hem)].
    - now rewrite !Hall.
    - rewrite Hem. unfold emittedRows. cbv zeta.
      assert (Happ : keptRows f (Finite n) (wrapperCost w)
                       (kept ++ [dummyRow rows])
                     = (kept ++ keptRows f (Finite n)
                                  (wrapperCost w + rowsSize f kept)
                                  [dummyRow rows])%list)
        by (rewrite Hkept; apply keptRows_app).
      rewrite Happ.
      rewrite (dummyRow_emitted rows kept r post Hsplit).
      cbn [keptRows].
      destruct (leb_limit _ (Finite n)).
      + rewrite Nat.eqb_refl. reflexivity.
      + rewrite app_nil_r.
        assert (Hlen : (List.length kept
                        =? List.length (kept ++ [dummyRow rows]))%nat = false).
        { apply Nat.eqb_neq. rewrite length_app. simpl. lia. }
        rewrite Hlen. reflexivity. }
  split; [apply toHTMLTableRow_emitted|]. split; [|exact Hidem].
  now rewrite !toHTMLTableRow_emitted, Hidem.
Qed.

(** ** The size of the rendered rows *)

Lemma strlen_verbatim (f : CellFormatter) (w : string) (l : list Row) :
  strlen (verbatim f w l) = wrapperCost w + rowsSize f l.
Proof.
  unfold verbatim, wrapperCost. rewrite !strlen_append, strlen_join_empty.
  assert (Hsum : fold_right (fun s acc => strlen s + acc) 0 (map (rowTag f) l)
                 = rowsSize f l).
  { induction l as [|r l IH]; [reflexivity|].
    cbn [map fold_right]. rewrite IH, rowsSize_cons. reflexivity. }
  rewrite Hsum. lia.
Qed.

(** The table is its four parts, one after the other. *)
Lemma strlen_toHTMLTable (headers : Row) (rows : list Row) (L : limit) :
  strlen (toHTMLTable headers rows L)
  = strlen tableOpeningTag + strlen tableClosingTag
    + strlen (toHTMLTableRow [headers] thCell "thead" Infinity)
    + strlen (toHTMLTableRow rows tdCell "tbody"
                (limit_sub L
                   (strlen tableOpeningTag + strlen tableClosingTag
                    + strlen (toHTMLTableRow [headers] thCell "thead"
                                Infinity)))).
Proof.
  unfold toHTMLTable. rewrite strlen_join_empty. cbn [fold_right]. lia.
Qed.

Lemma toHTMLTableRow_length_bound
    (rows : list Row) (f : CellFormatter) (w : string) (n : Z) :
  wrapperCost w <= n ->
  strlen (toHTMLTableRow rows f w (Finite n))
  <= n + rowSize f (dummyRow rows)
  /\ wrapperCost w + rowsSize f (keptRows f (Finite n) (wrapperCost w) rows)
     <= n
  /\ (keptRows f (Finite n) (wrapperCost w) rows = rows ->
      strlen (toHTMLTableRow rows f w (Finite n)) <= n).
Proof.
  intros Hw. rewrite toHTMLTableRow_emitted. unfold emittedRows.
  pose proof (rowSize_nonneg f (dummyRow rows)) as Hd.
  destruct (keptRows_cases f (Finite n) rows (wrapperCost w))
    as [Hall | (n' & r & post & Heq & Hsplit & Hle & Hgt)].
  - rewrite Hall, Nat.eqb_refl, strlen_verbatim.
    destruct (keptRows_all_fit _ _ _ _ Hall) as [-> | Hfit].
    + change (rowsSize f []) with 0. lia.
    + cbn [leb_limit] in Hfit. apply Z.leb_le in Hfit. lia.
  - injection Heq as <-.
    set (kept := keptRows f (Finite n) (wrapperCost w) rows) in *.
    pose proof (f_equal (@List.length Row) Hsplit) as Hl.
    rewrite length_app in Hl. simpl in Hl.
    destruct (Nat.eqb_spec (List.length kept) (List.length rows)) as [Hk|_];
      [lia|].
    rewrite strlen_verbatim, rowsSize_app, rowsSize_cons.
    change (rowsSize f []) with 0.
    assert (Hkept : wrapperCost w + rowsSize f kept <= n).
    { destruct Hle as [Hnil | Hle]; [|exact Hle].
      rewrite Hnil. change (rowsSize f []) with 0. lia. }
    split; [lia|]. split; [exact Hkept|].
    intros Hall. rewrite Hall in Hl. lia.
Qed.

(** C1, as amended. Under a limit of at least the wrapper cost, the output
    of [toHTMLTableRow] is longer than the limit by at most the placeholder
    row, which the accounting never counts: the wrapper and the kept rows
    stay within the limit, and so does the whole output when no row is
    refused. The detail table that [toHTMLTable] builds is in the same way
    longer than its budget by at most the placeholder row, whenever the
    budget holds the table without rows. *)
Theorem rendered_size_within_limit_plus_placeholder
    (rows : list Row) (f : CellFormatter) (w : string) (n : Z)
    (headers : Row) (budget : Z) :
  wrapperCost w <= n ->
  strlen (toHTMLTable headers [] Infinity) <= budget ->
  strlen (toHTMLTableRow rows f w (Finite n))
  <= n + rowSize f (dummyRow rows)
  /\ wrapperCost w + rowsSize f (keptRows f (Finite n) (wrapperCost w) rows)
     <= n
  /\ (keptRows f (Finite n) (wrapperCost w) rows = rows ->
      strlen (toHTMLTableRow rows f w (Finite n)) <= n)
  /\ strlen (toHTMLTable headers rows (Finite budget))
     <= budget + rowSize tdCell (dummyRow rows).
Proof.
  intros Hw Hbudget.
  destruct (toHTMLTableRow_length_bound rows f w n Hw) as (H1 & H2 & H3).
  split; [exact H1|]. split; [exact H2|]. split; [exact H3|].
  rewrite strlen_toHTMLTable in *. cbn [limit_sub] in *.
  set (fixed := strlen tableOpeningTag + strlen tableClosingTag
                + strlen (toHTMLTableRow [headers] thCell "thead" Infinity))
    in *.
  change (strlen (toHTMLTableRow [] tdCell "tbody" Infinity))
    with (wrapperCost "tbody") in Hbudget.
  destruct (toHTMLTableRow_length_bound rows tdCell "tbody" (budget - fixed))
    as (Hbody & _ & _); lia.
Qed.

Lemma rendered_size_within_limit_plus_placeholder_witness :
  strlen (toHTMLTableRow [["a"]; ["b"]] tdCell "tbody" (Finite 34)) <= 34 + 30
  /\ strlen (toHTMLTable ("File" :: Coverage.headers) Examples.manyFileRows
               (Finite Coverage.CHAR_LIMIT))
     <= Coverage.CHAR_LIMIT + 186.
Proof.
  destruct (rendered_size_within_limit_plus_placeholder
              [["a"]; ["b"]] tdCell "tbody" 34
              ("File" :: Coverage.headers) Coverage.CHAR_LIMIT)
    as (Hrows & _ & _ & _); [vm_compute; discriminate ..|].
  destruct (rendered_size_within_limit_plus_placeholder
              Examples.manyFileRows tdCell "tbody" 34
              ("File" :: Coverage.headers) Coverage.CHAR_LIMIT)
    as (_ & _ & _ & Htable); [vm_compute; discriminate ..|].
  split; [exact Hrows | exact Htable].
Defined.

(** C1, as the specification words it, fails. With the limit at the
    wrapper cost plus one row, a second row makes [toHTMLTableRow] return
    the first row and the placeholder row: 64 characters under a limit of
    34, which is neither within the limit nor the wrapper cost plus the
    placeholder row (45). The detail table of a coverage map with 300 files
    in one directory comes out at 60056 characters under the budget of
    60000. *)
Lemma placeholder_row_exceeds_budget_counterexample :
  wrapperCost "tbody" <= 34
  /\ toHTMLTableRow [["a"]; ["b"]] tdCell "tbody" (Finite 34)
     = "<tbody><tr><td>a</td></tr><tr><td>truncated...</td></tr></tbody>"
  /\ ~ withinBudget [["a"]; ["b"]] tdCell "tbody" 34
  /\ strlen (toHTMLTable ("File" :: Coverage.headers) Examples.manyFileRows
               (Finite Coverage.CHAR_LIMIT)) = 60056.
Proof.
  split; [vm_compute; discriminate|]. split; [reflexivity|].
  split; [|vm_compute; reflexivity].
  unfold withinBudget. vm_compute. intros [Hle | Heq].
  - now apply Hle.
  - discriminate Heq.
Qed.

(** ** Coverage bands *)

Import Model.

(** C10. For a percentage that is [undefined], [formatIfPoor] fails all
    three threshold comparisons and returns the red band with the text
    "undefined": the value is not turned into 0, and no error is raised
    (the function returns a string for every input). [summaryToRow] gives
    that cell for each metric that is [undefined]. *)
Theorem formatIfPoor_undefined_is_red
    (number : Type) (number_gtb : number -> Z -> bool)
    (number_toString : number -> string) :
  let band := Coverage.formatIfPoor number number_gtb number_toString in
  let row := Coverage.summaryToRow number number_gtb number_toString in
  (forall k, Coverage.gtb number number_gtb Undefined k = false)
  /\ band Undefined = "undefined :red_circle:"
  /\ band Undefined <> "0 :red_circle:"
  /\ (forall s b f l,
        row (mkCoverageSummary (mkTotals s) (mkTotals b) (mkTotals f)
                               (mkTotals l))
        = [band s; band b; band f; band l])
  /\ (let u := mkTotals Undefined in
      row (mkCoverageSummary u u u u)
      = [ "undefined :red_circle:"; "undefined :red_circle:";
          "undefined :red_circle:"; "undefined :red_circle:" ]).
Proof.
  cbv zeta. split; [reflexivity|]. split; [reflexivity|].
  split; [discriminate|]. split; reflexivity.
Qed.

(** The bands at whole percentages. *)
Example formatIfPoor_bands :
  map (fun x => Coverage.formatIfPoor Z Examples.Z_gtb Examples.Z_toString
                  (Number x)) [90; 81; 80; 66; 65; 51; 50; 40]
  = [ "90 :green_circle:"; "81 :green_circle:"; "80 :yellow_circle:";
      "66 :yellow_circle:"; "65 :orange_circle:"; "51 :orange_circle:";
      "50 :red_circle:"; "40 :red_circle:" ].
Proof. reflexivity. Qed.

(** ** The check payload *)

Section CheckPayload.
Variable strip : string -> string.
Variable JSON_stringify : list Annotation -> string.
Variable context_owner context_repo context_sha : string.
Variable pull_request_head_sha : option string.
Variable number : Type.

(** [getCheckPayload] returns, and this is what it returns. *)
Lemma getCheckPayload_returns (results : FormattedTestResults number)
    (cwd : string) (out err : option string) :
  exists anns,
    Eff.result (Check.getAnnotations strip JSON_stringify results cwd)
    = Eff.Ok anns
    /\ Eff.result
         (Check.getCheckPayload strip JSON_stringify context_owner
            context_repo context_sha pull_request_head_sha results cwd out
            err)
       = Eff.Ok
           {| check_owner := context_owner;
              check_repo := context_repo;
              head_sha := match pull_request_head_sha with
                          | Some head_sha => head_sha
                          | None => context_sha
                          end;
              check_name := Check.ACTION_NAME;
              check_status := "completed";
              conclusion := if success results then "success" else "failure";
              output :=
                {| out_title := if success results then "Jest tests passed"
                                else "Jest tests failed";
                   text := Truncate.truncateRight (Check.outputText out err)
                             Coverage.CHAR_LIMIT;
                   summary := Check.summaryText results;
                   annotations := anns |} |}.
Proof.
  unfold Check.getCheckPayload, Check.getAnnotations, Check.getSha.
  destruct (success results); eexists; split; reflexivity.
Qed.

End CheckPayload.

(** C6. The summary text of the check payload. For a run that succeeded it
    is the passed-test count, " tests passing in ", the passed-suite count
    and " suite.", with "suites" for "suite" exactly when the passed-suite
    count is greater than 1. For a run that failed it is "Failed tests: ",
    failed over total tests, ". Failed suites: ", then the failed-test count
    over the total suite count, and a full stop. *)
Theorem check_summary_text
    (strip : string -> string) (JSON_stringify : list Annotation -> string)
    (context_owner context_repo context_sha : string)
    (pull_request_head_sha : option string) (number : Type)
    (results : FormattedTestResults number) (cwd : string)
    (out err : option string) :
  exists p,
    Eff.result
      (Check.getCheckPayload strip JSON_stringify context_owner context_repo
         context_sha pull_request_head_sha results cwd out err) = Eff.Ok p
    /\ (success results = true ->
        (1 < numPassedTestSuites results)%N ->
        summary (output p)
        = Number_toString (numPassedTests results) ++ " tests passing in "
            ++ Number_toString (numPassedTestSuites results) ++ " suites.")
    /\ (success results = true ->
        (numPassedTestSuites results <= 1)%N ->
        summary (output p)
        = Number_toString (numPassedTests results) ++ " tests passing in "
            ++ Number_toString (numPassedTestSuites results) ++ " suite.")
    /\ (success results = false ->
        summary (output p)
        = "Failed tests: " ++ Number_toString (numFailedTests results) ++ "/"
            ++ Number_toString (numTotalTests results) ++ ". Failed suites: "
            ++ Number_toString (numFailedTests results) ++ "/"
            ++ Number_toString (numTotalTestSuites results) ++ ".").
Proof.
  destruct (getCheckPayload_returns strip JSON_stringify context_owner
              context_repo context_sha pull_request_head_sha number results
              cwd out err)
    as (anns & _ & Hp).
  eexists. split; [exact Hp|]. cbn [output summary].
  unfold Check.summaryText.
  split; [|split].
  - intros -> Hmany. apply N.ltb_lt in Hmany. rewrite Hmany.
    do 4 f_equal.
  - intros -> Hfew. apply N.ltb_ge in Hfew. rewrite Hfew.
    do 4 f_equal.
  - intros ->. reflexivity.
Qed.

Lemma check_summary_text_witness :
  let payload := Check.getCheckPayload (fun s => s) (fun _ => "") "owner"
                   "repo" "sha" None in
  (exists p,
     Eff.result (payload Examples.passedRun "/repo/" None None) = Eff.Ok p
     /\ summary (output p) = "3 tests passing in 1 suite.")
  /\ (exists p,
        Eff.result (payload Examples.failedRun "/repo/" None None) = Eff.Ok p
        /\ summary (output p) = "Failed tests: 1/2. Failed suites: 1/1.").
Proof.
  cbv zeta. split.
  - destruct (check_summary_text (fun s => s) (fun _ => "") "owner" "repo"
                "sha" None Z Examples.passedRun "/repo/" None None)
      as (p & Hp & _ & Hfew & _).
    exists p. split; [exact Hp|].
    refine (Hfew eq_refl _). vm_compute. discriminate.
  - destruct (check_summary_text (fun s => s) (fun _ => "") "owner" "repo"
                "sha" None Z Examples.failedRun "/repo/" None None)
      as (p & Hp & _ & _ & Hfailed).
    exists p. split; [exact Hp|].
    exact (Hfailed eq_refl).
Defined.

(** ** Truncation on the right *)

Lemma substring_prefix (m : nat) (s : string) :
  (m <= String.length s)%nat ->
  exists rest,
    s = String.substring 0 m s ++ rest
    /\ String.length (String.substring 0 m s) = m.
Proof.
  revert s. induction m as [|m IH]; intros s Hm.
  - exists s. destruct s; split; reflexivity.
  - destruct s as [|c s]; [simpl in Hm; lia|].
    simpl in Hm. destruct (IH s) as (rest & Hs & Hlen); [lia|].
    exists rest. cbn [String.substring]. split.
    + cbn [append]. now rewrite <- Hs.
    + cbn [String.length]. now rewrite Hlen.
Qed.

Lemma truncateRight_short (str : string) (len : Z) :
  strlen str < len -> Truncate.truncateRight str len = str.
Proof.
  intros Hlt. unfold Truncate.truncateRight.
  apply Z.ltb_lt in Hlt. now rewrite Hlt.
Qed.

(** From [len] characters on, the first [len] characters are kept and the
    marker follows them. *)
Lemma truncateRight_long (str : string) (len : Z) :
  0 <= len <= strlen str ->
  exists kept rest,
    str = kept ++ rest
    /\ strlen kept = len
    /\ Truncate.truncateRight str len = kept ++ "...".
Proof.
  intros [Hlo Hhi]. unfold Truncate.truncateRight.
  destruct (Z.ltb_spec (strlen str) len) as [Hlt|_]; [lia|].
  unfold substring.
  replace (Z.min (Z.max 0 0) (strlen str)) with 0
    by (pose proof (strlen_nonneg str); lia).
  replace (Z.min (Z.max len 0) (strlen str)) with len by lia.
  replace (Z.min 0 len) with 0 by lia.
  replace (Z.max 0 len - 0) with len by lia.
  change (Z.to_nat 0) with 0%nat.
  destruct (substring_prefix (Z.to_nat len) str) as (rest & Hs & Hlen).
  { unfold strlen in Hhi. lia. }
  exists (String.substring 0 (Z.to_nat len) str), rest.
  split; [exact Hs|]. split; [|reflexivity].
  unfold strlen. rewrite Hlen. lia.
Qed.

Lemma truncateRight_length (str : string) (len : Z) :
  0 <= len -> strlen (Truncate.truncateRight str len) <= len + 3.
Proof.
  intros Hlen.
  destruct (Z.lt_ge_cases (strlen str) len) as [Hlt|Hge].
  - rewrite truncateRight_short by exact Hlt. lia.
  - destruct (truncateRight_long str len) as (kept & rest & _ & Hk & ->);
      [lia|].
    rewrite strlen_append, Hk. change (strlen "...") with 3. lia.
Qed.

Lemma outputText_spec (out err : option string) :
  Check.outputText out err
  = match out with Some o => o | None => "" end
    ++ match err with
       | Some EmptyString | None => ""
       | Some e => nl ++ nl ++ e
       end.
Proof.
  unfold Check.outputText.
  destruct out as [[|c o]|], err as [[|c' e]|]; reflexivity.
Qed.

(** C7, as amended. The body text of the check payload is made from the
    captured stdout followed, when stderr is not empty, by two line feeds
    and stderr. Shorter than 60000 characters, this text is the body as it
    is; longer than 60000 characters, the body is its first 60000 characters
    followed by "..."; the body never has more than 60003 characters. *)
Theorem check_body_text
    (strip : string -> string) (JSON_stringify : list Annotation -> string)
    (context_owner context_repo context_sha : string)
    (pull_request_head_sha : option string) (number : Type)
    (results : FormattedTestResults number) (cwd : string)
    (out err : option string) :
  let joined :=
    match out with Some o => o | None => "" end
    ++ match err with
       | Some EmptyString | None => ""
       | Some e => nl ++ nl ++ e
       end in
  exists p,
    Eff.result
      (Check.getCheckPayload strip JSON_stringify context_owner context_repo
         context_sha pull_request_head_sha results cwd out err) = Eff.Ok p
    /\ (strlen joined < 60000 -> text (output p) = joined)
    /\ (60000 < strlen joined ->
        exists kept rest,
          joined = kept ++ rest
          /\ strlen kept = 60000
          /\ text (output p) = kept ++ "...")
    /\ strlen (text (output p)) <= 60003.
Proof.
  intros joined.
  destruct (getCheckPayload_returns strip JSON_stringify context_owner
              context_repo context_sha pull_request_head_sha number results
              cwd out err)
    as (anns & _ & Hp).
  eexists. split; [exact Hp|]. cbn [output text].
  rewrite outputText_spec. fold joined.
  change Coverage.CHAR_LIMIT with 60000.
  split; [|split].
  - apply truncateRight_short.
  - intros Hlong. apply truncateRight_long. lia.
  - apply (truncateRight_length joined 60000). lia.
Qed.

Lemma check_body_text_witness :
  exists p,
    Eff.result
      (Check.getCheckPayload (fun s => s) (fun _ => "") "owner" "repo" "sha"
         None Examples.passedRun "/repo/" (Some "PASS foo.test") (Some "warn"))
    = Eff.Ok p
    /\ text (output p) = "PASS foo.test" ++ nl ++ nl ++ "warn".
Proof.
  destruct (check_body_text (fun s => s) (fun _ => "") "owner" "repo" "sha"
              None Z Examples.passedRun "/repo/" (Some "PASS foo.test")
              (Some "warn"))
    as (p & Hp & Hshort & _ & _).
  exists p. split; [exact Hp|].
  refine (Hshort _). vm_compute. reflexivity.
Defined.

(** C7, as the specification words it, fails: a captured output of 60001
    characters gives a body of 60003 characters, over the limit of 60000. *)
Lemma check_body_text_over_limit_counterexample :
  exists p,
    Eff.result
      (Check.getCheckPayload (fun s => s) (fun _ => "") "owner" "repo" "sha"
         None Examples.passedRun "/repo/" (Some Examples.longOutput) None)
    = Eff.Ok p
    /\ strlen (text (output p)) = 60003
    /\ ~ CheckSpec.bodyWithinLimit p.
Proof.
  destruct (getCheckPayload_returns (fun s => s) (fun _ => "") "owner" "repo"
              "sha" None Z Examples.passedRun "/repo/" (Some Examples.longOutput)
              None) as (anns & _ & Hp).
  eexists. split; [exact Hp|].
  assert (Hlen : strlen (Truncate.truncateRight
                           (Check.outputText (Some Examples.longOutput) None)
                           Coverage.CHAR_LIMIT) = 60003)
    by (vm_compute; reflexivity).
  split; [exact Hlen|].
  unfold CheckSpec.bodyWithinLimit. cbn [output text]. rewrite Hlen.
  vm_compute. intros H. apply H. reflexivity.
Qed.

(** ** Annotations *)

Import AnnotationSpec.

Lemma prefix_append (p rest : string) : prefix p (p ++ rest) = true.
Proof.
  induction p as [|c p IH]; [destruct rest; reflexivity|].
  cbn [append prefix]. destruct (ascii_dec c c) as [_|Hne]; [exact IH|].
  now elim Hne.
Qed.

Lemma drop_append (p rest : string) : drop (String.length p) (p ++ rest) = rest.
Proof. induction p as [|c p IH]; [reflexivity | exact IH]. Qed.






(** An occurrence of the working root inside the name, not at its start, is
    removed all the same. *)
Example String_replace_inside :
  String_replace "/repo/" "" "/data/repo/foo.test" = "/datafoo.test".
Proof. reflexivity. Qed.


(** The scenario of the specification, evaluated. *)
Example annotations_of_failedRun :
  Eff.result (Check.getAnnotations (fun s => s) (fun _ => "")
                Examples.failedRun "/repo/")
  = Eff.Ok [ {| ann_path := "foo.test";
                start_line := 12;
                end_line := 12;
                annotation_level := failure;
                ann_title := "Suite > does X";
                message := "expected 1" ++ nl ++ nl ++ "received 2" |} ].
Proof. reflexivity. Qed.

(** ** Missing coverage data *)

Section MissingCoverage.
Variable number : Type.
Variable number_gtb : number -> Z -> bool.
Variable number_toString : number -> string.
Variable path_relative : string -> string -> string.
Variable path_basename path_dirname : string -> string.
Variable rootPath : string.
Variable context_owner context_repo : string.
Variable pull_request_number : N.
Variable shouldCommentCoverage : bool.
Variable deletePreviousComments : Eff.t unit.
Variable issues_createComment : CommentPayload -> Eff.outcome unit.

(** C8. When the coverage map is absent or holds no file, [getCoverageTable]
    returns the empty string, after one warning and without an exception.
    The empty string is falsy, so [run] skips the comment: it calls neither
    [deletePreviousComments] nor [issues.createComment], raises nothing, and
    marks
    the run as failed only when the tests themselves failed. *)
Theorem missing_coverage_skips_the_comment
    (results : FormattedTestResults number) (CWD : string) :
  coverageMap results = None
  \/ (exists cm, coverageMap results = Some cm /\ Model.files cm = []) ->
  let getCoverageTable :=
    Coverage.getCoverageTable number number_gtb number_toString path_relative
      path_basename path_dirname rootPath in
  let runCoverage :=
    Run.runCoverage number number_gtb number_toString path_relative
      path_basename path_dirname rootPath context_owner context_repo
      pull_request_number shouldCommentCoverage deletePreviousComments
      issues_createComment in
  exists msg,
    getCoverageTable results CWD = ([Eff.Warning msg], Eff.Ok "")
    /\ truthy "" = false
    /\ Eff.result (runCoverage results CWD) = Eff.Ok tt
    /\ Eff.events (runCoverage results CWD)
       = ([Eff.Info ("Pull ID: " ++ Number_toString pull_request_number)]
            ++ (if negb (pull_request_number =? 0)%N && shouldCommentCoverage
                then [Eff.Warning msg] else [])
            ++ (if success results
                then [] else [Eff.SetFailed "Some jest tests failed."]))%list.
Proof.
  intros Hmissing getCoverageTable runCoverage.
  assert (Htable : exists msg,
             getCoverageTable results CWD = ([Eff.Warning msg], Eff.Ok "")).
  { subst getCoverageTable. unfold Coverage.getCoverageTable.
    destruct Hmissing as [-> | (cm & -> & ->)]; eexists; reflexivity. }
  destruct Htable as (msg & Htable). exists msg.
  split; [exact Htable|]. split; [reflexivity|].
  subst runCoverage getCoverageTable.
  unfold Run.runCoverage, Run.reportCoverage, Run.getPullId.
  cbv beta iota delta [Eff.bind Eff.emit Eff.ret].
  destruct (negb (pull_request_number =? 0)%N && shouldCommentCoverage);
    [rewrite Htable|]; destruct (success results); split; reflexivity.
Qed.

End MissingCoverage.

Lemma missing_coverage_skips_the_comment_witness :
  let run :=
    Run.runCoverage Z Examples.Z_gtb Examples.Z_toString (fun _ p => p)
      (fun p => p) (fun p => p) "/repo" "owner" "repo" 7%N true
      ([Eff.SetFailed "Error getting comments"],
       Eff.Throw (NotAnError "network"))
      (fun _ => Eff.Throw (NotAnError "network")) in
  Eff.result (run Examples.passedRun "/repo/") = Eff.Ok tt
  /\ Eff.events (run Examples.passedRun "/repo/")
     = [Eff.Info "Pull ID: 7"; Eff.Warning "No coverage map found"].
Proof.
  cbv zeta.
  destruct (missing_coverage_skips_the_comment Z Examples.Z_gtb
              Examples.Z_toString (fun _ p => p) (fun p => p) (fun p => p)
              "/repo" "owner" "repo" 7%N true
              ([Eff.SetFailed "Error getting comments"],
               Eff.Throw (NotAnError "network"))
              (fun _ => Eff.Throw (NotAnError "network"))
              Examples.passedRun "/repo/" (or_introl eq_refl))
    as (msg & Htable & _ & Hres & Hev).
  split; [exact Hres|].
  injection Htable as <-. exact Hev.
Defined.

(** ** Objects keyed by directory *)

Import GroupingSpec.

Section KeyedObjects.
Variable V : Type.

Lemma existsb_eqb_In (d : string) (ks : list string) :
  existsb (String.eqb d) ks = true <-> In d ks.
Proof.
  rewrite existsb_exists. split.
  - intros (k & Hin & Heq). apply String.eqb_eq in Heq. now subst.
  - intros Hin. exists d. split; [exact Hin | apply String.eqb_refl].
Qed.

Lemma getOwn_app (d : string) (o1 o2 : JSObject.t V) :
  JSObject.getOwn d (o1 ++ o2)%list
  = match JSObject.getOwn d o1 with
    | Some v => Some v
    | None => JSObject.getOwn d o2
    end.
Proof.
  induction o1 as [|[k v] o1 IH]; [reflexivity|].
  cbn [app JSObject.getOwn]. destruct (k =? d)%string; [reflexivity | exact IH].
Qed.

Lemma getOwn_keyed (g : string -> V) (ks : list string) (d : string) :
  JSObject.getOwn d (map (fun k => (k, g k)) ks)
  = if existsb (String.eqb d) ks then Some (g d) else None.
Proof.
  induction ks as [|k ks IH]; [reflexivity|].
  cbn [map JSObject.getOwn existsb]. rewrite (String.eqb_sym d k).
  destruct (String.eqb_spec k d) as [->|_]; [reflexivity | exact IH].
Qed.

Lemma set_absent (d : string) (v : V) (o : JSObject.t V) :
  JSObject.getOwn d o = None -> JSObject.set d v o = (o ++ [(d, v)])%list.
Proof.
  induction o as [|[k w] o IH]; intros Hnone; [reflexivity|].
  cbn [JSObject.getOwn] in Hnone. cbn [JSObject.set app].
  destruct (k =? d)%string; [discriminate|]. now rewrite IH.
Qed.

Lemma set_last (d : string) (v w : V) (o : JSObject.t V) :
  JSObject.getOwn d o = None ->
  JSObject.set d v (o ++ [(d, w)])%list = (o ++ [(d, v)])%list.
Proof.
  induction o as [|[k u] o IH]; intros Hnone.
  - cbn [app JSObject.set]. now rewrite String.eqb_refl.
  - cbn [JSObject.getOwn] in Hnone. cbn [JSObject.set app].
    destruct (k =? d)%string; [discriminate|]. now rewrite IH.
Qed.

Lemma set_keyed_present (g : string -> V) (ks : list string) (d : string)
    (v : V) :
  NoDup ks -> In d ks ->
  JSObject.set d v (map (fun k => (k, g k)) ks)
  = map (fun k => (k, if (k =? d)%string then v else g k)) ks.
Proof.
  induction ks as [|k ks IH]; intros Hnd Hin; [destruct Hin|].
  inversion Hnd as [|? ? Hk Hnd']; subst.
  cbn [map JSObject.set].
  destruct (String.eqb_spec k d) as [->|Hne].
  - f_equal. apply map_ext_in. intros k Hin'.
    destruct (String.eqb_spec k d) as [->|_]; [contradiction | reflexivity].
  - f_equal. apply IH; [exact Hnd'|]. destruct Hin; [contradiction | assumption].
Qed.

End KeyedObjects.

(** ** First-seen order *)

Lemma firstSeen_In (x : string) (l : list string) :
  In x (firstSeen l) <-> In x l.
Proof.
  induction l as [|y l IH]; [reflexivity|].
  cbn [firstSeen In]. rewrite filter_In, IH.
  destruct (String.eqb_spec x y) as [->|Hne].
  - split; [intros [H|[_ H]]; [now left | discriminate] | intros _; now left].
  - split; [intros [H|[H _]]; auto | intros [H|H]; [now left | right; auto]].
Qed.

Lemma firstSeen_NoDup (l : list string) : NoDup (firstSeen l).
Proof.
  induction l as [|y l IH]; [constructor|].
  cbn [firstSeen]. constructor.
  - rewrite filter_In. intros [_ H]. now rewrite String.eqb_refl in H.
  - now apply NoDup_filter.
Qed.

Lemma firstSeen_snoc (l : list string) (x : string) :
  firstSeen (l ++ [x])%list
  = if existsb (String.eqb x) l then firstSeen l
    else (firstSeen l ++ [x])%list.
Proof.
  induction l as [|y l IH]; [reflexivity|].
  cbn [app firstSeen existsb]. rewrite IH.
  destruct (String.eqb_spec x y) as [->|Hne]; cbn [orb].
  - destruct (existsb (String.eqb y) l); [reflexivity|].
    rewrite filter_app. cbn [filter]. rewrite String.eqb_refl. cbn [negb].
    now rewrite app_nil_r.
  - destruct (existsb (String.eqb x) l); [reflexivity|].
    rewrite filter_app. cbn [filter].
    destruct (String.eqb_spec x y) as [Heq|_]; [contradiction|].
    reflexivity.
Qed.

(** ** Grouping by directory *)

Section Grouping.
Variable number : Type.

Lemma filesOf_snoc (pre : list (File number)) (file : File number)
    (dir : string) :
  filesOf (pre ++ [file]) dir
  = (filesOf pre dir ++ if (path file =? dir)%string then [file] else [])%list.
Proof. unfold filesOf. rewrite filter_app. reflexivity. Qed.

Lemma filesOf_unseen (pre : list (File number)) (dir : string) :
  ~ In dir (map path pre) -> filesOf pre dir = [].
Proof.
  intros Hnot. unfold filesOf. induction pre as [|f pre IH]; [reflexivity|].
  cbn [filter]. destruct (String.eqb_spec (path f) dir) as [Heq|_].
  - elim Hnot. left. exact Heq.
  - apply IH. intros Hin. apply Hnot. now right.
Qed.

(** One step of the reduction: from the groups of the files seen so far to
    the groups with one more file. *)
Lemma groupByPath_step (pre : list (File number)) (file : File number) :
  JSObject.inherited (path file) = false ->
  Coverage.groupByPath number (groupsFirstSeen pre) file
  = Eff.Ok (groupsFirstSeen (pre ++ [file])).
Proof.
  intros Hproto.
  assert (Hkeys : firstSeen (map path (pre ++ [file]))
                  = if existsb (String.eqb (path file))
                         (firstSeen (map path pre))
                    then firstSeen (map path pre)
                    else (firstSeen (map path pre) ++ [path file])%list).
  { rewrite map_app. cbn [map]. rewrite firstSeen_snoc.
    destruct (existsb (String.eqb (path file)) (map path pre)) eqn:Hex.
    - apply (proj1 (existsb_eqb_In _ _)) in Hex.
      apply (proj2 (firstSeen_In _ _)) in Hex.
      apply (proj2 (existsb_eqb_In _ _)) in Hex.
      now rewrite Hex.
    - destruct (existsb (String.eqb (path file)) (firstSeen (map path pre)))
        eqn:Hex'; [|reflexivity].
      apply (proj1 (existsb_eqb_In _ _)) in Hex'.
      apply (proj1 (firstSeen_In _ _)) in Hex'.
      apply (proj2 (existsb_eqb_In _ _)) in Hex'.
      now rewrite Hex' in Hex. }
  unfold groupsFirstSeen. rewrite Hkeys. clear Hkeys.
  set (keys := firstSeen (map path pre)).
  set (dirs := map (fun dir => (dir, filesOf pre dir)) keys).
  assert (Hget : JSObject.getOwn (path file) dirs
                 = if existsb (String.eqb (path file)) keys
                   then Some (filesOf pre (path file)) else None)
    by apply getOwn_keyed.
  unfold Coverage.groupByPath, JSObject.has, JSObject.hasOwn.
  rewrite Hproto, Hget.
  destruct (existsb (String.eqb (path file)) keys) eqn:Hseen.
  - (* the directory has its array already *)
    cbn [orb negb]. rewrite Hget. f_equal. unfold dirs.
    rewrite set_keyed_present;
      [| apply firstSeen_NoDup | now apply existsb_eqb_In].
    apply map_ext. intros dir. f_equal. rewrite filesOf_snoc.
    rewrite (String.eqb_sym (path file) dir).
    destruct (String.eqb_spec dir (path file)) as [->|_];
      [reflexivity | now rewrite app_nil_r].
  - (* a directory seen for the first time *)
    cbn [orb negb].
    assert (Hnot : ~ In (path file) (map path pre)).
    { intros Hin. apply (proj2 (firstSeen_In _ _)) in Hin.
      apply (proj2 (existsb_eqb_In _ _)) in Hin.
      fold keys in Hin. now rewrite Hin in Hseen. }
    rewrite (set_absent _ _ _ _ Hget).
    rewrite getOwn_app, Hget. cbn [JSObject.getOwn].
    rewrite String.eqb_refl.
    rewrite (set_last _ _ _ _ _ Hget).
    rewrite map_app. cbn [map app]. f_equal. f_equal.
    + apply map_ext_in. intros dir Hdir. f_equal. rewrite filesOf_snoc.
      destruct (String.eqb_spec (path file) dir) as [<-|_];
        [apply (proj1 (firstSeen_In _ _)) in Hdir; contradiction
        | now rewrite app_nil_r].
    + rewrite filesOf_snoc, String.eqb_refl, (filesOf_unseen _ _ Hnot).
      reflexivity.
Qed.

Lemma reduce_groupByPath_from (files pre : list (File number)) :
  (forall file, In file files -> JSObject.inherited (path file) = false) ->
  Coverage.reduce_groupByPath number files (groupsFirstSeen pre)
  = Eff.Ok (groupsFirstSeen (pre ++ files)).
Proof.
  revert pre. induction files as [|file files IH]; intros pre Hproto.
  - now rewrite app_nil_r.
  - cbn [Coverage.reduce_groupByPath].
    rewrite groupByPath_step by (apply Hproto; now left).
    rewrite IH by (intros f Hf; apply Hproto; now right).
    now rewrite <- app_assoc.
Qed.

(** The reduction returns the groups in first-seen order, as an object
    whose properties were created in that order. *)
Lemma reduce_groupByPath_groups (files : list (File number)) :
  (forall file, In file files -> JSObject.inherited (path file) = false) ->
  Coverage.reduce_groupByPath number files JSObject.empty
  = Eff.Ok (groupsFirstSeen files).
Proof. intros Hproto. exact (reduce_groupByPath_from files [] Hproto). Qed.

End Grouping.

(** ** Enumeration order of an object's properties *)

Section Enumeration.
Variable V : Type.

Lemma insertByIndex_In (e x : string * V) (l : list (string * V)) :
  In e (JSObject.insertByIndex x l) <-> e = x \/ In e l.
Proof.
  induction l as [|y l IH]; cbn [JSObject.insertByIndex In].
  - intuition (auto; congruence).
  - destruct (_ <=? _)%N; cbn [In]; [intuition (auto; congruence)|].
    rewrite IH. intuition (auto; congruence).
Qed.

Lemma sortByIndex_In (e : string * V) (l : list (string * V)) :
  In e (JSObject.sortByIndex l) <-> In e l.
Proof.
  induction l as [|y l IH]; [reflexivity|].
  unfold JSObject.sortByIndex in *. cbn [fold_right In].
  rewrite insertByIndex_In, IH. intuition (auto; congruence).
Qed.

Lemma insertByIndex_HdRel (a x : string * V) (l : list (string * V)) :
  indexLe V a x -> HdRel (indexLe V) a l ->
  HdRel (indexLe V) a (JSObject.insertByIndex x l).
Proof.
  intros Hax Hal. destruct l as [|b l]; cbn [JSObject.insertByIndex].
  - now constructor.
  - destruct (_ <=? _)%N; constructor; [exact Hax|].
    now inversion Hal.
Qed.

Lemma insertByIndex_Sorted (x : string * V) (l : list (string * V)) :
  Sorted (indexLe V) l -> Sorted (indexLe V) (JSObject.insertByIndex x l).
Proof.
  induction 1 as [|a l Hs IH Hhd]; cbn [JSObject.insertByIndex].
  - repeat constructor.
  - destruct (N.leb_spec (JSObject.indexOf (fst x)) (JSObject.indexOf (fst a)))
      as [Hle|Hgt].
    + constructor; [now constructor | now constructor].
    + constructor; [exact IH|].
      apply insertByIndex_HdRel; [unfold indexLe; lia | exact Hhd].
Qed.

(** The properties whose key is an array index are enumerated in ascending
    numeric order. *)
Lemma sortByIndex_Sorted (l : list (string * V)) :
  Sorted (indexLe V) (JSObject.sortByIndex l).
Proof.
  induction l as [|x l IH]; [constructor|].
  unfold JSObject.sortByIndex in *. cbn [fold_right].
  now apply insertByIndex_Sorted.
Qed.

Lemma filter_none (A : Type) (p : A -> bool) (l : list A) :
  (forall x, In x l -> p x = false) -> filter p l = [].
Proof.
  induction l as [|x l IH]; intros Hall; [reflexivity|].
  cbn [filter]. rewrite (Hall x (or_introl eq_refl)).
  apply IH. intros y Hy. apply Hall. now right.
Qed.

Lemma filter_all (A : Type) (p : A -> bool) (l : list A) :
  (forall x, In x l -> p x = true) -> filter p l = l.
Proof.
  induction l as [|x l IH]; intros Hall; [reflexivity|].
  cbn [filter]. rewrite (Hall x (or_introl eq_refl)). f_equal.
  apply IH. intros y Hy. apply Hall. now right.
Qed.

(** Among the properties whose key is not an array index, enumeration
    follows creation order. *)
Lemma entries_other_keys (o : JSObject.t V) :
  filter (fun e => negb (keyIsIndex e)) (JSObject.entries o)
  = filter (fun e => negb (keyIsIndex e)) o.
Proof.
  unfold JSObject.entries. rewrite filter_app.
  rewrite (filter_none _ _ (JSObject.sortByIndex _)).
  - cbn [app]. apply filter_all. intros e He.
    now apply filter_In in He.
  - intros e He. apply (proj1 (sortByIndex_In _ _)) in He.
    apply filter_In in He. destruct He as [_ He]. unfold keyIsIndex. now rewrite He.
Qed.

Lemma entries_In (e : string * V) (o : JSObject.t V) :
  In e (JSObject.entries o) <-> In e o.
Proof.
  unfold JSObject.entries.
  rewrite in_app_iff, sortByIndex_In, !filter_In.
  destruct (JSObject.isArrayIndex (fst e)); cbn [negb]; intuition congruence.
Qed.

(** Without a key that is an array index, enumeration is creation order. *)
Lemma entries_no_index (o : JSObject.t V) :
  (forall e, In e o -> JSObject.isArrayIndex (fst e) = false) ->
  JSObject.entries o = o.
Proof.
  intros Hno. unfold JSObject.entries.
  rewrite (filter_none _ _ o) by exact Hno. cbn [JSObject.sortByIndex fold_right app].
  apply filter_all. intros e He. now rewrite (Hno e He).
Qed.

End Enumeration.

(** C9, as amended. For coverage files none of whose directories is named
    like a property of [Object.prototype] (for those [groupByPath] throws),
    grouping returns, and enumerating the groups gives: first the
    directories whose name is an array index, in ascending numeric order;
    then the other directories, in the order in which their first file
    occurs in the file enumeration. Each group holds the files of its
    directory in their original order. When no directory name is an array
    index this is the first-seen directory order throughout. *)
Theorem grouping_keeps_order_of_named_directories
    (number : Type) (files : list (File number)) :
  (forall file, In file files -> JSObject.inherited (path file) = false) ->
  exists dirs,
    Coverage.reduce_groupByPath number files JSObject.empty = Eff.Ok dirs
    /\ JSObject.entries dirs
       = (JSObject.sortByIndex (filter keyIsIndex (groupsFirstSeen files))
            ++ filter (fun e => negb (keyIsIndex e)) (groupsFirstSeen files))%list
    /\ Sorted (indexLe (list (File number)))
              (JSObject.sortByIndex (filter keyIsIndex (groupsFirstSeen files)))
    /\ filter (fun e => negb (keyIsIndex e)) (JSObject.entries dirs)
       = filter (fun e => negb (keyIsIndex e)) (groupsFirstSeen files)
    /\ (forall dir group,
          In (dir, group) (JSObject.entries dirs) ->
          group = filesOf files dir)
    /\ ((forall file, In file files ->
                      JSObject.isArrayIndex (path file) = false) ->
        JSObject.entries dirs = groupsFirstSeen files).
Proof.
  intros Hproto. exists (groupsFirstSeen files).
  split; [now apply reduce_groupByPath_groups|].
  split; [reflexivity|].
  split; [apply sortByIndex_Sorted|].
  split; [apply entries_other_keys|].
  split.
  - intros dir group Hin. apply (proj1 (entries_In _ _ _)) in Hin.
    unfold groupsFirstSeen in Hin. apply in_map_iff in Hin.
    destruct Hin as (k & Heq & _). now injection Heq as <- <-.
  - intros Hno. apply entries_no_index. intros [dir group] Hin.
    unfold groupsFirstSeen in Hin. apply in_map_iff in Hin.
    destruct Hin as (k & Heq & Hk). injection Heq as <- <-.
    apply (proj1 (firstSeen_In _ _)) in Hk. apply in_map_iff in Hk.
    destruct Hk as (file & <- & Hfile). cbn [fst]. now apply Hno.
Qed.

Lemma grouping_keeps_order_of_named_directories_witness :
  exists dirs,
    Coverage.reduce_groupByPath Z Examples.filesInTwoDirectories
      JSObject.empty = Eff.Ok dirs
    /\ JSObject.entries dirs
       = [ ("src", [Examples.fileIn "src" "a.ts"; Examples.fileIn "src" "c.ts"]);
           ("lib", [Examples.fileIn "lib" "b.ts"]) ].
Proof.
  destruct (grouping_keeps_order_of_named_directories Z
              Examples.filesInTwoDirectories) as (dirs & Hred & _ & _ & _ & _ & Hall).
  - intros file [<-|[<-|[<-|[]]]]; reflexivity.
  - exists dirs. split; [exact Hred|].
    refine (eq_trans (Hall _) eq_refl).
    intros file [<-|[<-|[<-|[]]]]; reflexivity.
Defined.

(** C9, as the specification words it, fails: a directory named "10" whose
    first file comes after a file of "src" is enumerated before "src". *)
Lemma numeric_directory_counterexample :
  (exists dirs,
     Coverage.reduce_groupByPath Z Examples.filesWithNumericDirectory
       JSObject.empty = Eff.Ok dirs
     /\ map fst (JSObject.entries dirs) = ["10"; "src"])
  /\ map fst (groupsFirstSeen Examples.filesWithNumericDirectory)
     = ["src"; "10"]
  /\ ~ groupingKeepsFirstSeenOrder Examples.filesWithNumericDirectory.
Proof.
  split; [eexists; split; reflexivity|]. split; [reflexivity|].
  intros (dirs & Hred & Hent).
  vm_compute in Hred. injection Hred as <-.
  vm_compute in Hent. discriminate Hent.
Qed.

(* ================================================================== *)
(** * Further properties of the code *)

(** ** Truncation of labels and of the check body *)

Lemma substring_0_append (kept rest : string) :
  String.substring 0 (String.length kept) (kept ++ rest) = kept.
Proof.
  induction kept as [|c kept IH]; [destruct rest; reflexivity|].
  cbn [String.length append String.substring]. now rewrite IH.
Qed.

Lemma substring_0_all (s : string) :
  String.substring 0 (String.length s) s = s.
Proof.
  induction s as [|c s IH]; [reflexivity|].
  cbn [String.length String.substring]. now rewrite IH.
Qed.

Lemma substring_skip_append (dropped kept : string) :
  String.substring (String.length dropped) (String.length kept)
    (dropped ++ kept) = kept.
Proof.
  induction dropped as [|c dropped IH]; [|exact IH].
  apply substring_0_all.
Qed.

Lemma substring_suffix (n : nat) (s : string) :
  (n <= String.length s)%nat ->
  exists dropped,
    s = dropped ++ String.substring n (String.length s - n) s
    /\ String.length dropped = n.
Proof.
  revert s. induction n as [|n IH]; intros s Hn.
  - exists "". split; [|reflexivity]. rewrite Nat.sub_0_r.
    cbn [append]. symmetry. apply substring_0_all.
  - destruct s as [|c s]; [simpl in Hn; lia|].
    simpl in Hn. destruct (IH s) as (dropped & Hs & Hlen); [lia|].
    exists (String c dropped). cbn [String.length String.substring append].
    rewrite Nat.sub_succ. split; [now rewrite <- Hs | now rewrite Hlen].
Qed.

(** What [substring(0, len)] keeps once [len <= str.length]: the first
    [max(len, 0)] characters. *)
Lemma substring_0_kept (str : string) (len : Z) :
  len <= strlen str ->
  exists kept rest,
    str = kept ++ rest
    /\ strlen kept = Z.max len 0
    /\ substring 0 len str = kept.
Proof.
  intros Hlen. pose proof (strlen_nonneg str) as Hs. unfold substring.
  replace (Z.min (Z.max 0 0) (strlen str)) with 0 by lia.
  replace (Z.min (Z.max len 0) (strlen str)) with (Z.max len 0) by lia.
  replace (Z.min 0 (Z.max len 0)) with 0 by lia.
  replace (Z.max 0 (Z.max len 0) - 0) with (Z.max len 0) by lia.
  change (Z.to_nat 0) with 0%nat.
  destruct (substring_prefix (Z.to_nat (Z.max len 0)) str) as (rest & Hsplit & Hk).
  { unfold strlen in *. lia. }
  exists (String.substring 0 (Z.to_nat (Z.max len 0)) str), rest.
  split; [exact Hsplit|]. split; [|reflexivity].
  unfold strlen. rewrite Hk. lia.
Qed.

(** What [substring(str.length - len)] keeps once [len <= str.length]: the
    last [max(len, 0)] characters. *)
Lemma substring_from_kept (str : string) (len : Z) :
  len <= strlen str ->
  exists dropped kept,
    str = dropped ++ kept
    /\ strlen kept = Z.max len 0
    /\ substring_from (strlen str - len) str = kept.
Proof.
  intros Hlen. pose proof (strlen_nonneg str) as Hs.
  unfold substring_from, substring.
  set (L := strlen str) in *.
  replace (Z.min (Z.max L 0) L) with L by lia.
  replace (Z.min (Z.max (L - len) 0) L) with (L - Z.max len 0) by lia.
  replace (Z.min (L - Z.max len 0) L) with (L - Z.max len 0) by lia.
  replace (Z.max (L - Z.max len 0) L - (L - Z.max len 0)) with (Z.max len 0)
    by lia.
  destruct (substring_suffix (Z.to_nat (L - Z.max len 0)) str)
    as (dropped & Hsplit & Hd).
  { unfold L, strlen in *. lia. }
  replace (String.length str - Z.to_nat (L - Z.max len 0))%nat
    with (Z.to_nat (Z.max len 0)) in Hsplit by (unfold L, strlen in *; lia).
  exists dropped,
    (String.substring (Z.to_nat (L - Z.max len 0)) (Z.to_nat (Z.max len 0)) str).
  split; [exact Hsplit|]. split; [|reflexivity].
  apply (f_equal strlen) in Hsplit. rewrite strlen_append in Hsplit.
  fold L in Hsplit. unfold strlen at 1 in Hsplit. rewrite Hd in Hsplit. lia.
Qed.

Lemma append_inj_length (a b a' b' : string) :
  a ++ b = a' ++ b' -> String.length a = String.length a' ->
  a = a' /\ b = b'.
Proof.
  revert a'. induction a as [|c a IH]; intros [|c' a'] Heq Hlen;
    try discriminate Hlen.
  - now split.
  - cbn [append] in Heq. injection Heq as -> Heq.
    cbn [String.length] in Hlen. injection Hlen as Hlen.
    destruct (IH a' Heq Hlen) as [-> ->]. now split.
Qed.

Lemma append_inj_strlen (a b a' b' : string) :
  a ++ b = a' ++ b' ->
  strlen a = strlen a' \/ strlen b = strlen b' ->
  a = a' /\ b = b'.
Proof.
  intros Heq Hlen. apply append_inj_length; [exact Heq|].
  pose proof (f_equal strlen Heq) as Htotal.
  rewrite !strlen_append in Htotal. unfold strlen in *. lia.
Qed.

Lemma truncateLeft_short (str : string) (len : Z) :
  strlen str < len -> Truncate.truncateLeft str len = str.
Proof.
  intros Hlt. unfold Truncate.truncateLeft.
  apply Z.ltb_lt in Hlt. now rewrite Hlt.
Qed.

Lemma truncateLeft_long (str : string) (len : Z) :
  len <= strlen str ->
  exists dropped kept,
    str = dropped ++ kept
    /\ strlen kept = Z.max len 0
    /\ Truncate.truncateLeft str len = "..." ++ kept.
Proof.
  intros Hhi. unfold Truncate.truncateLeft.
  destruct (Z.ltb_spec (strlen str) len) as [Hlt|_]; [lia|].
  destruct (substring_from_kept str len Hhi) as (dropped & kept & Hs & Hk & ->).
  exists dropped, kept. split; [exact Hs|]. split; [exact Hk | reflexivity].
Qed.

Lemma truncateRight_long_any (str : string) (len : Z) :
  len <= strlen str ->
  exists kept rest,
    str = kept ++ rest
    /\ strlen kept = Z.max len 0
    /\ Truncate.truncateRight str len = kept ++ "...".
Proof.
  intros Hhi. unfold Truncate.truncateRight.
  destruct (Z.ltb_spec (strlen str) len) as [Hlt|_]; [lia|].
  destruct (substring_0_kept str len Hhi) as (kept & rest & Hs & Hk & ->).
  exists kept, rest. split; [exact Hs|]. split; [exact Hk | reflexivity].
Qed.

(** X1. [truncateLeft] returns a string shorter than [len] as it is; from
    [len] characters on it returns "..." followed by the last [len]
    characters; the result never has more than [len + 3] characters. *)
Theorem truncateLeft_keeps_the_end (str : string) (len : Z) :
  (strlen str < len -> Truncate.truncateLeft str len = str)
  /\ (0 <= len <= strlen str ->
      exists dropped kept,
        str = dropped ++ kept
        /\ strlen kept = len
        /\ Truncate.truncateLeft str len = "..." ++ kept)
  /\ (0 <= len -> strlen (Truncate.truncateLeft str len) <= len + 3).
Proof.
  split; [apply truncateLeft_short|]. split.
  - intros [Hlo Hhi].
    destruct (truncateLeft_long str len Hhi) as (dropped & kept & Hs & Hk & Ht).
    exists dropped, kept. split; [exact Hs|]. split; [lia | exact Ht].
  - intros Hlen. destruct (Z.lt_ge_cases (strlen str) len) as [Hlt|Hge].
    + rewrite truncateLeft_short by exact Hlt. lia.
    + destruct (truncateLeft_long str len) as (dropped & kept & _ & Hk & ->);
        [lia|].
      rewrite strlen_append, Hk. change (strlen "...") with 3. lia.
Qed.

Lemma truncateLeft_keeps_the_end_witness :
  Truncate.truncateLeft "src/components" 50 = "src/components"
  /\ strlen (Truncate.truncateLeft "src/components" 50) <= 50 + 3.
Proof.
  destruct (truncateLeft_keeps_the_end "src/components" 50)
    as (Hshort & _ & Hbound).
  split; [apply Hshort | apply Hbound]; vm_compute; [reflexivity | discriminate].
Defined.

(** X2. A string of exactly [len] characters is not returned as it is: both
    truncations add the marker to it although nothing is cut. *)
Theorem truncation_marks_a_string_of_exactly_len (str : string) :
  Truncate.truncateRight str (strlen str) = str ++ "..."
  /\ Truncate.truncateLeft str (strlen str) = "..." ++ str.
Proof.
  pose proof (strlen_nonneg str) as Hs. split.
  - destruct (truncateRight_long str (strlen str)) as (kept & rest & Hsplit & Hk & ->);
      [lia|].
    rewrite <- (append_empty_r str) in Hsplit at 1.
    symmetry in Hsplit.
    destruct (append_inj_strlen _ _ _ _ Hsplit (or_introl Hk)) as [-> _].
    reflexivity.
  - destruct (truncateLeft_long str (strlen str))
      as (dropped & kept & Hsplit & Hk & ->); [lia|].
    change str with ("" ++ str) in Hsplit at 1. symmetry in Hsplit.
    assert (Hk' : strlen kept = strlen str) by lia.
    destruct (append_inj_strlen _ _ _ _ Hsplit (or_intror Hk')) as [_ ->].
    reflexivity.
Qed.

(** X3. Truncating twice is truncating once, for both truncations and every
    [len]: the marker of the first pass is not truncated again and no second
    marker is added. *)
Theorem truncation_is_idempotent (str : string) (len : Z) :
  Truncate.truncateRight (Truncate.truncateRight str len) len
  = Truncate.truncateRight str len
  /\ Truncate.truncateLeft (Truncate.truncateLeft str len) len
     = Truncate.truncateLeft str len.
Proof.
  destruct (Z.lt_ge_cases (strlen str) len) as [Hlt|Hge].
  - rewrite (truncateRight_short str len Hlt), (truncateLeft_short str len Hlt).
    now rewrite (truncateRight_short str len Hlt),
      (truncateLeft_short str len Hlt).
  - split.
    + destruct (truncateRight_long_any str len Hge)
        as (kept & rest & _ & Hk & ->).
      destruct (truncateRight_long_any (kept ++ "...") len)
        as (kept' & rest' & Hsplit & Hk' & ->).
      { rewrite strlen_append, Hk. change (strlen "...") with 3. lia. }
      assert (Hlen : strlen kept = strlen kept') by lia.
      destruct (append_inj_strlen _ _ _ _ Hsplit (or_introl Hlen)) as [<- _].
      reflexivity.
    + destruct (truncateLeft_long str len Hge)
        as (dropped & kept & _ & Hk & ->).
      destruct (truncateLeft_long ("..." ++ kept) len)
        as (dropped' & kept' & Hsplit & Hk' & ->).
      { rewrite strlen_append, Hk. change (strlen "...") with 3. lia. }
      assert (Hlen : strlen kept = strlen kept') by lia.
      destruct (append_inj_strlen _ _ _ _ Hsplit (or_intror Hlen)) as [_ <-].
      reflexivity.
Qed.

(** ** The renderer on every input *)

Lemma toHTMLTableRow_unbounded (rows : list Row) (f : CellFormatter)
    (w : string) :
  toHTMLTableRow rows f w Infinity = verbatim f w rows.
Proof.
  unfold toHTMLTableRow, verbatim. now rewrite mapRows_fit.
Qed.

Lemma join_empty_four (a b c d : string) :
  join "" [a; b; c; d] = a ++ b ++ c ++ d.
Proof. now rewrite !join_empty_cons, append_empty_r. Qed.

(** The output in terms of the kept rows: they are a prefix of the input,
    and the placeholder row follows them exactly when a row is left over. *)
Lemma toHTMLTableRow_kept (rows : list Row) (f : CellFormatter) (w : string)
    (L : limit) :
  exists dropped,
    rows = (keptRows f L (wrapperCost w) rows ++ dropped)%list
    /\ toHTMLTableRow rows f w L
       = verbatim f w
           (keptRows f L (wrapperCost w) rows
              ++ match dropped with
                 | [] => []
                 | _ :: _ => [dummyRow rows]
                 end)%list.
Proof.
  destruct (keptRows_cases f L rows (wrapperCost w))
    as [Hall | (n & r & post & -> & Hsplit & Hle & Hgt)].
  - exists []. rewrite !app_nil_r. split; [now rewrite Hall|].
    rewrite toHTMLTableRow_emitted. unfold emittedRows.
    now rewrite Hall, Nat.eqb_refl.
  - exists (r :: post). split; [exact Hsplit|].
    now apply toHTMLTableRow_overflow with (r := r) (post := post).
Qed.

Lemma keptRows_limit_mono (f : CellFormatter) (n m : Z) (rows : list Row) :
  n <= m ->
  forall count,
    exists extra,
      keptRows f (Finite m) count rows
      = (keptRows f (Finite n) count rows ++ extra)%list.
Proof.
  intros Hnm. induction rows as [|r rows IH]; intros count.
  - exists []. reflexivity.
  - cbn [keptRows leb_limit].
    destruct (Z.leb_spec (count + rowSize f r) n) as [Hn|Hn].
    + destruct (Z.leb_spec (count + rowSize f r) m) as [_|Hm]; [|lia].
      destruct (IH (count + rowSize f r)) as (extra & ->).
      exists extra. reflexivity.
    + eexists. reflexivity.
Qed.

(** X4. Whatever the limit, [toHTMLTable] renders the header row in full:
    only the body is rendered under the limit, reduced by the table tags and
    the header. Without a limit, as for the summary table, the body holds
    every row. *)
Theorem table_header_is_never_truncated
    (headers : Row) (rows : list Row) (L : limit) :
  toHTMLTable headers rows L
  = tableOpeningTag
      ++ verbatim thCell "thead" [headers]
      ++ toHTMLTableRow rows tdCell "tbody"
           (limit_sub L (strlen tableOpeningTag + strlen tableClosingTag
                         + strlen (verbatim thCell "thead" [headers])))
      ++ tableClosingTag
  /\ toHTMLTable headers rows Infinity
     = tableOpeningTag
         ++ verbatim thCell "thead" [headers]
         ++ verbatim tdCell "tbody" rows
         ++ tableClosingTag.
Proof.
  unfold toHTMLTable. rewrite !join_empty_four.
  rewrite (toHTMLTableRow_unbounded [headers] thCell "thead").
  cbn [limit_sub]. rewrite (toHTMLTableRow_unbounded rows tdCell "tbody").
  split; reflexivity.
Qed.

(** X5. For every input, [toHTMLTableRow] returns a prefix of the rows, in
    order and each rendered as it is, followed by the placeholder row
    exactly when rows are left over; no row after the first refused one
    comes back even if it would fit. Without a limit nothing is left
    over. *)
Theorem rendered_rows_are_a_prefix
    (rows : list Row) (f : CellFormatter) (w : string) (L : limit) :
  exists kept dropped,
    rows = (kept ++ dropped)%list
    /\ toHTMLTableRow rows f w L
       = verbatim f w
           (kept ++ match dropped with
                    | [] => []
                    | _ :: _ => [dummyRow rows]
                    end)%list
    /\ (L = Infinity -> dropped = []).
Proof.
  destruct (toHTMLTableRow_kept rows f w L) as (dropped & Hsplit & Hout).
  exists (keptRows f L (wrapperCost w) rows), dropped.
  split; [exact Hsplit|]. split; [exact Hout|].
  intros ->. rewrite keptRows_fit in Hsplit by reflexivity.
  rewrite <- (app_nil_r rows) in Hsplit at 1.
  now apply app_inv_head in Hsplit.
Qed.

(** X6. Raising the limit never takes a row out of the output: the rows
    kept under a limit are kept under every larger limit, in the same
    places. *)
Theorem larger_limit_keeps_more_rows
    (rows : list Row) (f : CellFormatter) (w : string) (n m : Z) :
  n <= m ->
  exists kept extra dropped,
    rows = (kept ++ extra ++ dropped)%list
    /\ toHTMLTableRow rows f w (Finite n)
       = verbatim f w
           (kept ++ match (extra ++ dropped)%list with
                    | [] => []
                    | _ :: _ => [dummyRow rows]
                    end)%list
    /\ toHTMLTableRow rows f w (Finite m)
       = verbatim f w
           (kept ++ extra ++ match dropped with
                             | [] => []
                             | _ :: _ => [dummyRow rows]
                             end)%list.
Proof.
  intros Hnm.
  destruct (toHTMLTableRow_kept rows f w (Finite n)) as (dn & Hn & Houtn).
  destruct (toHTMLTableRow_kept rows f w (Finite m)) as (dm & Hm & Houtm).
  destruct (keptRows_limit_mono f n m rows Hnm (wrapperCost w))
    as (extra & Hextra).
  rewrite Hextra in Hm, Houtm. rewrite <- app_assoc in Hm, Houtm.
  exists (keptRows f (Finite n) (wrapperCost w) rows), extra, dm.
  split; [exact Hm|]. split; [|exact Houtm].
  assert (Hdn : dn = (extra ++ dm)%list).
  { rewrite Hn in Hm at 1. now apply app_inv_head in Hm. }
  now rewrite <- Hdn.
Qed.

Lemma larger_limit_keeps_more_rows_witness :
  exists kept extra dropped,
    [["a"]; ["b"]] = (kept ++ extra ++ dropped)%list
    /\ toHTMLTableRow [["a"]; ["b"]] tdCell "tbody" (Finite 34)
       = verbatim tdCell "tbody"
           (kept ++ match (extra ++ dropped)%list with
                    | [] => []
                    | _ :: _ => [dummyRow [["a"]; ["b"]]]
                    end)%list
    /\ toHTMLTableRow [["a"]; ["b"]] tdCell "tbody" (Finite 53)
       = verbatim tdCell "tbody"
           (kept ++ extra ++ match dropped with
                             | [] => []
                             | _ :: _ => [dummyRow [["a"]; ["b"]]]
                             end)%list.
Proof.
  apply (larger_limit_keeps_more_rows [["a"]; ["b"]] tdCell "tbody" 34 53).
  vm_compute. discriminate.
Defined.

(** ** Cells *)

Lemma mapi_from_tdCell_later (i : nat) (cells : list string) :
  mapi_from tdCell (S i) cells
  = map (fun cell => "<td nowrap=" ++ dquote ++ "nowrap" ++ dquote
                       ++ " align=" ++ dquote ++ "right" ++ dquote ++ ">"
                       ++ cell ++ "</td>") cells.
Proof.
  revert i. induction cells as [|cell cells IH]; intros i; [reflexivity|].
  cbn [mapi_from map]. rewrite IH. reflexivity.
Qed.

(** X7. In a body row the first cell is a plain [td] and every later cell
    carries the attributes that keep it on one line and align it to the
    right, whatever the number of cells. *)
Theorem body_cells_after_the_first_are_right_aligned
    (first : string) (others : list string) :
  rowTag tdCell (first :: others)
  = "<tr><td>" ++ first ++ "</td>"
      ++ join "" (map (fun cell =>
                         "<td nowrap=" ++ dquote ++ "nowrap" ++ dquote
                           ++ " align=" ++ dquote ++ "right" ++ dquote ++ ">"
                           ++ cell ++ "</td>") others)
      ++ "</tr>".
Proof.
  unfold rowTag, mapi. cbn [mapi_from].
  rewrite mapi_from_tdCell_later, join_empty_cons.
  unfold tdCell at 1. cbn [Nat.ltb Nat.leb append].
  now rewrite !append_assoc.
Qed.

(** X8. The rows that [getCoverageTable] builds for the detail table have
    five cells each, as its header row has, and so has the placeholder row
    when there are rows; there is one row per directory and one per
    file. *)
Theorem detail_rows_have_five_cells
    (number : Type) (number_gtb : number -> Z -> bool)
    (number_toString : number -> string)
    (groups : list (string * list (File number))) :
  let rows :=
    List.concat
      (map (Coverage.directoryRows number number_gtb number_toString) groups) in
  Forall (fun row : Row => List.length row = 5%nat) rows
  /\ List.length ("File" :: Coverage.headers) = 5%nat
  /\ (rows = [] \/ List.length (dummyRow rows) = 5%nat)
  /\ List.length rows
     = (List.length groups + List.length (List.concat (map snd groups)))%nat.
Proof.
  cbv zeta.
  set (rowsOf := Coverage.directoryRows number number_gtb number_toString).
  assert (Hfive : Forall (fun row : Row => List.length row = 5%nat)
                    (List.concat (map rowsOf groups))).
  { apply Forall_concat, Forall_map, Forall_forall.
    intros [dir files] _. unfold rowsOf, Coverage.directoryRows.
    constructor; [reflexivity|]. apply Forall_map, Forall_forall.
    intros file _. reflexivity. }
  split; [exact Hfive|]. split; [reflexivity|]. split.
  - destruct (List.concat (map rowsOf groups)) as [|row rows] eqn:Hrows;
      [now left | right].
    apply Forall_inv in Hfive. unfold dummyRow, array_fill.
    cbn [hd]. rewrite Hfive, length_app, repeat_length. reflexivity.
  - clear Hfive. induction groups as [|[dir files] groups IH]; [reflexivity|].
    cbn [map List.concat snd]. rewrite !length_app, IH.
    unfold rowsOf at 1, Coverage.directoryRows.
    cbn [List.length]. rewrite length_map. lia.
Qed.

(** ** Bands *)

Import BandSpec.

Lemma formatIfPoor_band (number : Type) (number_gtb : number -> Z -> bool)
    (number_toString : number -> string) (v : pctValue number) :
  exists b,
    Coverage.formatIfPoor number number_gtb number_toString v
    = Coverage.toString number number_toString v ++ bandLabel b
    /\ (Coverage.gtb number number_gtb v 80 = true -> b = Green)
    /\ (Coverage.gtb number number_gtb v 65 = true -> (2 <= bandRank b)%nat)
    /\ (Coverage.gtb number number_gtb v 50 = true -> (1 <= bandRank b)%nat)
    /\ (b = Green -> Coverage.gtb number number_gtb v 80 = true)
    /\ ((2 <= bandRank b)%nat ->
        Coverage.gtb number number_gtb v 80 = true
        \/ Coverage.gtb number number_gtb v 65 = true)
    /\ ((1 <= bandRank b)%nat ->
        Coverage.gtb number number_gtb v 80 = true
        \/ Coverage.gtb number number_gtb v 65 = true
        \/ Coverage.gtb number number_gtb v 50 = true).
Proof.
  unfold Coverage.formatIfPoor.
  destruct (Coverage.gtb number number_gtb v 80) eqn:H80;
    [exists Green; cbn; repeat split; auto; lia|].
  destruct (Coverage.gtb number number_gtb v 65) eqn:H65;
    [exists Yellow; cbn; repeat split; auto; try lia; discriminate|].
  destruct (Coverage.gtb number number_gtb v 50) eqn:H50;
    [exists Orange; cbn; repeat split; auto; try lia; discriminate|].
  exists Red. cbn. repeat split; auto; try lia; discriminate.
Qed.

(** X9. The band is monotonic: when a percentage exceeds every threshold
    that another exceeds, its band is the same or a better one (red below
    orange below yellow below green). *)
Theorem band_is_monotonic
    (number : Type) (number_gtb : number -> Z -> bool)
    (number_toString : number -> string) (x y : pctValue number) :
  (forall k, Coverage.gtb number number_gtb x k = true ->
             Coverage.gtb number number_gtb y k = true) ->
  exists bx bY,
    Coverage.formatIfPoor number number_gtb number_toString x
    = Coverage.toString number number_toString x ++ bandLabel bx
    /\ Coverage.formatIfPoor number number_gtb number_toString y
       = Coverage.toString number number_toString y ++ bandLabel bY
    /\ (bandRank bx <= bandRank bY)%nat.
Proof.
  intros Hle.
  destruct (formatIfPoor_band number number_gtb number_toString x)
    as (bx & Hx & _ & _ & _ & Hgx & Hyx & Hox).
  destruct (formatIfPoor_band number number_gtb number_toString y)
    as (bY & Hy & Hgy & Hyy & Hoy & _ & _ & _).
  exists bx, bY. split; [exact Hx|]. split; [exact Hy|].
  destruct bx; cbn [bandRank].
  - lia.
  - destruct Hox as [H|[H|H]]; [cbn; lia | | |];
      apply Hle in H; [rewrite (Hgy H); cbn; lia | | ];
      [specialize (Hyy H) | specialize (Hoy H)]; lia.
  - destruct Hyx as [H|H]; [cbn; lia | |];
      apply Hle in H; [rewrite (Hgy H); cbn; lia | specialize (Hyy H); lia].
  - rewrite (Hgy (Hle _ (Hgx eq_refl))). cbn. lia.
Qed.

Lemma band_is_monotonic_witness :
  exists bx bY,
    Coverage.formatIfPoor Z Examples.Z_gtb Examples.Z_toString (Number 60)
    = "60" ++ bandLabel bx
    /\ Coverage.formatIfPoor Z Examples.Z_gtb Examples.Z_toString (Number 70)
       = "70" ++ bandLabel bY
    /\ (bandRank bx <= bandRank bY)%nat.
Proof.
  apply (band_is_monotonic Z Examples.Z_gtb Examples.Z_toString
           (Number 60) (Number 70)).
  intros k. cbn [Coverage.gtb]. unfold Examples.Z_gtb.
  rewrite !Z.ltb_lt. lia.
Defined.

(** ** Grouping: the exception, and what the groups hold *)

Section GroupingMore.
Variable number : Type.

Lemma reduce_groupByPath_throws_from (files pre : list (File number)) :
  (forall file, In file pre -> JSObject.inherited (path file) = false) ->
  (exists file, In file files /\ JSObject.inherited (path file) = true) ->
  Coverage.reduce_groupByPath number files (groupsFirstSeen pre)
  = Eff.Throw (ErrorObject "TypeError"
                 "dirs[file.path].push is not a function").
Proof.
  revert pre. induction files as [|file files IH]; intros pre Hpre Hex.
  - destruct Hex as (file & [] & _).
  - cbn [Coverage.reduce_groupByPath].
    destruct (JSObject.inherited (path file)) eqn:Hproto.
    + (* the first directory with an inherited name *)
      unfold Coverage.groupByPath, JSObject.has, JSObject.hasOwn.
      rewrite Hproto, orb_true_r. cbn [negb].
      unfold groupsFirstSeen. rewrite getOwn_keyed.
      destruct (existsb (String.eqb (path file)) (firstSeen (map path pre)))
        eqn:Hseen; [|reflexivity].
      apply (proj1 (existsb_eqb_In _ _)) in Hseen.
      apply (proj1 (firstSeen_In _ _)) in Hseen.
      apply in_map_iff in Hseen. destruct Hseen as (earlier & Hpath & Hin).
      apply Hpre in Hin. rewrite Hpath, Hproto in Hin. discriminate.
    + rewrite groupByPath_step by exact Hproto.
      apply IH.
      * intros f Hf. apply in_app_or in Hf.
        destruct Hf as [Hf | [<- | []]]; [now apply Hpre | exact Hproto].
      * destruct Hex as (f & [<- | Hf] & Hinh);
          [rewrite Hproto in Hinh; discriminate | now exists f].
Qed.

Lemma filter_partition_Permutation (A : Type) (p : A -> bool) (l : list A) :
  Permutation (filter p l ++ filter (fun x => negb (p x)) l) l.
Proof.
  induction l as [|x l IH]; [constructor|].
  cbn [filter]. destruct (p x); cbn [negb app].
  - now constructor.
  - symmetry. apply Permutation_cons_app. now symmetry.
Qed.

Lemma insertByIndex_Permutation (V : Type) (e : string * V)
    (l : list (string * V)) :
  Permutation (JSObject.insertByIndex e l) (e :: l).
Proof.
  induction l as [|e' l IH]; cbn [JSObject.insertByIndex]; [reflexivity|].
  destruct (_ <=? _)%N; [reflexivity|].
  rewrite IH. apply perm_swap.
Qed.

Lemma entries_Permutation (V : Type) (o : JSObject.t V) :
  Permutation (JSObject.entries o) o.
Proof.
  unfold JSObject.entries.
  eapply Permutation_trans;
    [| apply (filter_partition_Permutation _
                (fun e => JSObject.isArrayIndex (fst e)) o)].
  apply Permutation_app_tail.
  induction (filter (fun e => JSObject.isArrayIndex (fst e)) o) as [|e l IH];
    [reflexivity|].
  unfold JSObject.sortByIndex in *. cbn [fold_right].
  rewrite insertByIndex_Permutation. now constructor.
Qed.

(** The groups of a list of directories that are distinct and cover every
    file hold each file once. *)
Lemma filesOf_partition (dirs : list string) :
  NoDup dirs ->
  forall files : list (File number),
    (forall file, In file files -> In (path file) dirs) ->
    Permutation (flat_map (filesOf files) dirs) files.
Proof.
  induction 1 as [|dir dirs Hnew Hnd IH]; intros files Hcover.
  - destruct files as [|file files]; [constructor|].
    destruct (Hcover file (or_introl eq_refl)).
  - cbn [flat_map].
    eapply Permutation_trans;
      [| apply (filter_partition_Permutation _
                  (fun file => (path file =? dir)%string) files)].
    unfold filesOf at 1. apply Permutation_app_head.
    set (others := filter (fun file => negb (path file =? dir)%string) files).
    assert (Hsame : flat_map (filesOf files) dirs
                    = flat_map (filesOf others) dirs).
    { rewrite !flat_map_concat_map. f_equal. apply map_ext_in.
      intros d Hd. unfold filesOf, others.
      clear -Hd Hnew. induction files as [|file files IHf]; [reflexivity|].
      cbn [filter].
      destruct (String.eqb_spec (path file) d) as [Hpd|Hpd].
      - destruct (String.eqb_spec (path file) dir) as [Heq|_].
        + subst. contradiction.
        + cbn [negb filter]. destruct (String.eqb_spec (path file) d);
            [now rewrite IHf | contradiction].
      - destruct (path file =? dir)%string; cbn [negb filter]; [exact IHf|].
        destruct (String.eqb_spec (path file) d); [contradiction | exact IHf]. }
    rewrite Hsame. apply IH. intros file Hfile.
    unfold others in Hfile. apply filter_In in Hfile.
    destruct Hfile as [Hin Hne].
    destruct (Hcover file Hin) as [Heq | Hdirs]; [|exact Hdirs].
    rewrite Heq, String.eqb_refl in Hne. discriminate.
Qed.

End GroupingMore.

(** X10. A file in a directory named like a property of [Object.prototype]
    (such as "constructor" or "toString") makes the grouping throw a
    TypeError, wherever the file is in the list: [in] finds the inherited
    property, no array is created, and [push] is called on what is
    inherited. The error prints as
    "TypeError: dirs[file.path].push is not a function". *)
Theorem grouping_throws_on_inherited_directory_name
    (number : Type) (files : list (File number)) :
  (exists file, In file files /\ JSObject.inherited (path file) = true) ->
  exists error,
    Coverage.reduce_groupByPath number files JSObject.empty = Eff.Throw error
    /\ error = ErrorObject "TypeError" "dirs[file.path].push is not a function"
    /\ String_of_thrown error
       = "TypeError: dirs[file.path].push is not a function".
Proof.
  intros Hex. eexists. split; [|split; reflexivity].
  apply (reduce_groupByPath_throws_from number files []); [|exact Hex].
  intros file [].
Qed.

Lemma grouping_throws_on_inherited_directory_name_witness :
  exists error,
    Coverage.reduce_groupByPath Z
      [Examples.fileIn "src" "a.ts"; Examples.fileIn "constructor" "b.ts"]
      JSObject.empty
    = Eff.Throw error
    /\ error = ErrorObject "TypeError" "dirs[file.path].push is not a function"
    /\ String_of_thrown error
       = "TypeError: dirs[file.path].push is not a function".
Proof.
  apply grouping_throws_on_inherited_directory_name.
  exists (Examples.fileIn "constructor" "b.ts").
  split; [right; left; reflexivity | reflexivity].
Defined.

(** X11. When it returns, the grouping loses and repeats nothing: the
    groups, taken together, hold every file exactly once; no directory
    appears twice among the groups; no group is empty; and each file is in
    the group of its own directory. *)
Theorem grouping_partitions_the_files
    (number : Type) (files : list (File number)) :
  (forall file, In file files -> JSObject.inherited (path file) = false) ->
  exists dirs,
    Coverage.reduce_groupByPath number files JSObject.empty = Eff.Ok dirs
    /\ Permutation (List.concat (map snd (JSObject.entries dirs))) files
    /\ NoDup (map fst (JSObject.entries dirs))
    /\ (forall dir group,
          In (dir, group) (JSObject.entries dirs) ->
          group <> []
          /\ forall file, In file group -> path file = dir).
Proof.
  intros Hproto. exists (groupsFirstSeen files).
  split; [now apply reduce_groupByPath_groups|].
  pose proof (entries_Permutation _ (groupsFirstSeen files)) as Hperm.
  split; [|split].
  - rewrite <- flat_map_concat_map.
    eapply Permutation_trans; [apply Permutation_flat_map; exact Hperm|].
    unfold groupsFirstSeen. rewrite flat_map_concat_map, map_map. cbn [snd].
    rewrite <- flat_map_concat_map.
    apply filesOf_partition; [apply firstSeen_NoDup|].
    intros file Hin. apply firstSeen_In. now apply in_map.
  - apply (Permutation_NoDup (l := map fst (groupsFirstSeen files)));
      [apply Permutation_map; now symmetry|].
    unfold groupsFirstSeen. rewrite map_map. cbn [fst]. rewrite map_id.
    apply firstSeen_NoDup.
  - intros dir group Hin.
    apply (Permutation_in _ Hperm) in Hin.
    unfold groupsFirstSeen in Hin. apply in_map_iff in Hin.
    destruct Hin as (d & Heq & Hd). injection Heq as <- <-. split.
    + apply (proj1 (firstSeen_In _ _)) in Hd. apply in_map_iff in Hd.
      destruct Hd as (file & Hpath & Hfile).
      intros Hempty.
      assert (Hin : In file (filesOf files d)).
      { unfold filesOf. apply filter_In. split; [exact Hfile|].
        now apply String.eqb_eq. }
      rewrite Hempty in Hin. destruct Hin.
    + intros file Hfile. unfold filesOf in Hfile. apply filter_In in Hfile.
      now apply String.eqb_eq.
Qed.

Lemma grouping_partitions_the_files_witness :
  exists dirs,
    Coverage.reduce_groupByPath Z Examples.filesWithNumericDirectory
      JSObject.empty = Eff.Ok dirs
    /\ Permutation (List.concat (map snd (JSObject.entries dirs)))
         Examples.filesWithNumericDirectory.
Proof.
  destruct (grouping_partitions_the_files Z
              Examples.filesWithNumericDirectory)
    as (dirs & Hred & Hperm & _).
  - intros file [<-|[<-|[]]]; reflexivity.
  - exists dirs. split; [exact Hred | exact Hperm].
Defined.

(** ** The coverage comment *)

Lemma prefix_true_iff (p s : string) :
  prefix p s = true <-> exists rest, s = p ++ rest.
Proof.
  split.
  - revert s. induction p as [|c p IH]; intros s Hp.
    + exists s. reflexivity.
    + destruct s as [|c' s]; [discriminate Hp|].
      cbn [prefix] in Hp. destruct (ascii_dec c c') as [<-|_]; [|discriminate].
      destruct (IH s Hp) as (rest & ->). exists rest. reflexivity.
  - intros (rest & ->). apply prefix_append.
Qed.

Section CoverageComment.
Variable number : Type.
Variable number_gtb : number -> Z -> bool.
Variable number_toString : number -> string.
Variable path_relative : string -> string -> string.
Variable path_basename path_dirname : string -> string.
Variable rootPath : string.

(** With files in the coverage map, [getCoverageTable] logs nothing; it
    throws when the grouping throws and returns the assembled comment
    otherwise. *)
Lemma getCoverageTable_present (results : FormattedTestResults number)
    (cwd : string) (cm : CoverageMap number) :
  coverageMap results = Some cm ->
  Model.files cm <> [] ->
  Coverage.getCoverageTable number number_gtb number_toString path_relative
    path_basename path_dirname rootPath results cwd
  = match Coverage.reduce_groupByPath number
            (map (Coverage.parseFile number path_relative path_basename
                    path_dirname rootPath cm) (Model.files cm))
            JSObject.empty with
    | Eff.Ok dirs =>
        ([], Eff.Ok
               (Coverage.COVERAGE_HEADER ++ nl
                  ++ join nl
                       [ toHTMLTable Coverage.headers
                           [Coverage.summaryToRow number number_gtb
                              number_toString (getCoverageSummary cm)]
                           Infinity;
                         ""; "<details>";
                         "<summary>Click to expand</summary>" ++ nl;
                         toHTMLTable ("File" :: Coverage.headers)
                           (List.concat
                              (map (Coverage.directoryRows number number_gtb
                                      number_toString)
                                   (JSObject.entries dirs)))
                           (Finite Coverage.CHAR_LIMIT);
                         "</details>" ]))
    | Eff.Throw e => ([], Eff.Throw e)
    end.
Proof.
  intros Hcm Hfiles. unfold Coverage.getCoverageTable. rewrite Hcm.
  destruct (Model.files cm) as [|file files] eqn:Hf; [contradiction|].
  cbn [List.length Nat.eqb].
  destruct (Coverage.reduce_groupByPath _ _ _); reflexivity.
Qed.

End CoverageComment.

(** X12. A comment that [getCoverageTable] returns is either empty (no
    report) or starts with the coverage header and a line feed, and is then
    truthy. A comment with such a body, posted under the login of the
    actions bot, satisfies the predicate by which [deletePreviousComments]
    filters the comments it has listed. *)
Theorem coverage_comment_passes_the_deletion_filter
    (number : Type) (number_gtb : number -> Z -> bool)
    (number_toString : number -> string)
    (path_relative : string -> string -> string)
    (path_basename path_dirname : string -> string) (rootPath : string)
    (results : FormattedTestResults number) (cwd : string)
    (log : list Eff.Event) (body : string) :
  Coverage.getCoverageTable number number_gtb number_toString path_relative
    path_basename path_dirname rootPath results cwd = (log, Eff.Ok body) ->
  body = ""
  \/ ((exists rest, body = Coverage.COVERAGE_HEADER ++ nl ++ rest)
      /\ truthy body = true
      /\ forall id,
           Comments.isPreviousCoverageComment
             (Comments.mkComment id
                (Some (Comments.mkUser "github-actions[bot]")) (Some body))
           = true).
Proof.
  intros Hret.
  destruct (coverageMap results) as [cm|] eqn:Hcm.
  - destruct (Model.files cm) as [|file files] eqn:Hfiles.
    + left. unfold Coverage.getCoverageTable in Hret.
      rewrite Hcm, Hfiles in Hret. now injection Hret as _ <-.
    + right.
      rewrite (getCoverageTable_present _ _ _ _ _ _ _ results cwd cm Hcm)
        in Hret by (rewrite Hfiles; discriminate).
      destruct (Coverage.reduce_groupByPath _ _ _); [|discriminate].
      injection Hret as _ <-.
      split; [eexists; reflexivity|]. split; [reflexivity|].
      intros id. unfold Comments.isPreviousCoverageComment.
      cbn [Comments.user Comments.login Comments.comment_body].
      unfold Command.startsWith. apply prefix_true_iff.
      eexists. reflexivity.
  - left. unfold Coverage.getCoverageTable in Hret. rewrite Hcm in Hret.
    now injection Hret as _ <-.
Qed.

(** X13. [deletePreviousComments] selects a comment exactly when its author
    is the actions bot and its body starts with the coverage header: a
    comment without author or without body, a comment of another login and
    a bot comment with another beginning are never selected. *)
Theorem only_previous_coverage_comments_are_selected
    (data : list Comments.Comment) (c : Comments.Comment) :
  In c (Comments.commentsToDelete data)
  <-> In c data
      /\ exists u rest,
           Comments.user c = Some u
           /\ Comments.login u = "github-actions[bot]"
           /\ Comments.comment_body c
              = Some (Coverage.COVERAGE_HEADER ++ rest).
Proof.
  unfold Comments.commentsToDelete. rewrite filter_In.
  unfold Comments.isPreviousCoverageComment, Command.startsWith.
  split; intros [Hin Hsel]; (split; [exact Hin|]).
  - apply andb_true_iff in Hsel. destruct Hsel as [Huser Hbody].
    destruct (Comments.user c) as [u|]; [|discriminate].
    destruct (Comments.comment_body c) as [b|]; [|discriminate].
    apply String.eqb_eq in Huser. apply prefix_true_iff in Hbody.
    destruct Hbody as (rest & ->). exists u, rest. now repeat split.
  - destruct Hsel as (u & rest & -> & Hlogin & ->).
    rewrite Hlogin, prefix_append. reflexivity.
Qed.

Lemma coverage_comment_passes_the_deletion_filter_witness :
  let results :=
    mkFormattedTestResults true 3 0 3 1 1 []
      (Some (mkCoverageMap ["/repo/src/a.ts"] Examples.fullCoverage
               (fun _ => Examples.fullCoverage))) in
  exists body,
    Coverage.getCoverageTable Z Examples.Z_gtb Examples.Z_toString
      (fun _ p => p) (fun _ => "a.ts") (fun _ => "src") "/repo" results
      "/repo/" = ([], Eff.Ok body)
    /\ (body = ""
        \/ ((exists rest, body = Coverage.COVERAGE_HEADER ++ nl ++ rest)
            /\ truthy body = true
            /\ forall id,
                 Comments.isPreviousCoverageComment
                   (Comments.mkComment id
                      (Some (Comments.mkUser "github-actions[bot]"))
                      (Some body)) = true)).
Proof.
  cbv zeta.
  set (results := mkFormattedTestResults true 3 0 3 1 1 [] _).
  set (table := Coverage.getCoverageTable Z Examples.Z_gtb Examples.Z_toString
                  (fun _ p => p) (fun _ => "a.ts") (fun _ => "src") "/repo"
                  results "/repo/").
  assert (Htable : table
                   = ([], Eff.Ok match Eff.result table with
                                 | Eff.Ok body => body
                                 | Eff.Throw _ => ""
                                 end))
    by (vm_compute; reflexivity).
  eexists. split; [exact Htable|].
  exact (coverage_comment_passes_the_deletion_filter Z Examples.Z_gtb
           Examples.Z_toString (fun _ p => p) (fun _ => "a.ts")
           (fun _ => "src") "/repo" results "/repo/" [] _ Htable).
Defined.

(** ** The coverage step of [run] *)

Section CoverageStep.
Variable number : Type.
Variable number_gtb : number -> Z -> bool.
Variable number_toString : number -> string.
Variable path_relative : string -> string -> string.
Variable path_basename path_dirname : string -> string.
Variable rootPath : string.
Variable context_owner context_repo : string.
Variable pull_request_number : N.
Variable shouldCommentCoverage : bool.
Variable deletePreviousComments : Eff.t unit.
Variable issues_createComment : CommentPayload -> Eff.outcome unit.

(** X14. Without a pull request (pull id 0), or with the coverage comment
    switched off, [run] does no coverage work at all: it logs the pull id,
    never builds the table (so there is no warning either when coverage
    data is missing), calls neither collaborator, and marks the run as
    failed exactly when the tests failed. *)
Theorem no_pull_request_no_coverage_work
    (results : FormattedTestResults number) (CWD : string) :
  pull_request_number = 0%N \/ shouldCommentCoverage = false ->
  Run.runCoverage number number_gtb number_toString path_relative
    path_basename path_dirname rootPath context_owner context_repo
    pull_request_number shouldCommentCoverage deletePreviousComments
    issues_createComment results CWD
  = ((Eff.Info ("Pull ID: " ++ Number_toString pull_request_number)
        :: (if success results
            then [] else [Eff.SetFailed "Some jest tests failed."]))%list,
     Eff.Ok tt).
Proof.
  intros Hoff.
  unfold Run.runCoverage, Run.reportCoverage, Run.getPullId.
  cbv beta iota delta [Eff.bind Eff.emit Eff.ret].
  assert (Hcond : negb (pull_request_number =? 0)%N && shouldCommentCoverage
                  = false).
  { destruct Hoff as [-> | ->]; [reflexivity | apply andb_false_r]. }
  rewrite Hcond. destruct (success results); reflexivity.
Qed.

(** X15. An exception of the grouping ends the coverage step in the
    [catch] of [run]: with a pull request and the coverage comment switched
    on, a file in a directory named like a property of [Object.prototype]
    makes [run] write the TypeError with [console.error] and report its
    message, "dirs[file.path].push is not a function", through [setFailed];
    no comment is deleted or created, and the message about failed tests is
    not reported even when tests failed. *)
Theorem grouping_exception_fails_the_run
    (results : FormattedTestResults number) (CWD : string)
    (cm : CoverageMap number) :
  pull_request_number <> 0%N ->
  shouldCommentCoverage = true ->
  coverageMap results = Some cm ->
  (exists absolute,
     In absolute (Model.files cm)
     /\ JSObject.inherited (path_dirname (path_relative rootPath absolute))
        = true) ->
  Run.runCoverage number number_gtb number_toString path_relative
    path_basename path_dirname rootPath context_owner context_repo
    pull_request_number shouldCommentCoverage deletePreviousComments
    issues_createComment results CWD
  = ([ Eff.Info ("Pull ID: " ++ Number_toString pull_request_number);
       Eff.ConsoleError
         (ErrorObject "TypeError" "dirs[file.path].push is not a function");
       Eff.SetFailed "dirs[file.path].push is not a function" ],
     Eff.Ok tt).
Proof.
  intros Hpull -> Hcm (absolute & Hin & Hproto).
  unfold Run.runCoverage, Run.reportCoverage, Run.getPullId.
  cbv beta iota delta [Eff.bind Eff.emit Eff.ret].
  apply N.eqb_neq in Hpull. rewrite Hpull. cbn [negb andb].
  rewrite (getCoverageTable_present _ _ _ _ _ _ _ results CWD cm Hcm)
    by (intros Hnil; rewrite Hnil in Hin; destruct Hin).
  rewrite (reduce_groupByPath_throws_from number _ []);
    [reflexivity | intros file [] |].
  exists (Coverage.parseFile number path_relative path_basename path_dirname
            rootPath cm absolute).
  split; [now apply in_map | exact Hproto].
Qed.

(** X16. With a pull request, the coverage comment switched on and a
    comment to post, [run] calls [deletePreviousComments] first and then
    requests one comment, whose body is the table and whose issue number is
    the pull id. When [deletePreviousComments] throws, no comment is
    requested and the [catch] of [run] takes over: [console.error] of the
    error, [setFailed] with its message, and nothing about failed tests. A
    rejected request for the comment is logged with [core.error] and
    [setFailed], both with "Error creating comment: " and the error, and
    stops nothing: like after a comment that was created, the run is then
    marked as failed when tests failed. In every case [run] returns. *)
Theorem coverage_comment_replaces_the_previous_ones
    (results : FormattedTestResults number) (CWD : string)
    (log : list Eff.Event) (body : string) :
  pull_request_number <> 0%N ->
  shouldCommentCoverage = true ->
  Coverage.getCoverageTable number number_gtb number_toString path_relative
    path_basename path_dirname rootPath results CWD = (log, Eff.Ok body) ->
  body <> "" ->
  let run :=
    Run.runCoverage number number_gtb number_toString path_relative
      path_basename path_dirname rootPath context_owner context_repo
      pull_request_number shouldCommentCoverage deletePreviousComments
      issues_createComment results CWD in
  let pullId := Eff.Info ("Pull ID: " ++ Number_toString pull_request_number) in
  let payload :=
    mkCommentPayload context_owner context_repo body pull_request_number in
  Eff.result run = Eff.Ok tt
  /\ Eff.events run
     = match deletePreviousComments with
       | (deleted, Eff.Throw e) =>
           (pullId :: log ++ deleted
              ++ [Eff.ConsoleError e; Eff.SetFailed (message_of_thrown e)])%list
       | (deleted, Eff.Ok _) =>
           (pullId :: log ++ deleted ++ pullId
              :: match issues_createComment payload with
                 | Eff.Ok _ => [Eff.Info "Comment created"]
                 | Eff.Throw e =>
                     [ Eff.Error ("Error creating comment: "
                                    ++ String_of_thrown e);
                       Eff.SetFailed ("Error creating comment: "
                                        ++ String_of_thrown e) ]
                 end
              ++ (if success results
                  then [] else [Eff.SetFailed "Some jest tests failed."]))%list
       end.
Proof.
  intros Hpull -> Htable Hbody run pullId payload. subst run pullId payload.
  unfold Run.runCoverage, Run.reportCoverage, Run.getCommentPayload,
    Run.getPullId, Run.catchOfRun.
  cbv beta iota delta [Eff.bind Eff.emit Eff.ret].
  apply N.eqb_neq in Hpull. rewrite Hpull. cbn [negb andb].
  rewrite Htable.
  assert (Htruthy : truthy body = true).
  { unfold truthy. destruct (String.eqb_spec body ""); [contradiction|].
    reflexivity. }
  rewrite Htruthy.
  destruct deletePreviousComments as [deleted [[]|e]].
  - destruct (issues_createComment _) as [[]|e];
      destruct (success results);
      cbv beta iota zeta delta [Eff.bind Eff.emit Eff.ret Eff.try_catch
                                  Eff.result Eff.events fst snd negb];
      (split; [reflexivity|]);
      repeat (rewrite <- ?app_assoc; cbn [app]);
      rewrite ?app_nil_r; reflexivity.
  - cbv beta iota zeta delta [Eff.bind Eff.emit Eff.ret Eff.try_catch
                                Eff.result Eff.events fst snd negb].
    split; [reflexivity|].
    repeat (rewrite <- ?app_assoc; cbn [app]);
      rewrite ?app_nil_r; reflexivity.
Qed.

End CoverageStep.

Lemma no_pull_request_no_coverage_work_witness :
  Run.runCoverage Z Examples.Z_gtb Examples.Z_toString (fun _ p => p)
    (fun p => p) (fun p => p) "/repo" "owner" "repo" 0%N true
    ([Eff.Info "Deleted 0 comments"], Eff.Ok tt)
    (fun _ => Eff.Ok tt)
    Examples.failedRun "/repo/"
  = ([Eff.Info "Pull ID: 0"; Eff.SetFailed "Some jest tests failed."],
     Eff.Ok tt).
Proof.
  apply (no_pull_request_no_coverage_work Z Examples.Z_gtb Examples.Z_toString
           (fun _ p => p) (fun p => p) (fun p => p) "/repo" "owner" "repo"
           0%N true).
  left. reflexivity.
Defined.

Lemma grouping_exception_fails_the_run_witness :
  Run.runCoverage Z Examples.Z_gtb Examples.Z_toString (fun _ p => p)
    (fun _ => "a.ts") (fun _ => "constructor") "/repo" "owner" "repo" 7%N true
    ([Eff.Info "Deleted 0 comments"], Eff.Ok tt)
    (fun _ => Eff.Ok tt)
    (mkFormattedTestResults false 1 1 2 0 1 []
       (Some (mkCoverageMap ["/repo/constructor/a.ts"] Examples.fullCoverage
                (fun _ => Examples.fullCoverage))))
    "/repo/"
  = ([ Eff.Info "Pull ID: 7";
       Eff.ConsoleError
         (ErrorObject "TypeError" "dirs[file.path].push is not a function");
       Eff.SetFailed "dirs[file.path].push is not a function" ],
     Eff.Ok tt).
Proof.
  eapply (grouping_exception_fails_the_run Z Examples.Z_gtb
            Examples.Z_toString (fun _ p => p) (fun _ => "a.ts")
            (fun _ => "constructor") "/repo" "owner" "repo" 7%N true).
  - discriminate.
  - reflexivity.
  - reflexivity.
  - exists "/repo/constructor/a.ts". split; [now left | reflexivity].
Defined.

(** Tests failed, the previous comments are listed and none is deleted, and
    the request for the new comment, which is the one for pull request 7
    with a body that starts with the coverage header, is rejected. *)
Lemma coverage_comment_replaces_the_previous_ones_witness :
  let results :=
    mkFormattedTestResults false 1 1 2 0 1 []
      (Some (mkCoverageMap ["/repo/src/a.ts"] Examples.fullCoverage
               (fun _ => Examples.fullCoverage))) in
  let issues_createComment := fun payload : CommentPayload =>
    if (issue_number payload =? 7)%N
       && Command.startsWith (Model.body payload) Coverage.COVERAGE_HEADER
    then Eff.Throw RunExamples.forbidden
    else Eff.Ok tt in
  Run.runCoverage Z Examples.Z_gtb Examples.Z_toString (fun _ p => p)
    (fun _ => "a.ts") (fun _ => "src") "/repo" "owner" "repo" 7%N true
    ([Eff.Info "Pull ID: 7"; Eff.Info "Deleted 0 comments"], Eff.Ok tt)
    issues_createComment results "/repo/"
  = ([ Eff.Info "Pull ID: 7";
       Eff.Info "Pull ID: 7";
       Eff.Info "Deleted 0 comments";
       Eff.Info "Pull ID: 7";
       Eff.Error ("Error creating comment: "
                    ++ "HttpError: Resource not accessible by integration");
       Eff.SetFailed ("Error creating comment: "
                        ++ "HttpError: Resource not accessible by integration");
       Eff.SetFailed "Some jest tests failed." ],
     Eff.Ok tt).
Proof.
  cbv zeta.
  set (results := mkFormattedTestResults false 1 1 2 0 1 [] _).
  set (issues_createComment := fun payload : CommentPayload => _).
  set (table := Coverage.getCoverageTable Z Examples.Z_gtb Examples.Z_toString
                  (fun _ p => p) (fun _ => "a.ts") (fun _ => "src") "/repo"
                  results "/repo/").
  assert (Htable : table
                   = ([], Eff.Ok match Eff.result table with
                                 | Eff.Ok body => body
                                 | Eff.Throw _ => ""
                                 end))
    by (vm_compute; reflexivity).
  assert (Hbody : match Eff.result table with
                  | Eff.Ok body => body
                  | Eff.Throw _ => ""
                  end <> "")
    by (vm_compute; discriminate).
  assert (Hpull : 7%N <> 0%N) by discriminate.
  destruct (coverage_comment_replaces_the_previous_ones Z Examples.Z_gtb
              Examples.Z_toString (fun _ p => p) (fun _ => "a.ts")
              (fun _ => "src") "/repo" "owner" "repo" 7%N true
              ([Eff.Info "Pull ID: 7"; Eff.Info "Deleted 0 comments"],
               Eff.Ok tt)
              issues_createComment results "/repo/" [] _ Hpull eq_refl Htable
              Hbody)
    as [Hres Hev].
  apply injective_projections; [|exact Hres].
  etransitivity; [exact Hev|]. vm_compute. reflexivity.
Defined.

(** ** The annotation path *)

Lemma String_replace_once (pattern s : string) :
  (exists before after,
     s = before ++ pattern ++ after
     /\ String_replace pattern "" s = before ++ after)
  \/ (String_replace pattern "" s = s
      /\ forall before after, s <> before ++ pattern ++ after).
Proof.
  induction s as [|c s IH].
  - cbn [String_replace]. destruct (prefix pattern "") eqn:Hp.
    + left. apply prefix_true_iff in Hp. destruct Hp as (rest & Hrest).
      exists "", rest. split; [exact Hrest|].
      cbn [append]. rewrite Hrest at 1. now rewrite drop_append.
    + right. split; [reflexivity|]. intros before after Heq.
      destruct before; [|discriminate].
      assert (Htrue : prefix pattern "" = true)
        by (apply prefix_true_iff; now exists after).
      rewrite Htrue in Hp. discriminate.
  - cbn [String_replace]. destruct (prefix pattern (String c s)) eqn:Hp.
    + left. apply prefix_true_iff in Hp. destruct Hp as (rest & Hrest).
      exists "", rest. split; [exact Hrest|].
      cbn [append]. rewrite Hrest at 1. now rewrite drop_append.
    + destruct IH as [(before & after & Hs & Hr) | (Hr & Hno)].
      * left. exists (String c before), after. cbn [append].
        now rewrite Hs at 1; rewrite Hr.
      * right. rewrite Hr. split; [reflexivity|].
        intros [|c' before] after Heq.
        -- assert (Htrue : prefix pattern (String c s) = true)
             by (apply prefix_true_iff; now exists after).
           rewrite Htrue in Hp. discriminate.
        -- cbn [append] in Heq. injection Heq as _ Heq.
           exact (Hno before after Heq).
Qed.

(** X17. The path of an annotation is the suite's file name with exactly
    one occurrence of the working root cut out, or, when the working root
    does not occur in the name, the name as it is. *)
Theorem annotation_path_cuts_one_occurrence
    (strip : string -> string) (cwd : string) (suite : TestResult)
    (a : AssertionResult) :
  let p := ann_path (Check.annotationOf strip cwd suite a) in
  (exists before after,
     name suite = before ++ cwd ++ after /\ p = before ++ after)
  \/ (p = name suite
      /\ forall before after, name suite <> before ++ cwd ++ after).
Proof. cbv zeta. cbn [Check.annotationOf ann_path]. apply String_replace_once. Qed.

(** ** The jest command *)

(** X18. When both flags parse, the jest command is the test command, a
    separator, and the options, which always end with the results file; the
    separator holds the double dash exactly when the test command starts
    with npm, npx, pnpm or pnpx. [--coverage] is passed exactly when the
    coverage comment is on, and [--changedSince] only when changes-only is
    on and the pull request has a base branch. When a flag does not parse
    no command is built, the coverage flag being read first. *)
Theorem jest_command_shape
    (test_command : string) (coverage changesOnly : bool)
    (base_ref : option string) (resultsFile : string)
    (other : Eff.outcome bool) (e : thrown) :
  let viaPackageManager :=
    existsb (Command.startsWith test_command) ["npm"; "npx"; "pnpm"; "pnpx"] in
  Command.getJestCommand test_command (Eff.Ok coverage) (Eff.Ok changesOnly)
    base_ref resultsFile
  = Eff.Ok
      (test_command ++ (if viaPackageManager then " -- " else " ")
         ++ "--testLocationInResults --json"
         ++ (if coverage then " --coverage " else "  ")
         ++ match base_ref with
            | Some (String c ref) =>
                if changesOnly then "--changedSince=" ++ String c ref else ""
            | _ => ""
            end
         ++ " --outputFile=" ++ resultsFile)
  /\ Command.getJestCommand test_command (Eff.Throw e) other base_ref
       resultsFile = Eff.Throw e
  /\ Command.getJestCommand test_command (Eff.Ok coverage) (Eff.Throw e)
       base_ref resultsFile = Eff.Throw e.
Proof.
  cbv zeta. split; [|split; reflexivity].
  unfold Command.getJestCommand, Command.coverageFlag,
    Command.changedSinceFlag. cbn [existsb]. rewrite orb_false_r, !orb_assoc.
  do 3 f_equal.
  destruct coverage, changesOnly, base_ref as [[|c ref]|]; reflexivity.
Qed.

(** ** The markdown fence *)

Section TrimEnd.
Variable isWhiteSpace : ascii -> bool.

Lemma trimEnd_white (w : string) :
  Markdown.allWhiteSpace isWhiteSpace w = true ->
  Markdown.trimEnd isWhiteSpace w = "".
Proof.
  induction w as [|c w IH]; intros Hw; [reflexivity|].
  cbn [Markdown.allWhiteSpace] in Hw. apply andb_true_iff in Hw.
  destruct Hw as [Hc Hw]. cbn [Markdown.trimEnd].
  now rewrite (IH Hw), Hc.
Qed.

Lemma trimEnd_append_white (str w : string) :
  Markdown.allWhiteSpace isWhiteSpace w = true ->
  Markdown.trimEnd isWhiteSpace (str ++ w) = Markdown.trimEnd isWhiteSpace str.
Proof.
  intros Hw. induction str as [|c str IH].
  - cbn [append]. now apply trimEnd_white.
  - cbn [append Markdown.trimEnd]. now rewrite IH.
Qed.

Lemma trimEnd_split (str : string) :
  exists removed,
    str = Markdown.trimEnd isWhiteSpace str ++ removed
    /\ Markdown.allWhiteSpace isWhiteSpace removed = true.
Proof.
  induction str as [|c str (removed & Hsplit & Hw)].
  - exists "". split; reflexivity.
  - cbn [Markdown.trimEnd].
    destruct (Markdown.trimEnd isWhiteSpace str) as [|c' trimmed] eqn:Htrim.
    + cbn [append] in Hsplit. subst removed.
      destruct (isWhiteSpace c) eqn:Hc.
      * exists (String c str). split; [reflexivity|].
        cbn [Markdown.allWhiteSpace]. now rewrite Hc, Hw.
      * exists str. split; [reflexivity | exact Hw].
    + exists removed. split; [|exact Hw].
      cbn [append]. f_equal. exact Hsplit.
Qed.

End TrimEnd.

(** X19. [asMarkdownCode] puts the text between two fence lines after
    cutting the white space at its end: what is cut is white space only,
    white space added at the end of the text does not change the result,
    and the result is 8 characters longer than the text that is kept. *)
Theorem asMarkdownCode_ignores_trailing_white_space
    (isWhiteSpace : ascii -> bool) (str trailing : string) :
  Markdown.allWhiteSpace isWhiteSpace trailing = true ->
  Markdown.asMarkdownCode isWhiteSpace (str ++ trailing)
  = Markdown.asMarkdownCode isWhiteSpace str
  /\ (exists kept removed,
        str = kept ++ removed
        /\ Markdown.allWhiteSpace isWhiteSpace removed = true
        /\ Markdown.asMarkdownCode isWhiteSpace str
           = Markdown.fence ++ nl ++ kept ++ nl ++ Markdown.fence
        /\ strlen (Markdown.asMarkdownCode isWhiteSpace str)
           = strlen kept + 8).
Proof.
  intros Hw. unfold Markdown.asMarkdownCode. split.
  - now rewrite trimEnd_append_white.
  - destruct (trimEnd_split isWhiteSpace str) as (removed & Hsplit & Hremoved).
    exists (Markdown.trimEnd isWhiteSpace str), removed.
    split; [exact Hsplit|]. split; [exact Hremoved|]. split; [reflexivity|].
    rewrite !strlen_append.
    change (strlen Markdown.fence) with 3. change (strlen nl) with 1. lia.
Qed.

Lemma asMarkdownCode_ignores_trailing_white_space_witness :
  let isWhiteSpace :=
    fun c => existsb (Ascii.eqb c) [" "%char; ascii_of_nat 9; ascii_of_nat 10;
                                    ascii_of_nat 13] in
  Markdown.asMarkdownCode isWhiteSpace ("PASS foo.test" ++ "  " ++ nl)
  = Markdown.asMarkdownCode isWhiteSpace "PASS foo.test".
Proof.
  cbv zeta.
  refine (proj1 (asMarkdownCode_ignores_trailing_white_space _
                   "PASS foo.test" ("  " ++ nl) _)).
  reflexivity.
Defined.

(** ** Running jest *)

Lemma fold_left_listen (chunks : list Exec.Chunk) :
  forall out err,
    fold_left Exec.listen chunks (out, err)
    = ((out ++ flat_map (fun chunk => match chunk with
                                      | Exec.Stdout data => data
                                      | Exec.Stderr _ => []
                                      end) chunks)%list,
       (err ++ flat_map (fun chunk => match chunk with
                                      | Exec.Stdout _ => []
                                      | Exec.Stderr data => data
                                      end) chunks)%list).
Proof.
  induction chunks as [|[data|data] chunks IH]; intros out err.
  - cbn [fold_left flat_map]. now rewrite !app_nil_r.
  - cbn [fold_left flat_map Exec.listen]. rewrite IH.
    cbn [app]. now rewrite <- app_assoc.
  - cbn [fold_left flat_map Exec.listen]. rewrite IH.
    cbn [app]. now rewrite <- app_assoc.
Qed.

(** X20. [execJest] never throws. It returns what the command wrote to
    stdout and what it wrote to stderr, each put together in the order of
    arrival however the two streams interleave, also when the command
    fails; the failure is logged through [core.error] and not passed on. *)
Theorem execJest_collects_both_streams
    (exec : string -> string -> list Exec.Chunk * Eff.outcome unit)
    (Buffer_toString : Exec.Buffer -> string)
    (JSON_stringify_error : thrown -> string) (cmd cwd : string) :
  let chunks := fst (exec cmd cwd) in
  let out := flat_map (fun chunk => match chunk with
                                    | Exec.Stdout data => data
                                    | Exec.Stderr _ => []
                                    end) chunks in
  let err := flat_map (fun chunk => match chunk with
                                    | Exec.Stdout _ => []
                                    | Exec.Stderr data => data
                                    end) chunks in
  Exec.execJest exec Buffer_toString JSON_stringify_error cmd cwd
  = ([ match snd (exec cmd cwd) with
       | Eff.Ok _ => Eff.Info "Jest command executed"
       | Eff.Throw e =>
           Eff.Error
             ("Jest execution failed. Tests have likely failed." ++ nl
                ++ JSON_stringify_error e)
       end ],
     Eff.Ok (Buffer_toString out, Buffer_toString err)).
Proof.
  cbv zeta. unfold Exec.execJest.
  destruct (exec cmd cwd) as [chunks settled]. cbn [fst snd].
  rewrite fold_left_listen. cbn [app].
  destruct settled; reflexivity.
Qed.

(** ** [run] *)

Section RunFacts.
Variable number : Type.
Variable number_gtb : number -> Z -> bool.
Variable number_toString : number -> string.
Variable path_relative : string -> string -> string.
Variable path_basename path_dirname : string -> string.
Variable path_resolve : string -> string.
Variable path_join : string -> string -> string.
Variable path_sep : string.
Variable process_cwd : string.
Variable existsSync : string -> bool.
Variable GITHUB_TOKEN : option string.
Variable working_directory : string.
Variable test_command : string.
Variable shouldCommentCoverage : Eff.outcome bool.
Variable shouldRunOnlyChangedFiles : Eff.outcome bool.
Variable base_ref : option string.
Variable context_owner context_repo context_sha : string.
Variable pull_request_head_sha : option string.
Variable pull_request_number : N.
Variable exec : string -> string -> list Exec.Chunk * Eff.outcome unit.
Variable Buffer_toString : Exec.Buffer -> string.
Variable getOctokit : string -> Eff.outcome unit.
Variable parseResults : string -> Eff.outcome (FormattedTestResults number).
Variable checks_create : CheckPayload -> Eff.outcome unit.
Variable deletePreviousComments : Eff.t unit.
Variable issues_createComment : CommentPayload -> Eff.outcome unit.
Variable strip : string -> string.
Variable JSON_stringify_error : thrown -> string.
Variable JSON_stringify_std : string * string -> string.
Variable JSON_stringify_results : FormattedTestResults number -> string.
Variable JSON_stringify_payload : CheckPayload -> string.
Variable JSON_stringify_annotations : list Annotation -> string.

Local Abbreviation the_run :=
  (Action.run number number_gtb number_toString path_relative path_basename
     path_dirname path_resolve path_join path_sep process_cwd existsSync
     GITHUB_TOKEN working_directory test_command shouldCommentCoverage
     shouldRunOnlyChangedFiles base_ref context_owner context_repo
     context_sha pull_request_head_sha pull_request_number exec
     Buffer_toString getOctokit parseResults checks_create
     deletePreviousComments issues_createComment strip JSON_stringify_error
     JSON_stringify_std JSON_stringify_results JSON_stringify_payload
     JSON_stringify_annotations).

Local Abbreviation the_file :=
  (Action.RESULTS_FILE path_resolve path_join path_sep process_cwd
     working_directory).

Local Abbreviation the_cwd := (Action.workingCwd path_resolve process_cwd working_directory).

Local Abbreviation the_body token :=
  (Action.runWithToken number number_gtb number_toString path_relative
     path_basename path_dirname path_resolve path_join path_sep process_cwd
     working_directory test_command shouldCommentCoverage
     shouldRunOnlyChangedFiles base_ref context_owner context_repo
     context_sha pull_request_head_sha pull_request_number exec
     Buffer_toString getOctokit parseResults checks_create
     deletePreviousComments issues_createComment strip JSON_stringify_error
     JSON_stringify_std JSON_stringify_results JSON_stringify_payload
     JSON_stringify_annotations token).

(** X21. [run] looks for the results file before it runs jest. When the
    file is not there, it reports this three times (info, error,
    setFailed) and stops: jest, which is what writes the file, is not run,
    nothing is parsed and no check or comment is created. *)
Theorem run_stops_without_results_file :
  existsSync the_file = false ->
  Action.run number number_gtb number_toString path_relative path_basename
    path_dirname path_resolve path_join path_sep process_cwd existsSync
    GITHUB_TOKEN working_directory test_command shouldCommentCoverage
    shouldRunOnlyChangedFiles base_ref context_owner context_repo
    context_sha pull_request_head_sha pull_request_number exec
    Buffer_toString getOctokit parseResults checks_create
    deletePreviousComments issues_createComment strip JSON_stringify_error
    JSON_stringify_std JSON_stringify_results JSON_stringify_payload
    JSON_stringify_annotations
  = ([ Eff.Info ("Running tests in " ++ the_cwd);
       Eff.Info ("Results file: " ++ the_file);
       Eff.Info ("Results file not found: " ++ the_file);
       Eff.Error ("Results file not found: " ++ the_file);
       Eff.SetFailed ("Results file not found: " ++ the_file) ],
     Eff.Ok tt).
Proof. intros Hmissing. unfold Action.run. now rewrite Hmissing. Qed.

(** X22. With the results file in place but no GITHUB_TOKEN in the
    environment, [run] reports the missing token (error, setFailed) and
    stops before it runs jest. *)
Theorem run_stops_without_token :
  existsSync the_file = true ->
  GITHUB_TOKEN = None ->
  Action.run number number_gtb number_toString path_relative path_basename
    path_dirname path_resolve path_join path_sep process_cwd existsSync
    GITHUB_TOKEN working_directory test_command shouldCommentCoverage
    shouldRunOnlyChangedFiles base_ref context_owner context_repo
    context_sha pull_request_head_sha pull_request_number exec
    Buffer_toString getOctokit parseResults checks_create
    deletePreviousComments issues_createComment strip JSON_stringify_error
    JSON_stringify_std JSON_stringify_results JSON_stringify_payload
    JSON_stringify_annotations
  = ([ Eff.Info ("Running tests in " ++ the_cwd);
       Eff.Info ("Results file: " ++ the_file);
       Eff.Error "GITHUB_TOKEN not set.";
       Eff.SetFailed "GITHUB_TOKEN not set." ],
     Eff.Ok tt).
Proof.
  intros Hfile Htoken. unfold Action.run. now rewrite Hfile, Htoken.
Qed.

(** X23. [run] never throws: whatever the collaborators do, it returns.
    When something under its [try] throws, the last two things it does are
    to write the error with [console.error] and to mark the run as failed
    with [error.message] when the error is an [Error] object, and with
    [String(error)] when it is not. *)
Theorem run_never_throws :
  Eff.result
    (Action.run number number_gtb number_toString path_relative path_basename
       path_dirname path_resolve path_join path_sep process_cwd existsSync
       GITHUB_TOKEN working_directory test_command shouldCommentCoverage
       shouldRunOnlyChangedFiles base_ref context_owner context_repo
       context_sha pull_request_head_sha pull_request_number exec
       Buffer_toString getOctokit parseResults checks_create
       deletePreviousComments issues_createComment strip JSON_stringify_error
       JSON_stringify_std JSON_stringify_results JSON_stringify_payload
       JSON_stringify_annotations)
  = Eff.Ok tt
  /\ forall token log e,
       existsSync the_file = true ->
       GITHUB_TOKEN = Some token ->
       the_body token = (log, Eff.Throw e) ->
       Eff.events the_run
       = ([ Eff.Info ("Running tests in " ++ the_cwd);
            Eff.Info ("Results file: " ++ the_file) ]
            ++ log
            ++ [ Eff.ConsoleError e;
                 Eff.SetFailed match e with
                               | ErrorObject _ message => message
                               | NotAnError text => text
                               end ])%list.
Proof.
  split.
  - unfold Action.run. cbn [Eff.bind Eff.emit].
    destruct (existsSync _); cbn [negb]; [|reflexivity].
    destruct GITHUB_TOKEN as [token|]; [|reflexivity].
    destruct (Action.runWithToken _ _ _ _ _ _ _ _ _ _ _ _ _ _ _ _ _ _ _ _ _
                _ _ _ _ _ _ _ _ _ _ _ _ _) as [log [[]|e]]; reflexivity.
  - intros token log e Hfile Htoken Hbody. unfold Action.run.
    rewrite Hfile, Htoken, Hbody. destruct e; reflexivity.
Qed.

(** X24. When the results file cannot be read or parsed, [run] fails with
    the error's message after jest has run: nothing is logged about a
    check, and the coverage step is not reached. *)
Theorem unreadable_results_fail_the_run
    (token cmd : string) (e : thrown) (jestLog : list Eff.Event)
    (std : string * string) :
  existsSync the_file = true ->
  GITHUB_TOKEN = Some token ->
  Command.getJestCommand test_command shouldCommentCoverage
    shouldRunOnlyChangedFiles base_ref the_file = Eff.Ok cmd ->
  Exec.execJest exec Buffer_toString JSON_stringify_error cmd
    (the_cwd ++ path_sep) = (jestLog, Eff.Ok std) ->
  getOctokit token = Eff.Ok tt ->
  parseResults the_file = Eff.Throw e ->
  the_run
  = (([ Eff.Info ("Running tests in " ++ the_cwd);
        Eff.Info ("Results file: " ++ the_file);
        Eff.Info ("Running jest with command: " ++ cmd) ]
        ++ jestLog
        ++ [ Eff.Info ("jest command executed:" ++ nl
                         ++ JSON_stringify_std std);
             Eff.ConsoleError e;
             Eff.SetFailed (message_of_thrown e) ])%list,
     Eff.Ok tt).
Proof.
  intros Hfile Htoken Hcmd Hjest Hocto Hparse.
  unfold Action.run, Action.runWithToken, Run.catchOfRun.
  rewrite Hfile, Htoken, Hcmd. cbn [negb Eff.lift Eff.bind Eff.emit].
  rewrite Hjest, Hocto, Hparse.
  cbn [Eff.bind Eff.try_catch Eff.emit app].
  rewrite <- !app_assoc. reflexivity.
Qed.

(** X25. When the results parse, [run] builds the check payload from them
    and from what jest wrote, for the head commit of the pull request when
    the event has one and for the commit of the context otherwise, submits
    it, and goes on to the coverage step whether or not the check was
    created: a rejected request is logged with [core.error] and marks the
    run as failed, but stops nothing. An exception of the coverage step
    ends in the [catch] of [run]. *)
Theorem rejected_check_does_not_stop_the_run
    (token cmd : string) (jestLog : list Eff.Event) (std : string * string)
    (results : FormattedTestResults number) (coverageLog : list Eff.Event)
    (coverageEnd : Eff.outcome unit) :
  existsSync the_file = true ->
  GITHUB_TOKEN = Some token ->
  Command.getJestCommand test_command shouldCommentCoverage
    shouldRunOnlyChangedFiles base_ref the_file = Eff.Ok cmd ->
  Exec.execJest exec Buffer_toString JSON_stringify_error cmd
    (the_cwd ++ path_sep) = (jestLog, Eff.Ok std) ->
  getOctokit token = Eff.Ok tt ->
  parseResults the_file = Eff.Ok results ->
  Run.reportCoverage number number_gtb number_toString path_relative
    path_basename path_dirname process_cwd context_owner context_repo
    pull_request_number
    (Action.coverageFlag shouldCommentCoverage) deletePreviousComments
    issues_createComment results (the_cwd ++ path_sep)
  = (coverageLog, coverageEnd) ->
  exists payloadLog payload,
    Check.getCheckPayload strip JSON_stringify_annotations context_owner
      context_repo context_sha pull_request_head_sha results
      (the_cwd ++ path_sep) (Some (fst std)) (Some (snd std))
    = (payloadLog, Eff.Ok payload)
    /\ head_sha payload = match pull_request_head_sha with
                          | Some head_sha => head_sha
                          | None => context_sha
                          end
    /\ hd_error payloadLog = Some (Eff.Info ("SHA: " ++ head_sha payload))
    /\ the_run
       = (([ Eff.Info ("Running tests in " ++ the_cwd);
             Eff.Info ("Results file: " ++ the_file);
             Eff.Info ("Running jest with command: " ++ cmd) ]
             ++ jestLog
             ++ [ Eff.Info ("jest command executed:" ++ nl
                              ++ JSON_stringify_std std);
                  Eff.Info ("Parsed results:" ++ nl
                              ++ JSON_stringify_results results) ]
             ++ payloadLog
             ++ [ Eff.Info ("Check payload:" ++ nl
                              ++ JSON_stringify_payload payload) ]
             ++ match checks_create payload with
                | Eff.Ok _ => [Eff.Info "Check created"]
                | Eff.Throw error =>
                    [ Eff.Error ("Error creating check: "
                                   ++ String_of_thrown error);
                      Eff.SetFailed ("Error creating check: "
                                       ++ String_of_thrown error) ]
                end
             ++ coverageLog
             ++ match coverageEnd with
                | Eff.Ok _ => []
                | Eff.Throw e =>
                    [Eff.ConsoleError e; Eff.SetFailed (message_of_thrown e)]
                end)%list,
          Eff.Ok tt).
Proof.
  intros Hfile Htoken Hcmd Hjest Hocto Hparse Hcoverage.
  destruct (Check.getCheckPayload strip JSON_stringify_annotations
              context_owner context_repo context_sha pull_request_head_sha
              results (the_cwd ++ path_sep) (Some (fst std)) (Some (snd std)))
    as [payloadLog payloadEnd] eqn:Hpayload.
  assert (Hshape : exists payload,
             payloadEnd = Eff.Ok payload
             /\ head_sha payload = match pull_request_head_sha with
                                   | Some head_sha => head_sha
                                   | None => context_sha
                                   end
             /\ hd_error payloadLog
                = Some (Eff.Info ("SHA: " ++ head_sha payload))).
  { revert Hpayload.
    unfold Check.getCheckPayload, Check.getAnnotations, Check.getSha.
    destruct (success results); intros Hpayload;
      injection Hpayload as <- <-; eexists;
      (split; [reflexivity|]); split; reflexivity. }
  destruct Hshape as (payload & -> & Hsha & Hlog).
  exists payloadLog, payload.
  split; [reflexivity|]. split; [exact Hsha|]. split; [exact Hlog|].
  unfold Action.run, Action.runWithToken, Run.catchOfRun.
  rewrite Hfile, Htoken, Hcmd. cbn [negb Eff.lift Eff.bind Eff.emit].
  rewrite Hjest, Hocto, Hparse. cbn [Eff.bind].
  rewrite Hpayload, Hcoverage. cbn [fst snd Eff.bind].
  destruct (checks_create payload) as [[]|error], coverageEnd as [[]|e];
    cbv beta iota zeta delta [Eff.bind Eff.emit Eff.try_catch];
    f_equal; cbn [app];
    repeat (rewrite <- ?app_assoc; cbn [app]);
    rewrite ?app_nil_r; reflexivity.
Qed.

End RunFacts.

Lemma run_stops_without_results_file_witness :
  RunExamples.run (fun _ => false) (Some "token")
    (fun _ => Eff.Ok Examples.failedRun) (fun _ => Eff.Ok tt)
    ([], Eff.Ok tt) (fun _ => Eff.Ok tt)
  = ([ Eff.Info "Running tests in /repo";
       Eff.Info "Results file: /repo/jest.results.json";
       Eff.Info "Results file not found: /repo/jest.results.json";
       Eff.Error "Results file not found: /repo/jest.results.json";
       Eff.SetFailed "Results file not found: /repo/jest.results.json" ],
     Eff.Ok tt).
Proof.
  unfold RunExamples.run.
  etransitivity; [apply run_stops_without_results_file; reflexivity|].
  reflexivity.
Defined.

Lemma run_stops_without_token_witness :
  RunExamples.run (fun _ => true) None
    (fun _ => Eff.Ok Examples.failedRun) (fun _ => Eff.Ok tt)
    ([], Eff.Ok tt) (fun _ => Eff.Ok tt)
  = ([ Eff.Info "Running tests in /repo";
       Eff.Info "Results file: /repo/jest.results.json";
       Eff.Error "GITHUB_TOKEN not set.";
       Eff.SetFailed "GITHUB_TOKEN not set." ],
     Eff.Ok tt).
Proof.
  unfold RunExamples.run.
  etransitivity; [apply run_stops_without_token; reflexivity|].
  reflexivity.
Defined.

(** The results file is empty: [JSON.parse] throws a SyntaxError, whose
    message, without the name of its class, is what [setFailed] gets. *)
Lemma run_never_throws_witness :
  let run :=
    RunExamples.run (fun _ => true) (Some "token")
      (fun _ => Eff.Throw RunExamples.unexpectedEnd) (fun _ => Eff.Ok tt)
      ([], Eff.Ok tt) (fun _ => Eff.Ok tt) in
  Eff.result run = Eff.Ok tt
  /\ exists log,
       Eff.events run
       = (log ++ [ Eff.ConsoleError
                     (ErrorObject "SyntaxError" "Unexpected end of JSON input");
                   Eff.SetFailed "Unexpected end of JSON input" ])%list.
Proof.
  cbv zeta. unfold RunExamples.run. split.
  - apply run_never_throws.
  - eexists.
    etransitivity;
      [eapply (proj2 (run_never_throws _ _ _ _ _ _ _ _ _ _ _ _ _ _ _ _ _ _ _
                        _ _ _ _ _ _ _ _ _ _ _ _ _ _ _ _));
       reflexivity|].
    rewrite app_assoc. reflexivity.
Defined.

Lemma unreadable_results_fail_the_run_witness :
  RunExamples.run (fun _ => true) (Some "token")
    (fun _ => Eff.Throw RunExamples.unexpectedEnd) (fun _ => Eff.Ok tt)
    ([], Eff.Ok tt) (fun _ => Eff.Ok tt)
  = ([ Eff.Info "Running tests in /repo";
       Eff.Info "Results file: /repo/jest.results.json";
       Eff.Info
         ("Running jest with command: npx jest -- "
            ++ "--testLocationInResults --json --coverage  "
            ++ "--outputFile=/repo/jest.results.json");
       Eff.Error
         ("Jest execution failed. Tests have likely failed." ++ nl ++ "{}");
       Eff.Info ("jest command executed:" ++ nl ++ "std");
       Eff.ConsoleError
         (ErrorObject "SyntaxError" "Unexpected end of JSON input");
       Eff.SetFailed "Unexpected end of JSON input" ],
     Eff.Ok tt).
Proof.
  unfold RunExamples.run.
  etransitivity; [eapply unreadable_results_fail_the_run; reflexivity|].
  reflexivity.
Defined.

(** A pull request whose head commit is not the commit of the context: the
    check is for the head commit. The request for the check is rejected,
    and the run goes on to the coverage step, where
    [deletePreviousComments] is not reached. *)
Lemma rejected_check_does_not_stop_the_run_witness :
  exists payload,
    head_sha payload = "head-sha"
    /\ RunExamples.run (fun _ => true) (Some "token")
         (fun _ => Eff.Ok Examples.passedRun)
         (fun _ => Eff.Throw RunExamples.forbidden)
         ([], Eff.Throw (NotAnError "not reached")) (fun _ => Eff.Ok tt)
       = ([ Eff.Info "Running tests in /repo";
            Eff.Info "Results file: /repo/jest.results.json";
            Eff.Info
              ("Running jest with command: npx jest -- "
                 ++ "--testLocationInResults --json --coverage  "
                 ++ "--outputFile=/repo/jest.results.json");
            Eff.Error
              ("Jest execution failed. Tests have likely failed." ++ nl
                 ++ "{}");
            Eff.Info ("jest command executed:" ++ nl ++ "std");
            Eff.Info ("Parsed results:" ++ nl ++ "results");
            Eff.Info "SHA: head-sha";
            Eff.Info ("Check payload:" ++ nl ++ "payload");
            Eff.Error
              ("Error creating check: "
                 ++ "HttpError: Resource not accessible by integration");
            Eff.SetFailed
              ("Error creating check: "
                 ++ "HttpError: Resource not accessible by integration");
            Eff.Info "Pull ID: 7";
            Eff.Warning "No coverage map found" ],
          Eff.Ok tt).
Proof.
  unfold RunExamples.run.
  edestruct (rejected_check_does_not_stop_the_run Z (fun x k => k <? x)
               (fun x => NilZero.string_of_int (Z.to_int x))
               (fun _ p => p) (fun p => p) (fun _ => "src")
               (fun p => "/repo/" ++ p) (fun a b => a ++ b) "/" "/repo"
               (fun _ => true) (Some "token") "" "npx jest" (Eff.Ok true)
               (Eff.Ok false) None "owner" "repo" "merge-sha"
               (Some "head-sha") 7%N RunExamples.exec string_of_list_byte
               (fun _ => Eff.Ok tt) (fun _ => Eff.Ok Examples.passedRun)
               (fun _ => Eff.Throw RunExamples.forbidden)
               ([], Eff.Throw (NotAnError "not reached"))
               (fun _ => Eff.Ok tt) (fun s => s) (fun _ => "{}")
               (fun _ => "std") (fun _ => "results") (fun _ => "payload")
               (fun _ => "annotations"))
    as (payloadLog & payload & Hpayload & Hsha & _ & Hrun);
    [reflexivity | reflexivity | reflexivity | reflexivity | reflexivity
    | reflexivity | reflexivity | ].
  exists payload. split; [exact Hsha|].
  etransitivity; [exact Hrun|].
  injection Hpayload as <- <-. reflexivity.
Defined.

(** ** The size of the detail table *)

(** X26. Whatever the coverage map holds, the detail table of the coverage
    comment has at most 60186 characters: the budget of 60000 and the
    placeholder row of five cells. *)
Theorem detail_table_has_at_most_60186_characters
    (number : Type) (number_gtb : number -> Z -> bool)
    (number_toString : number -> string)
    (groups : list (string * list (File number))) :
  strlen
    (toHTMLTable ("File" :: Coverage.headers)
       (List.concat
          (map (Coverage.directoryRows number number_gtb number_toString)
               groups))
       (Finite Coverage.CHAR_LIMIT))
  <= 60186.
Proof.
  set (rows := List.concat _).
  assert (Hdummy : rowSize tdCell (dummyRow rows) <= 186).
  { subst rows. destruct groups as [|[dir files] groups].
    - vm_compute. discriminate.
    - cbn [map List.concat]. unfold Coverage.directoryRows at 1.
      rewrite <- app_comm_cons. unfold dummyRow. cbn [hd List.length].
      vm_compute. discriminate. }
  rewrite strlen_toHTMLTable. cbn [limit_sub].
  match goal with
  | |- ?cost + _ <= _ => remember cost as fixed eqn:Hfixed
  end.
  assert (Hvalue : fixed = 130) by (rewrite Hfixed; vm_compute; reflexivity).
  clear Hfixed. subst fixed.
  destruct (toHTMLTableRow_length_bound rows tdCell "tbody"
              (Coverage.CHAR_LIMIT - 130)) as (Hbody & _ & _).
  { vm_compute. discriminate. }
  unfold Coverage.CHAR_LIMIT in *. lia.
Qed.
